(** * robottelo.entities: a shallow embedding and its verified properties

    The module [robottelo/entities.py] declares the Foreman entities and a
    number of helper methods that talk to the server through
    [robottelo.api.client].  This development embeds

    - the [Meta] declarations of every entity class (a table),
    - the [path] overrides,
    - every method that issues an HTTP request, in a monad that reads the
      environment, records the effects in order and propagates exceptions,
    - [OperatingSystemParameter.read] over an explicit object store,
    - [ConfigTemplate._factory_data] over a dictionary of values,
    - the [read] and [_factory_data] overrides that work on dictionaries,
    - the relationship fields of every entity class (a table),

    and proves the properties stated about them. *)

From Stdlib Require Import ZArith List String Ascii Bool Lia.
From stdpp Require Import gmap strings.
Import ListNotations.
Set Warnings "-register-all".
Local Open Scope string_scope.
Local Open Scope list_scope.
Local Open Scope Z_scope.

(** ** Python values, exceptions and results *)

(** The values that flow through this module: decoded JSON, keyword
    arguments and entity attributes.  Dictionaries have string keys only
    and are kept as the list of their items. *)
Inductive pyval : Type :=
| PNone
| PBool (b : bool)
| PInt (z : Z)
| PStr (s : string)
| PList (l : list pyval)
| PDict (d : list (string * pyval)).

(** The exception classes that can surface from the methods below. *)
Inductive exn : Type :=
| HTTPError (status : Z)            (* requests.exceptions.HTTPError *)
| APIResponseError (args : list pyval)
| TaskTimeout                       (* robottelo.orm.TaskTimeout *)
| ValueError                        (* undecodable JSON *)
| KeyError (key : string)
| IndexError
| TypeError
| IOError
| NoSuchPathError.                  (* robottelo.orm.NoSuchPathError *)

Inductive result (A : Type) : Type :=
| Return (a : A)
| Raise (e : exn).
Arguments Return {A} a.
Arguments Raise {A} e.

(** An entity instance is the dictionary of its attributes; an attribute
    that was never set reads as [None]. *)
Abbreviation Obj := (gmap string pyval).

Definition attr (self : Obj) (name : string) : pyval :=
  default PNone (self !! name).

Definition is_None (v : pyval) : bool :=
  match v with PNone => true | _ => false end.

(** [v is True]: only the boolean [True] itself. *)
Definition is_True (v : pyval) : bool :=
  match v with PBool true => true | _ => false end.

(** [v is False]. *)
Definition is_False (v : pyval) : bool :=
  match v with PBool false => true | _ => false end.

(** ** HTTP vocabulary *)

Inductive Verb : Type := GET | POST | PUT.

Record Request : Type := mkRequest {
  verb : Verb;
  url : string;
  data : option pyval;
  files : option pyval
}.

(** A response: its status code and its body decoded as JSON, when it
    decodes ([response.json()] raises [ValueError] otherwise). *)
Record Response : Type := mkResponse {
  status_code : Z;
  body : option pyval
}.

(** [httplib.ACCEPTED]. *)
Definition ACCEPTED : Z := 202.

(** What [Response.raise_for_status] of the HTTP client library raises on:
    a 4XX or 5XX status code. *)
Definition is_http_error (status : Z) : bool :=
  (400 <=? status) && (status <? 600).

(** Effects, in the order they happen. *)
Inductive Event : Type :=
| EvHttp (rq : Request)                       (* one request on the wire *)
| EvSleep (seconds : Z)                       (* time.sleep *)
| EvPoll (task_id : pyval) (poll_rate timeout : Z)  (* orm._poll_task *)
| EvCall (name : string) (cls : string).      (* a call into orm / factory *)

(** The requests of a trace, in order. *)
Definition requests (tr : list Event) : list Request :=
  flat_map (fun e => match e with EvHttp rq => [rq] | _ => [] end) tr.

Definition http_count (tr : list Event) : nat := List.length (requests tr).

(** Everything the module takes from outside itself: the Python
    implementation, the server, and the parts of the repository that the
    module only calls ([robottelo.orm], [robottelo.factory],
    [robottelo.common]). *)
Record Env : Type := mkEnv {
  (* [a is b] on two integer objects: object identity, which the language
     leaves to the implementation. *)
  int_is : Z -> Z -> bool;
  (* the server's answer to a request that [n] requests went before *)
  respond : nat -> Request -> Response;
  (* orm._poll_task(task_id, poll_rate, timeout, auth) *)
  poll_task : pyval -> Z -> Z -> result pyval;
  (* robottelo.common.decorators.bz_bug_is_open *)
  bz_bug_is_open : Z -> bool;
  (* orm.Entity.path of the class named, on an instance *)
  entity_path : string -> Obj -> option string -> result string;
  (* robottelo.common.helpers.escape_search *)
  escape_search : string -> string;
  (* open(path, 'rb'): the file handle, or IOError *)
  open_file : string -> result pyval;
  (* datetime.now().strftime(fmt) *)
  strftime_now : string -> string;
  (* the builtin str() *)
  py_str : pyval -> string;
  (* factory: the create method of a new instance of the class named *)
  entity_create : string -> Obj -> result pyval;
  (* factory: super().build(auth) of the class named *)
  super_build : string -> Obj -> result pyval;
  (* factory: super()._factory_data() of the class named *)
  super_factory_data : string -> Obj -> result pyval
}.

(** ** The monad: reader of [Env], writer of [Event]s, errors [exn]

    A computation is told how many requests went out before it started
    (the server's answers are numbered) and gives its result together
    with the effects it has had itself, in order. *)

Definition M (A : Type) : Type := Env -> nat -> result A * list Event.

Definition ret {A} (a : A) : M A := fun _ _ => (Return a, []).

Definition raise {A} (e : exn) : M A := fun _ _ => (Raise e, []).

Definition bind {A B} (m : M A) (k : A -> M B) : M B :=
  fun env n =>
    match m env n with
    | (Return a, evs) =>
        let '(r, evs') := k a env (n + http_count evs)%nat in
        (r, evs ++ evs')
    | (Raise e, evs) => (Raise e, evs)
    end.

Notation "'do' x <- c ; k" := (bind c (fun x => k))
  (at level 10, x name, c at level 100, k at level 200).
Notation "'run' c ; k" := (bind c (fun _ => k))
  (at level 10, c at level 100, k at level 200).

Definition lift {A} (r : result A) : M A := fun _ _ => (r, []).

Definition ask {A} (f : Env -> A) : M A := fun env _ => (Return (f env), []).

Definition emit (e : Event) : M unit := fun _ _ => (Return tt, [e]).

(** Running a method when no request has gone out yet. *)
Definition outcome {A} (m : M A) (env : Env) : result A := fst (m env 0%nat).
Definition effects {A} (m : M A) (env : Env) : list Event := snd (m env 0%nat).

(** ** The client and the Python primitives the methods use *)

(** Credentials and [verify=False] accompany every request alike and are
    left out of the request record. *)
Definition client_request (v : Verb) (path : string)
    (dat fls : option pyval) : M Response :=
  fun env n =>
    let rq := mkRequest v path dat fls in
    (Return (respond env n rq), [EvHttp rq]).

Definition client_get (path : string) (dat : option pyval) : M Response :=
  client_request GET path dat None.
Definition client_post (path : string) (dat fls : option pyval) : M Response :=
  client_request POST path dat fls.
Definition client_put (path : string) (dat : option pyval) : M Response :=
  client_request PUT path dat None.

Definition raise_for_status (response : Response) : M unit :=
  if is_http_error (status_code response)
  then raise (HTTPError (status_code response))
  else ret tt.

Definition response_json (response : Response) : M pyval :=
  match body response with
  | Some j => ret j
  | None => raise ValueError
  end.

Fixpoint assoc (k : string) (d : list (string * pyval)) : option pyval :=
  match d with
  | [] => None
  | (k', v) :: d' => if String.eqb k k' then Some v else assoc k d'
  end.

(** [v[key]] for a string key. *)
Definition getitem (v : pyval) (key : string) : M pyval :=
  match v with
  | PDict d =>
      match assoc key d with
      | Some x => ret x
      | None => raise (KeyError key)
      end
  | _ => raise TypeError
  end.

(** [v[0]]. *)
Definition getitem0 (v : pyval) : M pyval :=
  match v with
  | PList (x :: _) => ret x
  | PList [] => raise IndexError
  | PStr (String c _) => ret (PStr (String c EmptyString))
  | PStr EmptyString => raise IndexError
  | PDict _ => raise (KeyError "0")
  | _ => raise TypeError
  end.

(** [len(v)]. *)
Definition py_len (v : pyval) : M Z :=
  match v with
  | PList l => ret (Z.of_nat (List.length l))
  | PDict d => ret (Z.of_nat (List.length d))
  | PStr s => ret (Z.of_nat (String.length s))
  | _ => raise TypeError
  end.

(** ['{0}/{1}'.format(a, b)] on two strings. *)
Definition join_path (a b : string) : string := (a ++ "/" ++ b)%string.

(** [which in (w1, w2, ...)]. *)
Definition which_in (which : option string) (ws : list string) : bool :=
  match which with
  | Some w => existsb (String.eqb w) ws
  | None => false
  end.

(** [which] as [str.format] prints it. *)
Definition which_str (which : option string) : string :=
  match which with
  | Some w => w
  | None => "None"
  end.

Definition which_eq (which : option string) (w : string) : bool :=
  match which with
  | Some w' => String.eqb w' w
  | None => false
  end.

(** The inherited [orm.Entity.path], for the class named. *)
Definition Entity_path (cls : string) (self : Obj) (which : option string)
    : M string :=
  do p <- ask (fun env => entity_path env cls self which);
  lift p.

(** [orm._poll_task(task_id, poll_rate, timeout, auth)] as its callers see
    it: one effect, whose result the environment gives. *)
Definition orm_poll_task (task_id : pyval) (poll_rate timeout : Z) : M pyval :=
  run emit (EvPoll task_id poll_rate timeout);
  do r <- ask (fun env => poll_task env task_id poll_rate timeout);
  lift r.

Definition ForemanTask (task_id : pyval) : Obj := {[ "id" := task_id ]}.

(** [ForemanTask.poll(poll_rate, timeout, auth)]: hands over to
    [orm._poll_task] with the task's own id. *)
Definition ForemanTask_poll (self : Obj) (poll_rate timeout : Z) : M pyval :=
  orm_poll_task (attr self "id") poll_rate timeout.

(** Defaults of [ForemanTask.poll]. *)
Definition default_poll_rate : Z := 5.
Definition default_timeout : Z := 120.

(** ** The [path] overrides *)

Definition ActivationKey_path (self : Obj) (which : option string) : M string :=
  if which_in which ["releases"; "subscriptions"] then
    do base <- Entity_path "ActivationKey" self (Some "self");
    ret (join_path base (which_str which))
  else Entity_path "ActivationKey" self which.

Definition ContentViewVersion_path (self : Obj) (which : option string)
    : M string :=
  if which_eq which "promote" then
    do base <- Entity_path "ContentViewVersion" self (Some "self");
    ret (base ++ "/promote")%string
  else Entity_path "ContentViewVersion" self which.

Definition ContentView_path (self : Obj) (which : option string) : M string :=
  if which_in which ["content_view_puppet_modules"; "content_view_versions";
                     "publish"; "available_puppet_module_names"] then
    do base <- Entity_path "ContentView" self (Some "self");
    ret (join_path base (which_str which))
  else Entity_path "ContentView" self which.

Definition ForemanTask_path (self : Obj) (which : option string) : M string :=
  if which_eq which "bulk_search" then
    do base <- Entity_path "ForemanTask" self (Some "base");
    ret (base ++ "/bulk_search")%string
  else Entity_path "ForemanTask" self (Some "self").

Definition Organization_path (self : Obj) (which : option string) : M string :=
  if which_in which ["products"; "subscriptions/delete_manifest";
                     "subscriptions/refresh_manifest"; "subscriptions/upload";
                     "sync_plans"; "subscriptions"] then
    do base <- Entity_path "Organization" self (Some "self");
    ret (join_path base (which_str which))
  else Entity_path "Organization" self which.

Definition Product_path (self : Obj) (which : option string) : M string :=
  match which with
  | Some w =>
      if String.prefix "repository_sets" w then
        do base <- Entity_path "Product" self (Some "self");
        ret (join_path base w)
      else Entity_path "Product" self which
  | None => Entity_path "Product" self which
  end.

Definition Repository_path (self : Obj) (which : option string) : M string :=
  if which_in which ["sync"; "upload_content"] then
    do base <- Entity_path "Repository" self (Some "self");
    ret (join_path base (which_str which))
  else Entity_path "Repository" self which.

(** [v] as [str.format] prints it: a string is itself, anything else goes
    through the builtin [str]. *)
Definition shown (env : Env) (v : pyval) : string :=
  match v with
  | PStr s => s
  | _ => py_str env v
  end.

Definition format_arg (v : pyval) : M string :=
  ask (fun env => shown env v).

(** [System.path]: the UUID, when there is one, identifies the system. *)
Definition System_path (self : Obj) (which : option string) : M string :=
  if negb (is_None (attr self "uuid"))
     && (match which with None => true | Some w => String.eqb w "self" end)
  then
    do base <- Entity_path "System" self (Some "base");
    do uuid <- format_arg (attr self "uuid");
    ret (join_path base uuid)
  else Entity_path "System" self which.

(** ** Methods that talk to the server *)

(** Modelled from the spec: [orm.EntityReadMixin.read_raw] is not part of
    this module's source.  It is the plain read of an entity: one HTTP GET
    of the entity's own path, whose response is handed back unexamined. *)
Definition super_read_raw (path_of : Obj -> option string -> M string)
    (self : Obj) : M Response :=
  do p <- path_of self None;
  client_get p None.

Definition ActivationKey_read_raw (self : Obj) : M Response :=
  do response <- super_read_raw ActivationKey_path self;
  do not_found <- ask (fun env => int_is env (status_code response) 404);
  do bug_open <- ask (fun env => bz_bug_is_open env 1127335);
  if not_found && bug_open then
    (* Give elasticsearch a chance to index new activation keys. *)
    run emit (EvSleep 5);
    do response <- super_read_raw ActivationKey_path self;
    ret response
  else ret response.

Definition ActivationKey_add_subsciptions (self : Obj)
    (subscription_id quantity : pyval) : M pyval :=
  do p <- ActivationKey_path self (Some "subscriptions");
  do response <- client_post p
      (Some (PDict [("id", subscription_id); ("quantity", quantity)])) None;
  run raise_for_status response;
  response_json response.

Definition ContentViewVersion_promote (self : Obj)
    (environment_id synchronous : pyval) : M pyval :=
  do p <- ContentViewVersion_path self (Some "promote");
  do response <- client_post p
      (Some (PDict [("environment_id", environment_id)])) None;
  run raise_for_status response;
  (* Return either a ForemanTask ID or None. *)
  do accepted <- ask (fun env => int_is env (status_code response) ACCEPTED);
  if accepted then
    do j <- response_json response;
    do task_id <- getitem j "id";
    run (if is_True synchronous
         then run ForemanTask_poll (ForemanTask task_id)
                    default_poll_rate default_timeout; ret tt
         else ret tt);
    ret task_id
  else ret PNone.

Definition ContentView_publish (self : Obj) (synchronous : pyval) : M pyval :=
  do p <- ContentView_path self (Some "publish");
  do response <- client_post p (Some (PDict [("id", attr self "id")])) None;
  run raise_for_status response;
  (* Return either a ForemanTask ID or None. *)
  do accepted <- ask (fun env => int_is env (status_code response) ACCEPTED);
  if accepted then
    do j <- response_json response;
    do task_id <- getitem j "id";
    run (if is_True synchronous
         then run ForemanTask_poll (ForemanTask task_id)
                    default_poll_rate default_timeout; ret tt
         else ret tt);
    ret task_id
  else ret PNone.

Definition Organization_subscriptions (self : Obj) : M pyval :=
  do p <- Organization_path self (Some "subscriptions");
  do response <- client_get p None;
  run raise_for_status response;
  do j <- response_json response;
  getitem j "results".

Definition Organization_upload_manifest (self : Obj) (path : string)
    (repository_url synchronous : pyval) : M pyval :=
  let dat := if is_None repository_url then None
             else Some (PDict [("repository_url", repository_url)]) in
  do manifest <- (do f <- ask (fun env => open_file env path); lift f);
  do p <- Organization_path self (Some "subscriptions/upload");
  do response <- client_post p dat (Some (PDict [("content", manifest)]));
  run raise_for_status response;
  (* Return either a ForemanTask ID or None. *)
  do accepted <- ask (fun env => int_is env (status_code response) ACCEPTED);
  if accepted then
    do j <- response_json response;
    do task_id <- getitem j "id";
    run (if is_True synchronous
         then run ForemanTask_poll (ForemanTask task_id)
                    default_poll_rate default_timeout; ret tt
         else ret tt);
    ret task_id
  else ret PNone.

Definition Organization_delete_manifest (self : Obj) (synchronous : pyval)
    : M pyval :=
  do p <- Organization_path self (Some "subscriptions/delete_manifest");
  do response <- client_post p None None;
  run raise_for_status response;
  (* Return either a ForemanTask ID or None. *)
  do accepted <- ask (fun env => int_is env (status_code response) ACCEPTED);
  if accepted then
    do j <- response_json response;
    do task_id <- getitem j "id";
    run (if is_True synchronous
         then run ForemanTask_poll (ForemanTask task_id)
                    default_poll_rate default_timeout; ret tt
         else ret tt);
    ret task_id
  else ret PNone.

Definition Organization_refresh_manifest (self : Obj) (synchronous : pyval)
    : M pyval :=
  do p <- Organization_path self (Some "subscriptions/refresh_manifest");
  do response <- client_put p None;
  run raise_for_status response;
  (* Return either a ForemanTask ID or None. *)
  do accepted <- ask (fun env => int_is env (status_code response) ACCEPTED);
  if accepted then
    do j <- response_json response;
    do task_id <- getitem j "id";
    run (if is_True synchronous
         then run ForemanTask_poll (ForemanTask task_id)
                    default_poll_rate default_timeout; ret tt
         else ret tt);
    ret task_id
  else ret PNone.

Definition Organization_sync_plan (self : Obj) (name interval : pyval)
    : M pyval :=
  do sync_date <- ask (fun env => strftime_now env "%Y-%m-%d %H:%M:%S");
  do p <- Organization_path self (Some "sync_plans");
  do response <- client_post p
      (Some (PDict [("name", name); ("interval", interval);
                    ("sync_date", PStr sync_date)])) None;
  run raise_for_status response;
  response_json response.

Definition Organization_list_rhproducts (self : Obj) (per_page : pyval)
    : M pyval :=
  do p <- Organization_path self (Some "products");
  do response <- client_get p (Some (PDict [("per_page", per_page)]));
  run raise_for_status response;
  do j <- response_json response;
  getitem j "results".

(** ['name={}'.format(escape_search(name))]. *)
Definition name_search (name : string) : M pyval :=
  do escaped <- ask (fun env => escape_search env name);
  ret (PStr ("name=" ++ escaped)%string).

Definition Organization_fetch_rhproduct_id (self : Obj) (name : string)
    : M pyval :=
  do p <- Organization_path self (Some "products");
  do search <- name_search name;
  do response <- client_get p (Some (PDict [("search", search)]));
  run raise_for_status response;
  do j <- response_json response;
  do results <- getitem j "results";
  do n <- py_len results;
  if negb (n =? 1) then
    raise (APIResponseError [PStr "The length of the results is:"; PInt n])
  else
    do first <- getitem0 results;
    getitem first "id".

Definition Permission_search (self : Obj) (per_page : pyval) : M pyval :=
  let search_terms := [("per_page", per_page)] in
  let search_terms :=
    if negb (is_None (attr self "name"))
    then search_terms ++ [("name", attr self "name")] else search_terms in
  let search_terms :=
    if negb (is_None (attr self "resource_type"))
    then search_terms ++ [("resource_type", attr self "resource_type")]
    else search_terms in
  do p <- Entity_path "Permission" self (Some "base");
  do response <- client_get p (Some (PDict search_terms));
  run raise_for_status response;
  do j <- response_json response;
  getitem j "results".

Definition Product_list_repositorysets (self : Obj) (per_page : pyval)
    : M pyval :=
  do p <- Product_path self (Some "repository_sets");
  do response <- client_get p (Some (PDict [("per_page", per_page)]));
  run raise_for_status response;
  do j <- response_json response;
  getitem j "results".

Definition Product_fetch_rhproduct_id (self : Obj) (name : string)
    (org_id : pyval) : M pyval :=
  do p <- Product_path self (Some "base");
  do search <- name_search name;
  do response <- client_get p
      (Some (PDict [("search", search); ("organization_id", org_id)]));
  run raise_for_status response;
  do j <- response_json response;
  do results <- getitem j "results";
  do n <- py_len results;
  if negb (n =? 1) then
    raise (APIResponseError [PStr "The length of the results is:"; PInt n])
  else
    do first <- getitem0 results;
    getitem first "id".

Definition Product_fetch_reposet_id (self : Obj) (name : pyval) : M pyval :=
  do p <- Product_path self (Some "repository_sets");
  do response <- client_get p (Some (PDict [("name", name)]));
  run raise_for_status response;
  do j <- response_json response;
  do results <- getitem j "results";
  do n <- py_len results;
  if negb (n =? 1) then
    raise (APIResponseError [PStr "The length of the results is:"; PInt n])
  else
    do first <- getitem0 results;
    getitem first "id".

Definition Product_enable_rhrepo (self : Obj)
    (base_arch release_ver reposet_id synchronous : pyval) : M pyval :=
  do rs <- format_arg reposet_id;
  do p <- Product_path self (Some ("repository_sets/" ++ rs ++ "/enable")%string);
  do response <- client_put p
      (Some (PDict [("basearch", base_arch); ("releasever", release_ver)]));
  run raise_for_status response;
  (* Return either a ForemanTask ID or None. *)
  do accepted <- ask (fun env => int_is env (status_code response) ACCEPTED);
  if accepted then
    do j <- response_json response;
    do task_id <- getitem j "id";
    run (if is_True synchronous
         then run ForemanTask_poll (ForemanTask task_id)
                    default_poll_rate default_timeout; ret tt
         else ret tt);
    ret task_id
  else ret PNone.

Definition Product_disable_rhrepo (self : Obj)
    (base_arch release_ver reposet_id synchronous : pyval) : M pyval :=
  do rs <- format_arg reposet_id;
  do p <- Product_path self (Some ("repository_sets/" ++ rs ++ "/disable")%string);
  do response <- client_put p
      (Some (PDict [("basearch", base_arch); ("releasever", release_ver)]));
  run raise_for_status response;
  (* Return either a ForemanTask ID or None. *)
  do accepted <- ask (fun env => int_is env (status_code response) ACCEPTED);
  if accepted then
    do j <- response_json response;
    do task_id <- getitem j "id";
    run (if is_True synchronous
         then run ForemanTask_poll (ForemanTask task_id)
                    default_poll_rate default_timeout; ret tt
         else ret tt);
    ret task_id
  else ret PNone.

Definition Repository_sync (self : Obj) (synchronous : pyval) : M pyval :=
  do p <- Repository_path self (Some "sync");
  do response <- client_post p None None;
  run raise_for_status response;
  (* Return either a ForemanTask ID or None. *)
  do accepted <- ask (fun env => int_is env (status_code response) ACCEPTED);
  if accepted then
    do j <- response_json response;
    do task_id <- getitem j "id";
    run (if is_True synchronous
         then run ForemanTask_poll (ForemanTask task_id)
                    default_poll_rate default_timeout; ret tt
         else ret tt);
    ret task_id
  else ret PNone.

Definition Repository_fetch_repoid (self : Obj) (org_id : pyval)
    (name : string) : M pyval :=
  do p <- Repository_path self None;
  do search <- name_search name;
  do response <- client_get p
      (Some (PDict [("organization_id", org_id); ("search", search)]));
  run raise_for_status response;
  do j <- response_json response;
  do results <- getitem j "results";
  do n <- py_len results;
  if negb (n =? 1) then
    raise (APIResponseError [PStr "The length of the results is:"; PInt n])
  else
    do first <- getitem0 results;
    getitem first "id".

(** A call into the factory layer: [Cls(kwargs).create(auth)]. *)
Definition call_create (cls : string) (kwargs : Obj) : M pyval :=
  run emit (EvCall "create" cls);
  do r <- ask (fun env => entity_create env cls kwargs);
  lift r.

Definition call_super_build (cls : string) (self : Obj) : M pyval :=
  run emit (EvCall "build" cls);
  do r <- ask (fun env => super_build env cls self);
  lift r.

Definition call_super_factory_data (cls : string) (self : Obj) : M pyval :=
  run emit (EvCall "_factory_data" cls);
  do r <- ask (fun env => super_factory_data env cls self);
  lift r.

(** [Host._factory_data]; the instance it has filled in is returned next to
    the values. *)
Definition Host_factory_data (self : Obj) : M (Obj * pyval) :=
  do self <-
    (if is_None (attr self "operatingsystem")
        && is_None (attr self "architecture")
        && is_None (attr self "ptable")
        && is_None (attr self "medium")
     then
       do a <- call_create "Architecture" ∅;
       do a_id <- getitem a "id";
       let self := <["architecture" := a_id]> self in
       do pt <- call_create "PartitionTable" ∅;
       do pt_id <- getitem pt "id";
       let self := <["ptable" := pt_id]> self in
       do os <- call_create "OperatingSystem"
                  (<["ptable" := PList [attr self "ptable"]]>
                     {[ "architecture" := PList [attr self "architecture"] ]});
       do os_id <- getitem os "id";
       let self := <["operatingsystem" := os_id]> self in
       do m <- call_create "Media"
                 {[ "operatingsystem" := PList [attr self "operatingsystem"] ]};
       do m_id <- getitem m "id";
       ret (<["medium" := m_id]> self)
     else ret self);
  do self <-
    (if is_None (attr self "puppet_proxy") then
       do p <- Entity_path "SmartProxy" ∅ None;
       do response <- client_get p None;
       run raise_for_status response;
       do j <- response_json response;
       do results <- getitem j "results";
       do first <- getitem0 results;
       do proxy_id <- getitem first "id";
       ret (<["puppet_proxy" := proxy_id]> self)
     else ret self);
  do values <- call_super_factory_data "Host" self;
  ret (self, values).

(** The double quote character, for messages that quote a name. *)
Definition dquote : string := String (ascii_of_nat 34) EmptyString.

Definition library_not_found (organization count : string) : string :=
  ("Could not find the " ++ dquote ++ "Library" ++ dquote
   ++ " lifecycle environment for organization " ++ organization
   ++ ". Search returned " ++ count ++ " results.")%string.

(** The search for the "Library" lifecycle environment of the
    instance's organization, as [LifecycleEnvironment.build] performs it
    when the instance has no [prior]: from [client.get] to the [id] that
    becomes [self.prior]. *)
Definition LifecycleEnvironment_library_lookup (self : Obj) : M pyval :=
  do p <- Entity_path "LifecycleEnvironment" self None;
  do response <- client_get p
      (Some (PDict [("name", PStr "Library");
                    ("organization_id", attr self "organization")]));
  do j <- response_json response;
  do query_results <- getitem j "results";
  do n <- py_len query_results;
  if negb (n =? 1) then
    do org <- format_arg (attr self "organization");
    do count <- format_arg (PInt n);
    raise (APIResponseError [PStr (library_not_found org count)])
  else
    do first <- getitem0 query_results;
    getitem first "id".

(** [LifecycleEnvironment.build]; the instance it has filled in is returned
    next to what [super().build] gives. *)
Definition LifecycleEnvironment_build (self : Obj) : M (Obj * pyval) :=
  do self <-
    (if is_None (attr self "organization") then
       do org <- call_create "Organization" ∅;
       do org_id <- getitem org "id";
       ret (<["organization" := org_id]> self)
     else ret self);
  do self <-
    (if is_None (attr self "prior") then
       do prior <- LifecycleEnvironment_library_lookup self;
       ret (<["prior" := prior]> self)
     else ret self);
  do built <- call_super_build "LifecycleEnvironment" self;
  ret (self, built).

(** ** The methods as one family

    Every method of the module that issues a request itself, under one
    type, so that statements can range over all of them. *)

Inductive AsyncHelper : Type :=
| Publish (self : Obj)
| Promote (self : Obj) (environment_id : pyval)
| Sync (self : Obj)
| UploadManifest (self : Obj) (path : string) (repository_url : pyval)
| DeleteManifest (self : Obj)
| RefreshManifest (self : Obj)
| EnableRhrepo (self : Obj) (base_arch release_ver reposet_id : pyval)
| DisableRhrepo (self : Obj) (base_arch release_ver reposet_id : pyval).

Definition async_call (h : AsyncHelper) (synchronous : pyval) : M pyval :=
  match h with
  | Publish self => ContentView_publish self synchronous
  | Promote self environment_id =>
      ContentViewVersion_promote self environment_id synchronous
  | Sync self => Repository_sync self synchronous
  | UploadManifest self path repository_url =>
      Organization_upload_manifest self path repository_url synchronous
  | DeleteManifest self => Organization_delete_manifest self synchronous
  | RefreshManifest self => Organization_refresh_manifest self synchronous
  | EnableRhrepo self base_arch release_ver reposet_id =>
      Product_enable_rhrepo self base_arch release_ver reposet_id synchronous
  | DisableRhrepo self base_arch release_ver reposet_id =>
      Product_disable_rhrepo self base_arch release_ver reposet_id synchronous
  end.

Inductive UniqueSearch : Type :=
| OrgRhproductId (self : Obj) (name : string)
| ProductRhproductId (self : Obj) (name : string) (org_id : pyval)
| ReposetId (self : Obj) (name : pyval)
| RepoId (self : Obj) (org_id : pyval) (name : string)
| LibraryLookup (self : Obj).

Definition unique_search (u : UniqueSearch) : M pyval :=
  match u with
  | OrgRhproductId self name => Organization_fetch_rhproduct_id self name
  | ProductRhproductId self name org_id =>
      Product_fetch_rhproduct_id self name org_id
  | ReposetId self name => Product_fetch_reposet_id self name
  | RepoId self org_id name => Repository_fetch_repoid self org_id name
  | LibraryLookup self => LifecycleEnvironment_library_lookup self
  end.

Inductive PlainHelper : Type :=
| AddSubscriptions (self : Obj) (subscription_id quantity : pyval)
| Subscriptions (self : Obj)
| SyncPlan (self : Obj) (name interval : pyval)
| ListRhproducts (self : Obj) (per_page : pyval)
| PermissionSearch (self : Obj) (per_page : pyval)
| ListRepositorysets (self : Obj) (per_page : pyval).

Definition plain_call (l : PlainHelper) : M pyval :=
  match l with
  | AddSubscriptions self subscription_id quantity =>
      ActivationKey_add_subsciptions self subscription_id quantity
  | Subscriptions self => Organization_subscriptions self
  | SyncPlan self name interval => Organization_sync_plan self name interval
  | ListRhproducts self per_page => Organization_list_rhproducts self per_page
  | PermissionSearch self per_page => Permission_search self per_page
  | ListRepositorysets self per_page =>
      Product_list_repositorysets self per_page
  end.

Inductive Call : Type :=
| CAsync (h : AsyncHelper) (synchronous : pyval)
| CUnique (u : UniqueSearch)
| CPlain (l : PlainHelper)
| CHostFactoryData (self : Obj)
| CBuild (self : Obj)
| CReadRaw (self : Obj).

(** What a call hands back. *)
Inductive retval : Type :=
| RVal (v : pyval)
| RFilled (self : Obj) (v : pyval)
| RResponse (r : Response).

Definition fmap {A B} (f : A -> B) (m : M A) : M B :=
  do x <- m; ret (f x).

Definition invoke (c : Call) : M retval :=
  match c with
  | CAsync h synchronous => fmap RVal (async_call h synchronous)
  | CUnique u => fmap RVal (unique_search u)
  | CPlain l => fmap RVal (plain_call l)
  | CHostFactoryData self =>
      fmap (fun r => RFilled (fst r) (snd r)) (Host_factory_data self)
  | CBuild self =>
      fmap (fun r => RFilled (fst r) (snd r)) (LifecycleEnvironment_build self)
  | CReadRaw self => fmap RResponse (ActivationKey_read_raw self)
  end.

(** The methods that follow their request with [raise_for_status]. *)
Definition checks_status (c : Call) : bool :=
  match c with
  | CUnique (LibraryLookup _) | CBuild _ | CReadRaw _ => false
  | CAsync _ _ | CUnique _ | CPlain _ | CHostFactoryData _ => true
  end.

Definition is_read_raw (c : Call) : bool :=
  match c with CReadRaw _ => true | _ => false end.

(** ** The [Meta] declarations *)

(** What a [Meta] attribute is assigned: a string, or a tuple of strings.
    A parenthesised string without a comma is a string. *)
Inductive decl : Type :=
| DStr (s : string)
| DTuple (items : list string).

Record Meta : Type := mkMeta {
  api_path : decl;
  api_names : option (list (string * string));
  server_modes : decl
}.

(** One entity class: its name, the names of its fields in declaration
    order, and the inner [Meta] class of its body, if it has one. *)
Record EntityClass : Type := mkEntityClass {
  cls_name : string;
  cls_fields : list string;
  cls_meta : option Meta
}.

Definition entities : list EntityClass := [
  {| cls_name := "ActivationKey";
     cls_fields :=
        ["organization"; "name"; "description"; "environment";
        "content_view"; "unlimited_content_hosts"; "max_content_hosts";
        "host_collection"];
     cls_meta :=
       Some {| api_path := DStr "katello/api/v2/activation_keys";
            api_names := None;
            server_modes := DTuple ["sat"; "sam"] |} |};
  {| cls_name := "Architecture";
     cls_fields :=
        ["name"; "operatingsystem"];
     cls_meta :=
       Some {| api_path := DStr "api/v2/architectures";
            api_names := None;
            server_modes := DStr "sat" |} |};
  {| cls_name := "AuthSourceLDAP";
     cls_fields :=
        ["account"; "attr_photo"; "base_dn"; "host"; "name";
        "onthefly_register"; "port"; "tls"; "account_password";
        "attr_firstname"; "attr_lastname"; "attr_login"; "attr_mail"];
     cls_meta :=
       Some {| api_path := DStr "api/v2/auth_source_ldaps";
            api_names := None;
            server_modes := DStr "sat" |} |};
  {| cls_name := "Bookmark";
     cls_fields :=
        ["name"; "controller"; "query"; "public"];
     cls_meta :=
       Some {| api_path := DStr "api/v2/bookmarks";
            api_names := None;
            server_modes := DStr "sat" |} |};
  {| cls_name := "CommonParameter";
     cls_fields :=
        ["name"; "value"];
     cls_meta :=
       Some {| api_path := DStr "api/v2/common_parameters";
            api_names := None;
            server_modes := DStr "sat" |} |};
  {| cls_name := "ComputeAttribute";
     cls_fields :=
        ["compute_profile"; "compute_resource"];
     cls_meta :=
       Some {| api_path := DStr "api/v2/compute_attributes";
            api_names := None;
            server_modes := DStr "sat" |} |};
  {| cls_name := "ComputeProfile";
     cls_fields :=
        ["name"];
     cls_meta :=
       Some {| api_path := DStr "api/v2/compute_profiles";
            api_names := None;
            server_modes := DStr "sat" |} |};
  {| cls_name := "ComputeResource";
     cls_fields :=
        ["description"; "name"; "password"; "provider"; "region";
        "server"; "tenant"; "url"; "user"; "uuid"];
     cls_meta :=
       Some {| api_path := DStr "api/v2/compute_resources";
            api_names := None;
            server_modes := DStr "sat" |} |};
  {| cls_name := "ConfigGroup";
     cls_fields :=
        ["name"];
     cls_meta :=
       Some {| api_path := DStr "api/v2/config_groups";
            api_names := None;
            server_modes := DStr "sat" |} |};
  {| cls_name := "ConfigTemplate";
     cls_fields :=
        ["audit_comment"; "locked"; "name"; "operatingsystem"; "snippet";
        "template_combinations"; "template_kind"; "template"];
     cls_meta :=
       Some {| api_path := DStr "api/v2/config_templates";
            api_names := None;
            server_modes := DStr "sat" |} |};
  {| cls_name := "ContentUpload";
     cls_fields :=
        ["repository"];
     cls_meta :=
       Some {| api_path := DStr "katello/api/v2/repositories/:repository_id/content_uploads";
            api_names := None;
            server_modes := DStr "sat" |} |};
  {| cls_name := "ContentViewVersion";
     cls_fields :=
        [];
     cls_meta :=
       Some {| api_path := DStr "katello/api/v2/content_view_versions";
            api_names := None;
            server_modes := DStr "sat" |} |};
  {| cls_name := "ContentViewFilterRule";
     cls_fields :=
        ["content_view_filter"; "name"; "version"; "min_version";
        "max_version"; "errata"; "start_date"; "end_date"; "types"];
     cls_meta :=
       Some {| api_path := DStr "katello/api/v2/content_view_filters/:content_view_filter_id/rules";
            api_names := None;
            server_modes := DStr "sat" |} |};
  {| cls_name := "ContentViewFilter";
     cls_fields :=
        ["content_view"; "name"; "filter_type"; "original_packages";
        "inclusion"; "repositories"];
     cls_meta :=
       Some {| api_path := DStr "katello/api/v2/content_view_filters";
            api_names := Some [("filter_type", "type")];
            server_modes := DStr "sat" |} |};
  {| cls_name := "ContentViewPuppetModule";
     cls_fields :=
        ["content_view"; "name"; "author"; "uuid"];
     cls_meta :=
       Some {| api_path := DStr "katello/api/v2/content_views/:content_view_id/content_view_puppet_modules";
            api_names := None;
            server_modes := DStr "sat" |} |};
  {| cls_name := "ContentView";
     cls_fields :=
        ["organization"; "name"; "label"; "composite"; "description";
        "repository"; "component"];
     cls_meta :=
       Some {| api_path := DStr "katello/api/v2/content_views";
            api_names := None;
            server_modes := DStr "sat" |} |};
  {| cls_name := "CustomInfo";
     cls_fields :=
        ["informable_type"; "keyname"; "value"];
     cls_meta :=
       Some {| api_path := DStr "katello/api/v2/custom_info/:informable_type/:informable_id";
            api_names := None;
            server_modes := DStr "sat" |} |};
  {| cls_name := "Domain";
     cls_fields :=
        ["domain_parameters_attributes"; "fullname"; "name"];
     cls_meta :=
       Some {| api_path := DStr "api/v2/domains";
            api_names := None;
            server_modes := DStr "sat" |} |};
  {| cls_name := "Environment";
     cls_fields :=
        ["name"];
     cls_meta :=
       Some {| api_path := DStr "api/v2/environments";
            api_names := None;
            server_modes := DStr "sat" |} |};
  {| cls_name := "Errata";
     cls_fields :=
        [];
     cls_meta :=
       Some {| api_path := DStr "api/v2/errata";
            api_names := None;
            server_modes := DStr "sat" |} |};
  {| cls_name := "Filter";
     cls_fields :=
        ["role"; "search"; "permission"; "organization"; "location"];
     cls_meta :=
       Some {| api_path := DStr "api/v2/filters";
            api_names := None;
            server_modes := DStr "sat" |} |};
  {| cls_name := "ForemanTask";
     cls_fields :=
        [];
     cls_meta :=
       Some {| api_path := DStr "foreman_tasks/api/tasks";
            api_names := None;
            server_modes := DStr "sat" |} |};
  {| cls_name := "GPGKey";
     cls_fields :=
        ["organization"; "location"; "name"; "content"];
     cls_meta :=
       Some {| api_path := DStr "katello/api/v2/gpg_keys";
            api_names := None;
            server_modes := DStr "sat" |} |};
  {| cls_name := "HostClasses";
     cls_fields :=
        ["host"; "puppetclass"];
     cls_meta :=
       Some {| api_path := DStr "api/v2/hosts/:host_id/puppetclass_ids";
            api_names := None;
            server_modes := DStr "sat" |} |};
  {| cls_name := "HostCollectionErrata";
     cls_fields :=
        ["errata"];
     cls_meta :=
       Some {| api_path := DStr "katello/api/v2/organizations/:organization_id/host_collections/:host_collection_id/errata";
            api_names := None;
            server_modes := DStr "sat" |} |};
  {| cls_name := "HostCollectionPackage";
     cls_fields :=
        ["packages"; "groups"];
     cls_meta :=
       Some {| api_path := DStr "katello/api/v2/organizations/:organization_id/host_collections/:host_collection_id/packages";
            api_names := None;
            server_modes := DStr "sat" |} |};
  {| cls_name := "HostCollection";
     cls_fields :=
        ["description"; "max_content_hosts"; "name"; "organization";
        "system"];
     cls_meta :=
       Some {| api_path := DStr "katello/api/v2/host_collections";
            api_names := None;
            server_modes := DTuple ["sat"; "sam"] |} |};
  {| cls_name := "HostGroupClasses";
     cls_fields :=
        ["hostgroup"; "puppetclass"];
     cls_meta :=
       Some {| api_path := DStr "api/v2/hostgroups/:hostgroup_id/puppetclass_ids";
            api_names := None;
            server_modes := DStr "sat" |} |};
  {| cls_name := "HostGroup";
     cls_fields :=
        ["name"; "parent"; "environment"; "operatingsystem";
        "architecture"; "medium"; "ptable"; "subnet"; "domain"; "realm"];
     cls_meta :=
       Some {| api_path := DStr "api/v2/hostgroups";
            api_names := None;
            server_modes := DStr "sat" |} |};
  {| cls_name := "Host";
     cls_fields :=
        ["architecture"; "build_"; "capabilities"; "compute_profile";
        "compute_resource"; "domain"; "enabled"; "environment";
        "hostgroup"; "host_parameters_attributes"; "image"; "ip";
        "location"; "mac"; "managed"; "medium"; "model"; "name";
        "operatingsystem"; "organization"; "owner"; "provision_method";
        "ptable"; "puppet_classes"; "puppet_proxy"; "realm"; "root_pass";
        "sp_subnet"; "subnet"];
     cls_meta :=
       Some {| api_path := DStr "api/v2/hosts";
            api_names := Some [("build_", "build")];
            server_modes := DStr "sat" |} |};
  {| cls_name := "Image";
     cls_fields :=
        ["compute_resource"; "name"; "username"; "uuid"; "architecture";
        "operatingsystem"];
     cls_meta :=
       Some {| api_path := DStr "api/v2/compute_resources/:compute_resource_id/images";
            api_names := None;
            server_modes := DStr "sat" |} |};
  {| cls_name := "Interface";
     cls_fields :=
        ["host"; "mac"; "ip"; "interface_type"; "name"; "subnet";
        "domain"; "username"; "password"; "provider"];
     cls_meta :=
       Some {| api_path := DStr "api/v2/hosts/:host_id/interfaces";
            api_names := Some [("interface_type", "type")];
            server_modes := DStr "sat" |} |};
  {| cls_name := "LifecycleEnvironment";
     cls_fields :=
        ["organization"; "name"; "description"; "prior"];
     cls_meta :=
       Some {| api_path := DStr "katello/api/v2/environments";
            api_names := None;
            server_modes := DStr "sat" |} |};
  {| cls_name := "Location";
     cls_fields :=
        ["name"];
     cls_meta :=
       Some {| api_path := DStr "api/v2/locations";
            api_names := None;
            server_modes := DStr "sat" |} |};
  {| cls_name := "Media";
     cls_fields :=
        ["media_path"; "name"; "operatingsystem"; "os_family"];
     cls_meta :=
       Some {| api_path := DStr "api/v2/media";
            api_names := Some [("media_path", "path")];
            server_modes := DStr "sat" |} |};
  {| cls_name := "Model";
     cls_fields :=
        ["name"; "info"; "vendor_class"; "hardware_model"];
     cls_meta :=
       Some {| api_path := DStr "api/v2/models";
            api_names := None;
            server_modes := DStr "sat" |} |};
  {| cls_name := "OperatingSystem";
     cls_fields :=
        ["architecture"; "description"; "family"; "major"; "media";
        "minor"; "name"; "ptable"; "release_name"];
     cls_meta :=
       Some {| api_path := DStr "api/v2/operatingsystems";
            api_names := Some [("media_ids", "media"); ("ptable_ids", "ptables"); ("architecture_ids", "architectures")];
            server_modes := DStr "sat" |} |};
  {| cls_name := "OperatingSystemParameter";
     cls_fields :=
        ["name"; "value"];
     cls_meta :=
       None |};
  {| cls_name := "OrganizationDefaultInfo";
     cls_fields :=
        ["informable_type"; "keyname"; "name"; "info"; "vendor_class";
        "hardware_model"];
     cls_meta :=
       Some {| api_path := DStr "katello/api/v2/organizations/:organization_id/default_info/:informable_type";
            api_names := None;
            server_modes := DTuple ["sat"; "sam"] |} |};
  {| cls_name := "Organization";
     cls_fields :=
        ["name"; "label"; "description"];
     cls_meta :=
       Some {| api_path := DStr "katello/api/v2/organizations";
            api_names := None;
            server_modes := DTuple ["sat"; "sam"] |} |};
  {| cls_name := "OSDefaultTemplate";
     cls_fields :=
        ["operatingsystem"; "template_kind"; "config_template"];
     cls_meta :=
       Some {| api_path := DStr "api/v2/operatingsystems/:operatingsystem_id/os_default_templates";
            api_names := None;
            server_modes := DStr "sat" |} |};
  {| cls_name := "OverrideValue";
     cls_fields :=
        ["smart_variable"; "match"; "value"];
     cls_meta :=
       Some {| api_path := DTuple ["/api/v2/smart_variables/:smart_variable_id/override_values"; "/api/v2/smart_class_parameters/:smart_class_parameter_id/override_values"];
            api_names := None;
            server_modes := DStr "sat" |} |};
  {| cls_name := "Permission";
     cls_fields :=
        ["name"; "resource_type"];
     cls_meta :=
       Some {| api_path := DStr "api/v2/permissions";
            api_names := None;
            server_modes := DTuple ["sat"; "sam"] |} |};
  {| cls_name := "Ping";
     cls_fields :=
        [];
     cls_meta :=
       Some {| api_path := DStr "katello/api/v2/ping";
            api_names := None;
            server_modes := DTuple ["sat"; "sam"] |} |};
  {| cls_name := "Product";
     cls_fields :=
        ["organization"; "location"; "description"; "gpg_key";
        "sync_plan"; "name"; "label"];
     cls_meta :=
       Some {| api_path := DStr "katello/api/v2/products";
            api_names := None;
            server_modes := DTuple ["sat"; "sam"] |} |};
  {| cls_name := "PartitionTable";
     cls_fields :=
        ["name"; "layout"; "os_family"];
     cls_meta :=
       Some {| api_path := DStr "api/v2/ptables";
            api_names := None;
            server_modes := DStr "sat" |} |};
  {| cls_name := "PuppetClass";
     cls_fields :=
        ["name"];
     cls_meta :=
       Some {| api_path := DStr "api/v2/puppetclasses";
            api_names := None;
            server_modes := DStr "sat" |} |};
  {| cls_name := "Realm";
     cls_fields :=
        ["name"; "realm_type"];
     cls_meta :=
       Some {| api_path := DStr "api/v2/realms";
            api_names := None;
            server_modes := DStr "sat" |} |};
  {| cls_name := "Report";
     cls_fields :=
        ["host"; "reported_at"; "logs"];
     cls_meta :=
       Some {| api_path := DStr "api/v2/reports";
            api_names := None;
            server_modes := DStr "sat" |} |};
  {| cls_name := "Repository";
     cls_fields :=
        ["checksum_type"; "content_type"; "gpg_key"; "label"; "name";
        "product"; "unprotected"; "url"];
     cls_meta :=
       Some {| api_path := DStr "katello/api/v2/repositories";
            api_names := None;
            server_modes := DStr "sat" |} |};
  {| cls_name := "RoleLDAPGroups";
     cls_fields :=
        ["name"];
     cls_meta :=
       Some {| api_path := DStr "katello/api/v2/roles/:role_id/ldap_groups";
            api_names := None;
            server_modes := DTuple ["sat"; "sam"] |} |};
  {| cls_name := "Role";
     cls_fields :=
        ["name"];
     cls_meta :=
       Some {| api_path := DStr "api/v2/roles";
            api_names := None;
            server_modes := DTuple ["sat"; "sam"] |} |};
  {| cls_name := "SmartProxy";
     cls_fields :=
        ["name"; "url"];
     cls_meta :=
       Some {| api_path := DStr "api/v2/smart_proxies";
            api_names := None;
            server_modes := DStr "sat" |} |};
  {| cls_name := "SmartVariable";
     cls_fields :=
        ["variable"; "puppetclass"; "default_value";
        "override_value_order"; "description"; "validator_type";
        "validator_rule"; "variable_type"];
     cls_meta :=
       Some {| api_path := DStr "api/v2/smart_variables";
            api_names := None;
            server_modes := DStr "sat" |} |};
  {| cls_name := "Status";
     cls_fields :=
        [];
     cls_meta :=
       Some {| api_path := DStr "katello/api/v2/status";
            api_names := None;
            server_modes := DStr "sat" |} |};
  {| cls_name := "Subnet";
     cls_fields :=
        ["dns_primary"; "dns_secondary"; "domain"; "from_"; "gateway";
        "mask"; "name"; "network"; "to"; "vlanid"];
     cls_meta :=
       Some {| api_path := DStr "api/v2/subnets";
            api_names := Some [("from_", "from")];
            server_modes := DStr "sat" |} |};
  {| cls_name := "Subscription";
     cls_fields :=
        ["pool_uuid"; "system"; "activation_key"; "quantity";
        "subscriptions"];
     cls_meta :=
       Some {| api_path := DStr "katello/api/v2/subscriptions/:id";
            api_names := Some [("pool_uuid", "id")];
            server_modes := DTuple ["sat"; "sam"] |} |};
  {| cls_name := "SyncPlan";
     cls_fields :=
        ["organization"; "name"; "interval"; "sync_date"; "description"];
     cls_meta :=
       Some {| api_path := DStr "katello/api/v2/organizations/:organization_id/sync_plans";
            api_names := None;
            server_modes := DStr "sat" |} |};
  {| cls_name := "SystemPackage";
     cls_fields :=
        ["system"; "packages"; "groups"];
     cls_meta :=
       Some {| api_path := DStr "katello/api/v2/systems/:system_id/packages";
            api_names := None;
            server_modes := DStr "sat" |} |};
  {| cls_name := "System";
     cls_fields :=
        ["content_view"; "description"; "environment"; "facts";
        "host_collection"; "installed_products"; "last_checkin";
        "location"; "name"; "organization"; "release_ver";
        "service_level"; "uuid"; "type"];
     cls_meta :=
       Some {| api_path := DStr "katello/api/v2/systems";
            api_names := None;
            server_modes := DTuple ["sat"; "sam"] |} |};
  {| cls_name := "TemplateCombination";
     cls_fields :=
        ["config_template"; "environment"; "hostgroup"];
     cls_meta :=
       Some {| api_path := DStr "api/v2/config_templates/:config_template_id/template_combinations";
            api_names := None;
            server_modes := DStr "sat" |} |};
  {| cls_name := "TemplateKind";
     cls_fields :=
        [];
     cls_meta :=
       Some {| api_path := DStr "api/v2/template_kinds";
            api_names := None;
            server_modes := DStr "sat" |} |};
  {| cls_name := "UserGroup";
     cls_fields :=
        ["name"];
     cls_meta :=
       Some {| api_path := DStr "api/v2/usergroups";
            api_names := None;
            server_modes := DStr "sat" |} |};
  {| cls_name := "User";
     cls_fields :=
        ["login"; "admin"; "auth_source"; "default_location";
        "default_organization"; "firstname"; "lastname"; "mail";
        "password"];
     cls_meta :=
       Some {| api_path := DStr "api/v2/users";
            api_names := None;
            server_modes := DTuple ["sat"; "sam"] |} |}
].

(** [TemplateKind.Meta.NUM_CREATED_BY_DEFAULT]. *)
Definition NUM_CREATED_BY_DEFAULT : Z := 8.

Definition is_single_string (d : decl) : bool :=
  match d with DStr _ => true | DTuple _ => false end.

Definition known_mode (m : string) : bool :=
  String.eqb m "sat" || String.eqb m "sam".

(** The mode names a [server_modes] declaration mentions. *)
Definition modes_named (d : decl) : list string :=
  match d with
  | DTuple items => items
  | DStr s => [s]
  end.

Definition find_class (name : string) : option EntityClass :=
  List.find (fun c => String.eqb (cls_name c) name) entities.

(** The classes that declare renames. *)
Definition classes_with_api_names : list string :=
  map cls_name
    (List.filter (fun c => match cls_meta c with
                           | Some m => match api_names m with
                                       | Some _ => true
                                       | None => false
                                       end
                           | None => false
                           end) entities).

(** The claim as the specification words it, on one class: an inner
    [Meta] with a single path string and modes drawn from [sat], [sam]. *)
Definition meta_as_specified (c : EntityClass) : bool :=
  match cls_meta c with
  | Some m =>
      is_single_string (api_path m)
      && forallb known_mode (modes_named (server_modes m))
  | None => false
  end.

(** The two paths that [OverrideValue.Meta] gives. *)
Definition OverrideValue_paths : list string :=
  ["/api/v2/smart_variables/:smart_variable_id/override_values";
   "/api/v2/smart_class_parameters/:smart_class_parameter_id/override_values"].

(** What the declarations do satisfy, on one class: only
    [OperatingSystemParameter] has no [Meta] in its body; only
    [OverrideValue] gives a tuple of paths, the two above; and
    [server_modes] is written [('sat')], a string, or [('sat', 'sam')]. *)
Definition declared_as_found (c : EntityClass) : bool :=
  match cls_meta c with
  | Some m =>
      negb (String.eqb (cls_name c) "OperatingSystemParameter")
      && match api_path m with
         | DStr _ => negb (String.eqb (cls_name c) "OverrideValue")
         | DTuple paths =>
             String.eqb (cls_name c) "OverrideValue"
             && bool_decide (paths = OverrideValue_paths)
         end
      && match server_modes m with
         | DStr mode => String.eqb mode "sat"
         | DTuple modes => bool_decide (modes = ["sat"; "sam"])
         end
  | None => String.eqb (cls_name c) "OperatingSystemParameter"
  end.

(** Every declared rename takes a name of the class, a field or the
    [_ids] form of one, to another name. *)
Definition renames_as_found (c : EntityClass) : bool :=
  match cls_meta c with
  | Some m =>
      match api_names m with
      | Some renames =>
          forallb (fun r =>
                     negb (String.eqb (fst r) (snd r))
                     && existsb (fun f =>
                                   String.eqb (fst r) f
                                   || String.eqb (fst r) (f ++ "_ids")%string)
                                (cls_fields c))
                  renames
      | None => true
      end
  | None => true
  end.

Fixpoint renamed (name : string) (renames : list (string * string))
    : option string :=
  match renames with
  | [] => None
  | (field, wire) :: renames' =>
      if String.eqb name field then Some wire else renamed name renames'
  end.

(** Modelled from the spec: the name under which a field goes on the
    wire.  [robottelo.orm], which reads [Meta.api_names], is not part of
    this module's source; by the specification [api_names] holds the
    field-name-to-wire-name renames of a class, and a name without a
    rename goes as it is. *)
Definition wire_name (c : EntityClass) (name : string) : string :=
  match cls_meta c with
  | Some m =>
      match api_names m with
      | Some renames => default name (renamed name renames)
      | None => name
      end
  | None => name
  end.

(** ** Task polling *)

(** Modelled from the spec: [orm._poll_task], to which [ForemanTask.poll]
    hands over, is not part of this module's source.  Following the
    docstring of [ForemanTask.poll] and the glossary of the specification,
    it is a client-side loop: the task is checked; if it has completed its
    information is returned; otherwise the loop sleeps [poll_rate] seconds
    and checks again; once [timeout] seconds have elapsed [TaskTimeout] is
    raised.  Time is a logical clock in seconds since the call, on which a
    check takes no time.  [status k] is what check number [k] finds: the
    task's information once it has completed.  The loop gives the times of
    its checks and its result, [None] when [fuel] rounds did not end it. *)
Fixpoint poll_loop (fuel : nat) (status : nat -> option (list (string * pyval)))
    (poll_rate timeout : Z) (k : nat) (now : Z) {struct fuel}
    : list Z * option (result pyval) :=
  if timeout <=? now then ([], Some (Raise TaskTimeout))
  else
    match status k with
    | Some info => ([now], Some (Return (PDict info)))
    | None =>
        match fuel with
        | O => ([now], None)
        | S fuel' =>
            let '(checks, r) :=
              poll_loop fuel' status poll_rate timeout (S k) (now + poll_rate) in
            (now :: checks, r)
        end
    end.

Definition _poll_task (status : nat -> option (list (string * pyval)))
    (poll_rate timeout : Z) : list Z * option (result pyval) :=
  poll_loop (Z.to_nat timeout) status poll_rate timeout 0%nat 0.

(** The times of [n] checks in a row, [poll_rate] seconds apart, the first
    one at [now]. *)
Definition times_from (poll_rate now : Z) (n : nat) : list Z :=
  map (fun i => now + Z.of_nat i * poll_rate) (seq 0 n).

(** The times [0, poll_rate, 2 * poll_rate, ...] of the first [n] checks. *)
Definition check_times (poll_rate : Z) (n : nat) : list Z :=
  times_from poll_rate 0 n.

(** A task found running at the first two checks and stopped from the
    third on. *)
Definition stops_at_third_check (k : nat) : option (list (string * pyval)) :=
  if (k <? 2)%nat then None else Some [("state", PStr "stopped")].

(** ** [OperatingSystemParameter] over an object store *)

(** Objects live in a store and are known by their address, so that two
    names for one object see each other's writes.  The inherited [Meta]
    class is one object shared by every instance; its [api_path] is the
    only attribute this module writes to. *)
Record Store : Type := mkStore {
  heap : gmap nat Obj;
  Meta_api_path : pyval
}.

Definition getattr (st : Store) (a : nat) (name : string) : pyval :=
  match heap st !! a with
  | Some o => attr o name
  | None => PNone
  end.

Definition setattr (st : Store) (a : nat) (name : string) (v : pyval) : Store :=
  mkStore (<[a := <[name := v]> (default ∅ (heap st !! a))]> (heap st))
          (Meta_api_path st).

(** A new, empty instance at an address no object has. *)
Definition allocate (st : Store) : nat * Store :=
  let a := fresh (dom (heap st)) in
  (a, mkStore (<[a := ∅]> (heap st)) (Meta_api_path st)).

Section OperatingSystemParameter.

(** [OperatingSystem(id=os_id).path()], from [orm]. *)
Variable os_path : pyval -> result string.

(** The inherited [orm.EntityReadMixin.read(auth, entity, attrs)]: it
    works on the store, knowing the receiver and the entity to
    populate, and hands an entity back. *)
Variable super_read :
  Store -> nat -> nat -> option pyval -> result nat * Store.

(** [OperatingSystemParameter.__init__(self, os_id, **kwargs)]. *)
Definition OperatingSystemParameter_init (self : nat) (os_id : pyval)
    (kwargs : list (string * pyval)) (st : Store) : result unit * Store :=
  let st := setattr st self "os_id" os_id in
  match os_path os_id with
  | Raise e => (Raise e, st)
  | Return p =>
      let st := mkStore (heap st) (PStr (p ++ "/parameters")%string) in
      (* the inherited __init__ sets the fields named in kwargs *)
      (Return tt,
       fold_left (fun st kv => setattr st self (fst kv) (snd kv)) kwargs st)
  end.

(** The constructor call [OperatingSystemParameter(os_id, **kwargs)].
    The object is made first.  A keyword [os_id] beside the positional
    one gives [__init__] two values for the same parameter: the call
    raises [TypeError] and the body of [__init__] does not run. *)
Definition OperatingSystemParameter_new (os_id : pyval)
    (kwargs : list (string * pyval)) (st : Store) : result nat * Store :=
  let '(a, st) := allocate st in
  if existsb (String.eqb "os_id") (map fst kwargs) then (Raise TypeError, st)
  else
    match OperatingSystemParameter_init a os_id kwargs st with
    | (Return _, st) => (Return a, st)
    | (Raise e, st) => (Raise e, st)
    end.

(** [OperatingSystemParameter.read(self, auth, entity, attrs)]; the
    [entity] argument is not looked at. *)
Definition OperatingSystemParameter_read (self : nat)
    (entity attrs : option pyval) (st : Store) : result nat * Store :=
  match OperatingSystemParameter_new (getattr st self "os_id") [] st with
  | (Return fresh_entity, st) => super_read st self fresh_entity attrs
  | (Raise e, st) => (Raise e, st)
  end.

End OperatingSystemParameter.

(** ** [ConfigTemplate._factory_data] *)

(** [range(lo, hi)]. *)
Definition py_range (lo hi : Z) : list Z :=
  map (fun i => lo + Z.of_nat i) (seq 0 (Z.to_nat (hi - lo))).

(** [random.choice(items)]: the item at a position below [len(items)];
    [rnd] stands for the generator's draw. *)
Definition random_choice (rnd : nat) (items : list Z) : result Z :=
  match nth_error items (rnd mod List.length items) with
  | Some x => Return x
  | None => Raise IndexError
  end.

(** [d.setdefault(key, v)] as used for its effect on [d]. *)
Definition setdefault (d : Obj) (key : string) (v : pyval) : Obj :=
  match d !! key with
  | Some _ => d
  | None => <[key := v]> d
  end.

(** [values] is what [super()._factory_data()] has produced. *)
Definition ConfigTemplate_factory_data (values : Obj) (rnd : nat) : result Obj :=
  match values !! "snippet" with
  | Some snippet =>
      if is_False snippet then
        match random_choice rnd (py_range 1 (NUM_CREATED_BY_DEFAULT + 1)) with
        | Return kind =>
            Return (setdefault values "template_kind_id" (PInt kind))
        | Raise e => Raise e
        end
      else Return values
  | None => Return values
  end.

(** ** The lines the helpers share

    The eight asynchronous helpers end with the same lines, and so do the
    four [fetch_*] searches.  They are named here so that they can be
    reasoned about once; each method is shown below to be its own request
    followed by them. *)

(** From [response.raise_for_status()] to the end of an asynchronous
    helper. *)
Definition task_id_or_none (response : Response) (synchronous : pyval)
    : M pyval :=
  run raise_for_status response;
  do accepted <- ask (fun env => int_is env (status_code response) ACCEPTED);
  if accepted then
    do j <- response_json response;
    do task_id <- getitem j "id";
    run (if is_True synchronous
         then run ForemanTask_poll (ForemanTask task_id)
                    default_poll_rate default_timeout; ret tt
         else ret tt);
    ret task_id
  else ret PNone.

(** From [response.raise_for_status()] to the end of a [fetch_*] search. *)
Definition id_of_single_result (response : Response) : M pyval :=
  run raise_for_status response;
  do j <- response_json response;
  do results <- getitem j "results";
  do n <- py_len results;
  if negb (n =? 1) then
    raise (APIResponseError [PStr "The length of the results is:"; PInt n])
  else
    do first <- getitem0 results;
    getitem first "id".

(** What polling makes of a task id: the id itself once polling has
    returned, the exception of the polling otherwise. *)
Definition after_polling (env : Env) (t : pyval) : result pyval :=
  match poll_task env t default_poll_rate default_timeout with
  | Return _ => Return t
  | Raise e => Raise e
  end.

(** ** Properties of calls, and sample environments *)

(** [a is c] gives what [a == c] gives, for the constant [c]. *)
Definition is_agrees_with_eq (env : Env) (c : Z) : Prop :=
  forall a, int_is env a c = (a =? c).

(** The response to the first request of a call. *)
Definition first_response {A} (m : M A) (env : Env) : option Response :=
  match requests (effects m env) with
  | rq :: _ => Some (respond env 0%nat rq)
  | [] => None
  end.

(** The task id a response carries in its JSON field [id]. *)
Definition task_id_of (response : Response) : option pyval :=
  match body response with
  | Some (PDict d) => assoc "id" d
  | _ => None
  end.

(** The list a response carries in its JSON field [results]. *)
Definition results_of (response : Response) : option (list pyval) :=
  match body response with
  | Some (PDict d) =>
      match assoc "results" d with
      | Some (PList l) => Some l
      | _ => None
      end
  | _ => None
  end.

(** The [id] of a result. *)
Definition id_of (v : pyval) : option pyval :=
  match v with
  | PDict d => assoc "id" d
  | _ => None
  end.

(** "On an HTTP 202 response the helper returns the task id of the JSON
    field [id]." *)
Definition returns_task_id_on_accepted (env : Env) (h : AsyncHelper)
    (synchronous : pyval) : Prop :=
  forall response t,
    first_response (async_call h synchronous) env = Some response ->
    status_code response = ACCEPTED ->
    task_id_of response = Some t ->
    outcome (async_call h synchronous) env = Return t.

(** "The call issues each request at most once." *)
Definition issues_at_most_one_request (env : Env) (c : Call) : Prop :=
  (http_count (effects (invoke c) env) <= 1)%nat.

(** "On a 4XX or 5XX response the call raises the client's [HTTPError]
    and returns no value." *)
Definition propagates_http_error (env : Env) (c : Call) : Prop :=
  forall response,
    first_response (invoke c) env = Some response ->
    is_http_error (status_code response) = true ->
    outcome (invoke c) env = Raise (HTTPError (status_code response)).

(** A stand-in for the inherited [path]: [api/<class>] for the base,
    [api/<class>/1] for the instance. *)
Definition sample_path (cls : string) (self : Obj) (which : option string)
    : result string :=
  match which with
  | None => Return ("api/" ++ cls ++ "/1")%string
  | Some w =>
      if String.eqb w "base" then Return ("api/" ++ cls)%string
      else if String.eqb w "self" then Return ("api/" ++ cls ++ "/1")%string
      else Raise NoSuchPathError
  end.

(** An environment given by an identity test on integers, the server's
    answers in order, the end of every polling, and the state of every
    Bugzilla bug. *)
Definition sample_env (is_ : Z -> Z -> bool) (answers : nat -> Response)
    (polled : result pyval) (bug_open : bool) : Env :=
  {| int_is := is_;
     respond := fun n _ => answers n;
     poll_task := fun _ _ _ => polled;
     bz_bug_is_open := fun _ => bug_open;
     entity_path := sample_path;
     escape_search := fun s => s;
     open_file := fun _ => Return (PStr "manifest");
     strftime_now := fun _ => "2014-11-04 12:00:00";
     py_str := fun _ => "1";
     entity_create := fun _ _ => Return (PDict [("id", PInt 1)]);
     super_build := fun _ _ => Return (PDict []);
     super_factory_data := fun _ _ => Return (PDict []) |}.

(** Identity of integer objects where equal integers are one object. *)
Definition value_identity : Z -> Z -> bool := Z.eqb.

(** Identity of integer objects where only the integers from -5 to 256
    are shared, and any other two integer objects are distinct. *)
Definition small_int_identity (a b : Z) : bool :=
  (a =? b) && (-5 <=? a) && (a <=? 256).

Definition accepted_with_id (t : pyval) : Response :=
  mkResponse ACCEPTED (Some (PDict [("id", t)])).

Definition an_entity : Obj := {[ "id" := PInt 1 ]}.

(** ** A weakest-precondition reading of the monad *)

(** [wp m env n Q]: running [m] in [env] after [n] earlier requests ends
    in a result and effects that satisfy [Q]. *)
Definition wp {A} (m : M A) (env : Env) (n : nat)
    (Q : result A * list Event -> Prop) : Prop :=
  Q (m env n).

(** ** The rest of the module: methods that work on dictionaries *)

(** Results without effects. *)
Definition rbind {A B} (r : result A) (k : A -> result B) : result B :=
  match r with
  | Return a => k a
  | Raise e => Raise e
  end.

Notation "'try' x <- c ; k" := (rbind c (fun x => k))
  (at level 10, x name, c at level 100, k at level 200).

(** [v[key]] for a string key, as a plain result. *)
Definition item (v : pyval) (key : string) : result pyval :=
  match v with
  | PDict d =>
      match assoc key d with
      | Some x => Return x
      | None => Raise (KeyError key)
      end
  | _ => Raise TypeError
  end.

(** The characters of a string, one string each. *)
Fixpoint chars (s : string) : list string :=
  match s with
  | EmptyString => []
  | String c s' => String c EmptyString :: chars s'
  end.

(** What [for x in v] goes through: the elements of a list, the keys of
    a dictionary, the characters of a string. *)
Definition py_iter (v : pyval) : result (list pyval) :=
  match v with
  | PList l => Return l
  | PDict d => Return (map (fun kv => PStr (fst kv)) d)
  | PStr s => Return (map PStr (chars s))
  | _ => Raise TypeError
  end.

(** [[f(x) for x in l]]: the first exception ends the comprehension. *)
Fixpoint mapM {A B} (f : A -> result B) (l : list A) : result (list B) :=
  match l with
  | [] => Return []
  | x :: l' => try y <- f x; try ys <- mapM f l'; Return (y :: ys)
  end.

Section Reads.

Variables A E : Type.

(** [self.read_json(auth)], from [orm]: the decoded attributes. *)
Variable read_json : result Obj.

(** The inherited [read(auth, entity, attrs)], from [orm]. *)
Variable super_read : E -> Obj -> result A.

(** [Architecture.read], see BZ 1151240. *)
Definition Architecture_read (entity : E) (attrs : option Obj) : result A :=
  try attrs <- match attrs with None => read_json | Some a => Return a end;
  match attrs !! "operatingsystems" with
  | None => Raise (KeyError "operatingsystems")
  | Some operatingsystems =>
      let attrs := delete "operatingsystems" attrs in
      try elements <- py_iter operatingsystems;
      try ids <- mapM (fun operatingsystem => item operatingsystem "id")
                      elements;
      super_read entity (<["operatingsystem_ids" := PList ids]> attrs)
  end.

(** [Media.read], see BZ 1151240. *)
Definition Media_read (entity : E) (attrs : option Obj) : result A :=
  try attrs <- match attrs with None => read_json | Some a => Return a end;
  match attrs !! "operatingsystems" with
  | None => Raise (KeyError "operatingsystems")
  | Some operatingsystems =>
      let attrs := delete "operatingsystems" attrs in
      try elements <- py_iter operatingsystems;
      try ids <- mapM (fun operatingsystem => item operatingsystem "id")
                      elements;
      super_read entity (<["operatingsystem_ids" := PList ids]> attrs)
  end.

(** [Repository.read], see BZ 1151240. *)
Definition Repository_read (entity : E) (attrs : option Obj) : result A :=
  try attrs <- match attrs with None => read_json | Some a => Return a end;
  match attrs !! "product" with
  | None => Raise (KeyError "product")
  | Some product =>
      let attrs := delete "product" attrs in
      try product_id <- item product "id";
      super_read entity (<["product_id" := product_id]> attrs)
  end.

End Reads.

(** [values.get(field) is None]. *)
Definition unset (values : Obj) (field : string) : bool :=
  is_None (attr values field).

(** [v == s] for a string literal [s]. *)
Definition eq_str (v : pyval) (s : string) : bool :=
  match v with
  | PStr s' => String.eqb s' s
  | _ => false
  end.

Section FactoryData.

(** [getattr(cls, field).get_value()]: a value generated for the field. *)
Variable get_value : string -> pyval.

(** The loop [for field in fields: if values.get(field) is None:
    values[field] = getattr(cls, field).get_value()]. *)
Definition fill_unset (fields : list string) (values : Obj) : Obj :=
  fold_left (fun values field =>
               if unset values field
               then <[field := get_value field]> values
               else values)
            fields values.

(** [ComputeResource._factory_data]; [values] is what
    [super()._factory_data()] has produced. *)
Definition ComputeResource_factory_data (values : Obj) : result Obj :=
  match values !! "provider" with
  | None => Raise (KeyError "provider")
  | Some provider =>
      if eq_str provider "EC2" || eq_str provider "Ovirt"
         || eq_str provider "Openstack"
      then Return (fill_unset ["name"; "password"; "user"] values)
      else if eq_str provider "GCE" then
        Return (if unset values "name"
                then <["name" := get_value "name"]> values else values)
      else if eq_str provider "Libvirt" then
        Return (if unset values "name"
                then <["name" := get_value "name"]> values else values)
      else if eq_str provider "Rackspace" then Return values
      else if eq_str provider "Vmware" then
        Return (fill_unset ["name"; "password"; "user"; "uuid"] values)
      else Return values
  end.

(** [AuthSourceLDAP._factory_data]; the second key is spelled as in the
    source. *)
Definition AuthSourceLDAP_factory_data (values : Obj) : result Obj :=
  match values !! "onthefly_register" with
  | Some _ =>
      match values !! "ontheflyregister" with
      | None => Raise (KeyError "ontheflyregister")
      | Some flag =>
          if is_True flag then
            Return (<["attr_mail" := get_value "attr_mail"]>
                    (<["attr_login" := get_value "attr_login"]>
                     (<["attr_lastname" := get_value "attr_lastname"]>
                      (<["attr_firstname" := get_value "attr_firstname"]>
                       (<["account_password" := get_value "account_password"]>
                          values)))))
          else Return values
      end
  | None => Return values
  end.

End FactoryData.

(** [LifecycleEnvironment._factory_data]: [prior_id] goes back in as
    [prior]. *)
Definition LifecycleEnvironment_factory_data (lc_attrs : Obj) : result Obj :=
  match lc_attrs !! "prior_id" with
  | None => Raise (KeyError "prior_id")
  | Some prior => Return (<["prior" := prior]> (delete "prior_id" lc_attrs))
  end.

Section NameDefaults.

Variable A : Type.

(** The inherited [_factory_data], which reads the instance. *)
Variable super_factory_data_of : Obj -> result A.

(** [Domain._factory_data]; [generated] is [gen_alphanumeric().lower()].
    The instance, which the method may have written to, is returned next
    to the result. *)
Definition Domain_factory_data (generated : string) (self : Obj)
    : Obj * result A :=
  let self := if is_None (attr self "name")
              then <["name" := PStr generated]> self else self in
  (self, super_factory_data_of self).

(** [Media._factory_data]; [generated] is [gen_url(subdomain=gen_alpha())]. *)
Definition Media_factory_data (generated : string) (self : Obj)
    : Obj * result A :=
  let self := if is_None (attr self "media_path")
              then <["media_path" := PStr generated]> self else self in
  (self, super_factory_data_of self).

End NameDefaults.

(** ** Relationships between the entity classes *)

(** For each class with relationship fields, the fields and the class
    each one names ([OneToOneField] and [OneToManyField]). *)
Definition relationships : list (string * list (string * string)) := [
  ("ActivationKey",
      [("organization", "Organization"); ("environment", "Environment");
      ("content_view", "ContentView"); ("host_collection",
      "HostCollection")]);
  ("Architecture",
      [("operatingsystem", "OperatingSystem")]);
  ("ComputeAttribute",
      [("compute_profile", "ComputeProfile"); ("compute_resource",
      "ComputeResource")]);
  ("ConfigTemplate",
      [("operatingsystem", "OperatingSystem"); ("template_kind",
      "TemplateKind")]);
  ("ContentUpload",
      [("repository", "Repository")]);
  ("ContentViewFilterRule",
      [("content_view_filter", "ContentViewFilter"); ("errata", "Errata")]);
  ("ContentViewFilter",
      [("content_view", "ContentView"); ("repositories", "Repository")]);
  ("ContentViewPuppetModule",
      [("content_view", "ContentView")]);
  ("ContentView",
      [("organization", "Organization"); ("repository", "Repository");
      ("component", "ContentView")]);
  ("Filter",
      [("role", "Role"); ("permission", "Permission"); ("organization",
      "Organization"); ("location", "Location")]);
  ("GPGKey",
      [("organization", "Organization"); ("location", "Location")]);
  ("HostClasses",
      [("host", "Host"); ("puppetclass", "PuppetClass")]);
  ("HostCollectionErrata",
      [("errata", "Errata")]);
  ("HostCollection",
      [("organization", "Organization"); ("system", "System")]);
  ("HostGroupClasses",
      [("hostgroup", "HostGroup"); ("puppetclass", "PuppetClass")]);
  ("HostGroup",
      [("parent", "HostGroup"); ("environment", "Environment");
      ("operatingsystem", "OperatingSystem"); ("architecture",
      "Architecture"); ("medium", "Media"); ("ptable", "PartitionTable");
      ("subnet", "Subnet"); ("domain", "Domain"); ("realm", "Realm")]);
  ("Host",
      [("architecture", "Architecture"); ("compute_profile",
      "ComputeProfile"); ("compute_resource", "ComputeResource"); ("domain",
      "Domain"); ("environment", "Environment"); ("hostgroup", "HostGroup");
      ("image", "Image"); ("location", "Location"); ("medium", "Media");
      ("model", "Model"); ("operatingsystem", "OperatingSystem");
      ("organization", "Organization"); ("owner", "User"); ("ptable",
      "PartitionTable"); ("puppet_classes", "PuppetClass"); ("puppet_proxy",
      "SmartProxy"); ("realm", "Realm"); ("sp_subnet", "Subnet"); ("subnet",
      "Subnet")]);
  ("Image",
      [("compute_resource", "ComputeResource"); ("architecture",
      "Architecture"); ("operatingsystem", "OperatingSystem")]);
  ("Interface",
      [("host", "Host"); ("subnet", "Subnet"); ("domain", "Domain")]);
  ("LifecycleEnvironment",
      [("organization", "Organization"); ("prior", "LifecycleEnvironment")]);
  ("Media",
      [("operatingsystem", "OperatingSystem")]);
  ("OperatingSystem",
      [("architecture", "Architecture"); ("media", "Media"); ("ptable",
      "PartitionTable")]);
  ("OSDefaultTemplate",
      [("operatingsystem", "OperatingSystem"); ("template_kind",
      "TemplateKind"); ("config_template", "ConfigTemplate")]);
  ("OverrideValue",
      [("smart_variable", "SmartVariable")]);
  ("Product",
      [("organization", "Organization"); ("location", "Location");
      ("gpg_key", "GPGKey"); ("sync_plan", "SyncPlan")]);
  ("Repository",
      [("gpg_key", "GPGKey"); ("product", "Product")]);
  ("SmartVariable",
      [("puppetclass", "PuppetClass")]);
  ("Subnet",
      [("domain", "Domain")]);
  ("Subscription",
      [("system", "System"); ("activation_key", "ActivationKey");
      ("subscriptions", "Subscription")]);
  ("SyncPlan",
      [("organization", "Organization")]);
  ("SystemPackage",
      [("system", "System")]);
  ("System",
      [("content_view", "ContentView"); ("environment", "Environment");
      ("host_collection", "HostCollection"); ("organization",
      "Organization")]);
  ("TemplateCombination",
      [("config_template", "ConfigTemplate"); ("environment",
      "Environment"); ("hostgroup", "HostGroup")]);
  ("User",
      [("auth_source", "AuthSourceLDAP"); ("default_location", "Location");
      ("default_organization", "Organization")])
].

(** The relationship fields of a class are fields of the class and name
    classes of the module. *)
Definition relationships_resolve (r : string * list (string * string)) : bool :=
  match find_class (fst r) with
  | Some c =>
      forallb (fun ft =>
                 existsb (String.eqb (fst ft)) (cls_fields c)
                 && match find_class (snd ft) with
                    | Some _ => true
                    | None => false
                    end)
              (snd r)
  | None => false
  end.

(** The path strings of a declaration. *)
Definition paths_of (c : EntityClass) : list string :=
  match cls_meta c with
  | Some m => match api_path m with
              | DStr s => [s]
              | DTuple items => items
              end
  | None => []
  end.

(** ** Where the helpers send their requests *)

(** The verb, the class and the sub-path of an asynchronous helper. *)
Definition async_target (env : Env) (h : AsyncHelper)
    : Verb * string * Obj * string :=
  match h with
  | Publish self => (POST, "ContentView", self, "publish")
  | Promote self _ => (POST, "ContentViewVersion", self, "promote")
  | Sync self => (POST, "Repository", self, "sync")
  | UploadManifest self _ _ =>
      (POST, "Organization", self, "subscriptions/upload")
  | DeleteManifest self =>
      (POST, "Organization", self, "subscriptions/delete_manifest")
  | RefreshManifest self =>
      (PUT, "Organization", self, "subscriptions/refresh_manifest")
  | EnableRhrepo self _ _ reposet_id =>
      (PUT, "Product", self,
       ("repository_sets/" ++ shown env reposet_id ++ "/enable")%string)
  | DisableRhrepo self _ _ reposet_id =>
      (PUT, "Product", self,
       ("repository_sets/" ++ shown env reposet_id ++ "/disable")%string)
  end.

(** An event that is a polling. *)
Definition is_polling (e : Event) : bool :=
  match e with EvPoll _ _ _ => true | _ => false end.

(** An event that is a call into the factory's [create]. *)
Definition is_create (e : Event) : bool :=
  match e with EvCall name _ => String.eqb name "create" | _ => false end.

(** ** What a call needs before its request goes out *)

(** The inherited path an asynchronous helper extends: the instance's own
    path. *)
Definition async_base (env : Env) (h : AsyncHelper) : result string :=
  let '(_, cls, self, _) := async_target env h in
  entity_path env cls self (Some "self").

(** [upload_manifest] opens the manifest before it asks for a path; no
    other helper opens a file. *)
Definition file_opens (env : Env) (h : AsyncHelper) : bool :=
  match h with
  | UploadManifest _ path _ =>
      match open_file env path with
      | Return _ => true
      | Raise _ => false
      end
  | _ => true
  end.

(** For a uniqueness search: the class, the instance, the [which] that
    reaches the inherited [path], and the sub-path appended to what it
    gives. *)
Definition unique_target (u : UniqueSearch)
    : string * Obj * option string * option string :=
  match u with
  | OrgRhproductId self _ => ("Organization", self, Some "self", Some "products")
  | ProductRhproductId self _ _ => ("Product", self, Some "base", None)
  | ReposetId self _ => ("Product", self, Some "self", Some "repository_sets")
  | RepoId self _ _ => ("Repository", self, None, None)
  | LibraryLookup self => ("LifecycleEnvironment", self, None, None)
  end.

Definition unique_base (env : Env) (u : UniqueSearch) : result string :=
  let '(cls, self, which, _) := unique_target u in
  entity_path env cls self which.

Definition unique_url (u : UniqueSearch) (base : string) : string :=
  match snd (unique_target u) with
  | Some sub => join_path base sub
  | None => base
  end.

(** "On an HTTP 202 response a helper called with [synchronous=False]
    returns the task id at once." *)
Definition returns_task_id_at_once (env : Env) (h : AsyncHelper) : Prop :=
  forall response,
    first_response (async_call h (PBool false)) env = Some response ->
    status_code response = ACCEPTED ->
    exists t, outcome (async_call h (PBool false)) env = Return t.

(** "The search raises [APIResponseError] exactly when the number of
    results differs from one, and otherwise returns the [id] of the single
    result." *)
Definition raises_unless_one_result (env : Env) (u : UniqueSearch) : Prop :=
  forall response results,
    first_response (unique_search u) env = Some response ->
    results_of response = Some results ->
    (List.length results <> 1%nat <->
     exists args, outcome (unique_search u) env = Raise (APIResponseError args))
    /\ (forall x, results = [x] ->
        exists v, outcome (unique_search u) env = Return v
                  /\ id_of x = Some v).

(** No status code is the same object as the literal [404] of the
    module: where only small integers are shared (in CPython, those from
    -5 to 256), the test [status_code is 404] fails for every status. *)
Definition literal_404_is_unshared (env : Env) : Prop :=
  forall a, int_is env a 404 = false.

(** * Theorems *)

(** ** Reasoning about the monad *)

Lemma wp_ret {A} (a : A) env n Q : Q (Return a, []) -> wp (ret a) env n Q.
Proof. exact (fun H => H). Qed.

Lemma wp_raise {A} e env n (Q : result A * list Event -> Prop) :
  Q (Raise e, []) -> wp (raise e) env n Q.
Proof. exact (fun H => H). Qed.

Lemma wp_lift {A} (r : result A) env n Q : Q (r, []) -> wp (lift r) env n Q.
Proof. exact (fun H => H). Qed.

Lemma wp_ask {A} (f : Env -> A) env n Q :
  Q (Return (f env), []) -> wp (ask f) env n Q.
Proof. exact (fun H => H). Qed.

Lemma wp_emit e env n Q : Q (Return tt, [e]) -> wp (emit e) env n Q.
Proof. exact (fun H => H). Qed.

Lemma wp_client_request v p d f env n Q :
  Q (Return (respond env n (mkRequest v p d f)), [EvHttp (mkRequest v p d f)]) ->
  wp (client_request v p d f) env n Q.
Proof. exact (fun H => H). Qed.

(** Sequencing: the effects of the first part stand before those of the
    second, which starts after the requests of the first. *)
Lemma wp_bind {A B} (m : M A) (k : A -> M B) env n Q :
  wp m env n (fun p =>
    match fst p with
    | Return a =>
        wp (k a) env (n + http_count (snd p))%nat
           (fun q => Q (fst q, snd p ++ snd q))
    | Raise e => Q (Raise e, snd p)
    end) ->
  wp (bind m k) env n Q.
Proof.
  unfold wp, bind. destruct (m env n) as [[a | e] evs]; cbn [fst snd]; auto.
  destruct (k a env (n + http_count evs)%nat); auto.
Qed.

(** A postcondition that holds of every run holds of this one. *)
Lemma wp_any {A} (m : M A) env n (Q : result A * list Event -> Prop) :
  (forall p, Q p) -> wp m env n Q.
Proof. intros H. apply H. Qed.

(** One step of symbolic execution. *)
Ltac wp_prim :=
  lazymatch goal with
  | |- wp (bind _ _) _ _ _ => apply wp_bind
  | |- wp (ret _) _ _ _ => apply wp_ret
  | |- wp (raise _) _ _ _ => apply wp_raise
  | |- wp (lift _) _ _ _ => apply wp_lift
  | |- wp (ask _) _ _ _ => apply wp_ask
  | |- wp (emit _) _ _ _ => apply wp_emit
  | |- wp (client_request _ _ _ _) _ _ _ => apply wp_client_request
  | |- wp (client_get _ _) _ _ _ => unfold client_get
  | |- wp (client_post _ _ _) _ _ _ => unfold client_post
  | |- wp (client_put _ _) _ _ _ => unfold client_put
  | |- wp (fmap _ _) _ _ _ => unfold fmap
  | |- wp (Entity_path _ _ _) _ _ _ => unfold Entity_path
  | |- wp (raise_for_status _) _ _ _ => unfold raise_for_status
  | |- wp (response_json _) _ _ _ => unfold response_json
  | |- wp (getitem _ _) _ _ _ => unfold getitem
  | |- wp (getitem0 _) _ _ _ => unfold getitem0
  | |- wp (py_len _) _ _ _ => unfold py_len
  | |- wp (format_arg _) _ _ _ => unfold format_arg
  | |- wp (name_search _) _ _ _ => unfold name_search
  | |- wp (ForemanTask_poll _ _ _) _ _ _ => unfold ForemanTask_poll
  | |- wp (orm_poll_task _ _ _) _ _ _ => unfold orm_poll_task
  | |- wp (call_create _ _) _ _ _ => unfold call_create
  | |- wp (call_super_build _ _) _ _ _ => unfold call_super_build
  | |- wp (call_super_factory_data _ _) _ _ _ => unfold call_super_factory_data
  | |- wp (super_read_raw _ _) _ _ _ => unfold super_read_raw
  | |- wp (if ?b then _ else _) _ _ _ =>
      let b' := eval cbn in b in
      lazymatch b' with
      | true => change b with true; cbn iota
      | false => change b with false; cbn iota
      | _ => first [ match goal with H : b = _ |- _ => rewrite H end
                   | destruct b eqn:? ]
      end
  | |- wp (match ?x with _ => _ end) _ _ _ =>
      first [ match goal with H : x = _ |- _ => rewrite H end
            | destruct x eqn:? ]
  | |- match fst (?r, _) with _ => _ end => cbn [fst snd]
  | |- match ?r with Return _ => _ | Raise _ => _ end =>
      first [ match goal with H : r = _ |- _ => rewrite H end
            | destruct r eqn:? ]
  end.

Ltac wp_steps := repeat (wp_prim; cbn [fst snd app http_count requests flat_map length Nat.add which_str]).

(** The steps up to the status check that follows a request. *)
Ltac wp_prefix :=
  repeat (lazymatch goal with
          | |- wp (bind (raise_for_status _) _) _ _ _ => fail
          | _ => wp_prim
          end;
          cbn [fst snd app http_count requests flat_map length Nat.add which_str]).

(** Read a goal about [outcome] and [effects] as a [wp] from the empty
    trace. *)
Ltac to_wp :=
  unfold first_response, outcome, effects;
  match goal with
  | |- context [?m ?env 0%nat] =>
      pattern (m env 0%nat);
      match goal with |- ?Q _ => change (wp m env 0%nat Q) end
  end.

(** Each asynchronous helper is its own request followed by the shared
    lines, and so is each [fetch_*] search. *)
Lemma publish_shared_lines self synchronous :
  ContentView_publish self synchronous =
  (do p <- ContentView_path self (Some "publish");
   do response <- client_post p (Some (PDict [("id", attr self "id")])) None;
   task_id_or_none response synchronous).
Proof. reflexivity. Qed.

Lemma promote_shared_lines self environment_id synchronous :
  ContentViewVersion_promote self environment_id synchronous =
  (do p <- ContentViewVersion_path self (Some "promote");
   do response <- client_post p
       (Some (PDict [("environment_id", environment_id)])) None;
   task_id_or_none response synchronous).
Proof. reflexivity. Qed.

Lemma sync_shared_lines self synchronous :
  Repository_sync self synchronous =
  (do p <- Repository_path self (Some "sync");
   do response <- client_post p None None;
   task_id_or_none response synchronous).
Proof. reflexivity. Qed.

Lemma upload_manifest_shared_lines self path repository_url synchronous :
  Organization_upload_manifest self path repository_url synchronous =
  (do manifest <- (do f <- ask (fun env => open_file env path); lift f);
   do p <- Organization_path self (Some "subscriptions/upload");
   do response <- client_post p
       (if is_None repository_url then None
        else Some (PDict [("repository_url", repository_url)]))
       (Some (PDict [("content", manifest)]));
   task_id_or_none response synchronous).
Proof. reflexivity. Qed.

Lemma delete_manifest_shared_lines self synchronous :
  Organization_delete_manifest self synchronous =
  (do p <- Organization_path self (Some "subscriptions/delete_manifest");
   do response <- client_post p None None;
   task_id_or_none response synchronous).
Proof. reflexivity. Qed.

Lemma refresh_manifest_shared_lines self synchronous :
  Organization_refresh_manifest self synchronous =
  (do p <- Organization_path self (Some "subscriptions/refresh_manifest");
   do response <- client_put p None;
   task_id_or_none response synchronous).
Proof. reflexivity. Qed.

Lemma enable_rhrepo_shared_lines self base_arch release_ver reposet_id
    synchronous :
  Product_enable_rhrepo self base_arch release_ver reposet_id synchronous =
  (do rs <- format_arg reposet_id;
   do p <- Product_path self
             (Some ("repository_sets/" ++ rs ++ "/enable")%string);
   do response <- client_put p
       (Some (PDict [("basearch", base_arch); ("releasever", release_ver)]));
   task_id_or_none response synchronous).
Proof. reflexivity. Qed.

Lemma disable_rhrepo_shared_lines self base_arch release_ver reposet_id
    synchronous :
  Product_disable_rhrepo self base_arch release_ver reposet_id synchronous =
  (do rs <- format_arg reposet_id;
   do p <- Product_path self
             (Some ("repository_sets/" ++ rs ++ "/disable")%string);
   do response <- client_put p
       (Some (PDict [("basearch", base_arch); ("releasever", release_ver)]));
   task_id_or_none response synchronous).
Proof. reflexivity. Qed.

Lemma fetch_searches_shared_lines self name org_id reposet_name :
  Organization_fetch_rhproduct_id self name =
    (do p <- Organization_path self (Some "products");
     do search <- name_search name;
     do response <- client_get p (Some (PDict [("search", search)]));
     id_of_single_result response)
  /\ Product_fetch_rhproduct_id self name org_id =
    (do p <- Product_path self (Some "base");
     do search <- name_search name;
     do response <- client_get p
         (Some (PDict [("search", search); ("organization_id", org_id)]));
     id_of_single_result response)
  /\ Product_fetch_reposet_id self reposet_name =
    (do p <- Product_path self (Some "repository_sets");
     do response <- client_get p (Some (PDict [("name", reposet_name)]));
     id_of_single_result response)
  /\ Repository_fetch_repoid self org_id name =
    (do p <- Repository_path self None;
     do search <- name_search name;
     do response <- client_get p
         (Some (PDict [("organization_id", org_id); ("search", search)]));
     id_of_single_result response).
Proof. repeat split. Qed.

Ltac unfold_methods :=
  cbn [invoke async_call unique_search plain_call];
  unfold ContentView_publish, ContentViewVersion_promote, Repository_sync,
    Organization_upload_manifest, Organization_delete_manifest,
    Organization_refresh_manifest, Product_enable_rhrepo,
    Product_disable_rhrepo,
    Organization_fetch_rhproduct_id, Product_fetch_rhproduct_id,
    Product_fetch_reposet_id, Repository_fetch_repoid,
    ActivationKey_add_subsciptions, Organization_subscriptions,
    Organization_sync_plan, Organization_list_rhproducts, Permission_search,
    Product_list_repositorysets, Host_factory_data,
    LifecycleEnvironment_build, LifecycleEnvironment_library_lookup,
    ActivationKey_read_raw,
    ContentView_path, ContentViewVersion_path, Repository_path,
    Organization_path, Product_path, ActivationKey_path.

(** ** The asynchronous helpers *)

Lemma attr_ForemanTask t : attr (ForemanTask t) "id" = t.
Proof. unfold attr, ForemanTask. by rewrite lookup_singleton_eq. Qed.

(** The end of an asynchronous helper, case by case. *)
Lemma wp_task_id_or_none env n response synchronous Q :
  is_agrees_with_eq env ACCEPTED ->
  (is_http_error (status_code response) = true ->
   Q (Raise (HTTPError (status_code response)), [])) ->
  (is_http_error (status_code response) = false ->
   status_code response <> ACCEPTED -> Q (Return PNone, [])) ->
  (status_code response = ACCEPTED -> task_id_of response = None ->
   forall e, Q (Raise e, [])) ->
  (forall t, status_code response = ACCEPTED -> task_id_of response = Some t ->
   is_True synchronous = false -> Q (Return t, [])) ->
  (forall t, status_code response = ACCEPTED -> task_id_of response = Some t ->
   is_True synchronous = true ->
   Q (after_polling env t, [EvPoll t default_poll_rate default_timeout])) ->
  wp (task_id_or_none response synchronous) env n Q.
Proof.
  intros His Herr Hother Hbad Hasync Hsync.
  unfold task_id_or_none, raise_for_status.
  apply wp_bind.
  destruct (is_http_error (status_code response)) eqn:E;
    [apply wp_raise; cbn; auto |].
  apply wp_ret; cbn [fst snd]. apply wp_bind, wp_ask; cbn [fst snd].
  rewrite His.
  destruct (Z.eqb_spec (status_code response) ACCEPTED) as [Hacc | Hacc];
    [| apply wp_ret; cbn; auto].
  specialize (Hbad Hacc). specialize (fun t => Hasync t Hacc).
  specialize (fun t => Hsync t Hacc).
  apply wp_bind. unfold response_json, task_id_of in *.
  destruct (body response) as [j |]; [| apply wp_raise; cbn; auto].
  apply wp_ret; cbn [fst snd]. apply wp_bind. unfold getitem.
  destruct j as [| b | z | s | l | d]; try (apply wp_raise; cbn; auto; fail).
  destruct (assoc "id" d) as [t |]; [| apply wp_raise; cbn; auto].
  specialize (Hasync t eq_refl). specialize (Hsync t eq_refl).
  unfold after_polling in Hsync.
  wp_steps; rewrite ?attr_ForemanTask in *; auto.
  all: match goal with
       | H : poll_task _ _ _ _ = _ |- _ => rewrite H in Hsync
       end; auto.
Qed.

(** Every asynchronous helper runs as its own request followed by the
    shared lines. *)
Ltac to_shared_tail :=
  unfold_methods; to_wp; wp_prefix.

Lemma task_id_or_none_sends_nothing env n response synchronous :
  requests (snd (task_id_or_none response synchronous env n)) = [].
Proof.
  change (wp (task_id_or_none response synchronous) env n
             (fun q => requests (snd q) = [])).
  unfold task_id_or_none. wp_steps; reflexivity.
Qed.

Lemma async_call_run env h synchronous base :
  file_opens env h = true ->
  async_base env h = Return base ->
  exists rq,
    verb rq = fst (fst (fst (async_target env h)))
    /\ url rq = (base ++ "/" ++ snd (async_target env h))%string
    /\ async_call h synchronous env 0%nat
       = (fst (task_id_or_none (respond env 0%nat rq) synchronous env 1%nat),
          EvHttp rq
          :: snd (task_id_or_none (respond env 0%nat rq) synchronous env 1%nat)).
Proof.
  intros Hopen Hbase.
  destruct h; cbn [async_base async_target file_opens] in *;
    unfold_methods;
    match goal with
    | |- exists rq, _ /\ _ /\ ?m ?env 0%nat = _ =>
        pattern (m env 0%nat);
        match goal with |- ?Q _ => change (wp m env 0%nat Q) end
    end;
    wp_prefix.
  all: try match goal with
           | H : String.prefix _ _ = false |- _ => vm_compute in H; discriminate H
           end.
  all: try discriminate Hopen.
  all: unfold wp; eexists; split; [| split]; cycle 2; [reflexivity ..].
Qed.

(** C1, as amended.  An asynchronous helper whose file opens and whose
    path resolves sends one request.  When the response to it is no
    4XX/5XX: any status other than 202 makes the helper return [None]; on
    202 with a task id in the JSON field [id], the helper returns that id
    if [synchronous] is not [True], and if it is [True] it returns the id
    once polling has returned, and raises what polling raises otherwise. *)
Theorem async_helper_result env h synchronous base :
  is_agrees_with_eq env ACCEPTED ->
  file_opens env h = true ->
  async_base env h = Return base ->
  exists rq,
    requests (effects (async_call h synchronous) env) = [rq]
    /\ verb rq = fst (fst (fst (async_target env h)))
    /\ url rq = (base ++ "/" ++ snd (async_target env h))%string
    /\ let response := respond env 0%nat rq in
       is_http_error (status_code response) = false ->
       (status_code response <> ACCEPTED ->
        outcome (async_call h synchronous) env = Return PNone)
       /\ (status_code response = ACCEPTED ->
           forall t, task_id_of response = Some t ->
             (is_True synchronous = false ->
              outcome (async_call h synchronous) env = Return t)
             /\ (is_True synchronous = true ->
                 outcome (async_call h synchronous) env = after_polling env t)).
Proof.
  intros His Hopen Hbase.
  destruct (async_call_run env h synchronous base Hopen Hbase)
    as (rq & Hverb & Hurl & Hrun).
  exists rq. unfold outcome, effects. rewrite Hrun. cbn [fst snd].
  split; [| split; [exact Hverb | split; [exact Hurl |]]].
  - change (requests (EvHttp rq :: ?tl)) with (rq :: requests tl).
    rewrite task_id_or_none_sends_nothing. reflexivity.
  - cbv zeta.
    match goal with
    | |- context [fst (?m ?env ?n)] =>
        pattern (m env n);
        match goal with |- ?Q _ => change (wp m env n Q) end
    end.
    apply (wp_task_id_or_none _ _ _ _ _ His); cbn [fst snd]; intros;
      repeat split; intros; congruence.
Qed.

Lemma async_helper_result_witness :
  let env := sample_env value_identity (fun _ => accepted_with_id (PInt 7))
                        (Return (PDict [])) false in
  let h := Publish an_entity in
  is_agrees_with_eq env ACCEPTED
  /\ file_opens env h = true
  /\ async_base env h = Return "api/ContentView/1"
  /\ requests (effects (async_call h (PBool true)) env)
     = [mkRequest POST "api/ContentView/1/publish"
          (Some (PDict [("id", PInt 1)])) None]
  /\ outcome (async_call h (PBool true)) env = Return (PInt 7).
Proof.
  intros env h.
  assert (His : is_agrees_with_eq env ACCEPTED) by (intros a; reflexivity).
  assert (Hopen : file_opens env h = true) by reflexivity.
  assert (Hbase : async_base env h = Return "api/ContentView/1")
    by reflexivity.
  split; [exact His | split; [exact Hopen | split; [exact Hbase |]]].
  split; [vm_compute; reflexivity |].
  destruct (async_helper_result env h (PBool true) _ His Hopen Hbase)
    as (rq & _ & _ & _ & Hresult).
  destruct (Hresult eq_refl) as [_ Hacc].
  exact (proj2 (Hacc eq_refl (PInt 7) eq_refl) eq_refl).
Defined.

(** C1 as stated fails: [publish], called with [synchronous=True], gets a
    202 response whose JSON carries the task id 7; polling times out, and
    the helper raises [TaskTimeout] instead of returning 7. *)
Lemma accepted_but_polling_times_out :
  ~ returns_task_id_on_accepted
      (sample_env value_identity (fun _ => accepted_with_id (PInt 7))
                  (Raise TaskTimeout) false)
      (Publish an_entity) (PBool true).
Proof.
  intros H.
  specialize (H (accepted_with_id (PInt 7)) (PInt 7) eq_refl eq_refl eq_refl).
  vm_compute in H. discriminate H.
Qed.

(** C3, as amended.  An asynchronous helper whose file opens and whose
    path resolves sends one request.  On a 202 response to it that
    carries a task id, a helper called with [synchronous=True] polls that
    task (default rate and timeout) after its request and returns the id
    only once polling has returned; called with [synchronous=False] it
    returns the id with no polling at all. *)
Theorem async_helper_polling env h (synchronous : bool) base :
  is_agrees_with_eq env ACCEPTED ->
  file_opens env h = true ->
  async_base env h = Return base ->
  exists rq,
    verb rq = fst (fst (fst (async_target env h)))
    /\ url rq = (base ++ "/" ++ snd (async_target env h))%string
    /\ let response := respond env 0%nat rq in
       status_code response = ACCEPTED ->
       forall t, task_id_of response = Some t ->
         effects (async_call h (PBool synchronous)) env =
           EvHttp rq :: (if synchronous
                         then [EvPoll t default_poll_rate default_timeout]
                         else [])
         /\ outcome (async_call h (PBool synchronous)) env =
            if synchronous then after_polling env t else Return t.
Proof.
  intros His Hopen Hbase.
  destruct (async_call_run env h (PBool synchronous) base Hopen Hbase)
    as (rq & Hverb & Hurl & Hrun).
  exists rq. unfold outcome, effects. rewrite Hrun. cbn [fst snd].
  split; [exact Hverb | split; [exact Hurl |]]. cbv zeta.
  match goal with
  | |- context [fst (?m ?env ?n)] =>
      pattern (m env n);
      match goal with |- ?Q _ => change (wp m env n Q) end
  end.
  apply (wp_task_id_or_none _ _ _ _ _ His); cbn [fst snd]; intros;
    try congruence.
  all: try match goal with
       | H : is_http_error ?s = true, E : ?s = ACCEPTED |- _ =>
           rewrite E in H; discriminate H
       end.
  all: destruct synchronous; try discriminate.
  all: match goal with
       | H : task_id_of ?r = Some _, H' : task_id_of ?r = Some _ |- _ =>
           rewrite H in H'; injection H' as <-
       end.
  all: split; reflexivity.
Qed.

Lemma async_helper_polling_witness :
  let env := sample_env value_identity (fun _ => accepted_with_id (PInt 7))
                        (Return (PDict [])) false in
  let h := Sync an_entity in
  let rq := mkRequest POST "api/Repository/1/sync" None None in
  is_agrees_with_eq env ACCEPTED
  /\ file_opens env h = true
  /\ async_base env h = Return "api/Repository/1"
  /\ effects (async_call h (PBool true)) env
     = [EvHttp rq; EvPoll (PInt 7) default_poll_rate default_timeout]
  /\ outcome (async_call h (PBool true)) env = Return (PInt 7).
Proof.
  intros env h rq.
  assert (His : is_agrees_with_eq env ACCEPTED) by (intros a; reflexivity).
  assert (Hopen : file_opens env h = true) by reflexivity.
  assert (Hbase : async_base env h = Return "api/Repository/1") by reflexivity.
  split; [exact His | split; [exact Hopen | split; [exact Hbase |]]].
  destruct (async_helper_polling env h true _ His Hopen Hbase)
    as (rq' & Hverb & Hurl & Hrun).
  destruct (Hrun eq_refl (PInt 7) eq_refl) as [Heffects Houtcome].
  split; [| exact Houtcome].
  rewrite Heffects. vm_compute in Heffects.
  injection Heffects as <-. reflexivity.
Defined.

(** C3 as stated fails: [sync], called with [synchronous=False], gets a
    202 response whose JSON has no [id]; the helper raises [KeyError]
    and returns no task id. *)
Lemma accepted_without_id_gives_no_task_id :
  ~ returns_task_id_at_once
      (sample_env value_identity
                  (fun _ => mkResponse ACCEPTED (Some (PDict [])))
                  (Return PNone) false)
      (Sync an_entity).
Proof.
  intros H.
  destruct (H (mkResponse ACCEPTED (Some (PDict []))) eq_refl eq_refl)
    as [t Ht].
  vm_compute in Ht. discriminate Ht.
Qed.

(** ** The uniqueness searches *)

(** The end of a [fetch_*] search on a response that is no error and
    carries a list of results. *)
Lemma results_of_inv response results :
  results_of response = Some results ->
  exists d, body response = Some (PDict d)
            /\ assoc "results" d = Some (PList results).
Proof.
  unfold results_of.
  destruct (body response) as [[| | | | | d] |]; try discriminate.
  destruct (assoc "results" d) as [[| | | | l |] |] eqn:E; try discriminate.
  intros [= ->]. eauto.
Qed.

Lemma id_of_single_result_many env n response results :
  is_http_error (status_code response) = false ->
  results_of response = Some results ->
  List.length results <> 1%nat ->
  id_of_single_result response env n =
  (Raise (APIResponseError [PStr "The length of the results is:";
                            PInt (Z.of_nat (List.length results))]), []).
Proof.
  intros Herr (d & Hb & Hd)%results_of_inv Hlen.
  match goal with |- ?m ?env ?n = ?v => change (wp m env n (fun p => p = v)) end.
  unfold id_of_single_result.
  wp_steps; try reflexivity.
  all: match goal with H : negb _ = false |- _ =>
         apply negb_false_iff, Z.eqb_eq in H; cbn [length] in *; lia end.
Qed.

Lemma id_of_single_result_one env n response x :
  is_http_error (status_code response) = false ->
  results_of response = Some [x] ->
  id_of_single_result response env n =
  (match id_of x with
   | Some v => Return v
   | None => match x with
             | PDict _ => Raise (KeyError "id")
             | _ => Raise TypeError
             end
   end, []).
Proof.
  intros Herr (d & Hb & Hd)%results_of_inv.
  match goal with |- ?m ?env ?n = ?v => change (wp m env n (fun p => p = v)) end.
  unfold id_of_single_result, id_of.
  destruct x as [| b | z | s | l | fields]; wp_steps; try reflexivity.
  all: try match goal with
           | H : negb _ = true |- _ => vm_compute in H; discriminate H
           end.
  all: match goal with H : assoc "id" _ = _ |- _ => rewrite H end; reflexivity.
Qed.

(** The "Library" lookup, once its request is out. *)
Lemma library_lookup_many env self p results :
  entity_path env "LifecycleEnvironment" self None = Return p ->
  results_of (respond env 0%nat
                (mkRequest GET p
                   (Some (PDict [("name", PStr "Library");
                                 ("organization_id", attr self "organization")]))
                   None)) = Some results ->
  List.length results <> 1%nat ->
  exists msg,
    fst (LifecycleEnvironment_library_lookup self env 0%nat) =
    Raise (APIResponseError [PStr msg]).
Proof.
  intros Hp (d & Hb & Hd)%results_of_inv Hlen.
  match goal with
  | |- exists msg, fst (?m ?env ?n) = _ =>
      change (wp m env n (fun q => exists msg,
                            fst q = Raise (APIResponseError [PStr msg])))
  end.
  unfold LifecycleEnvironment_library_lookup.
  wp_steps; eauto.
  all: match goal with H : negb _ = false |- _ =>
         apply negb_false_iff, Z.eqb_eq in H; cbn [length] in *; lia end.
Qed.

Lemma library_lookup_one env self p x :
  entity_path env "LifecycleEnvironment" self None = Return p ->
  results_of (respond env 0%nat
                (mkRequest GET p
                   (Some (PDict [("name", PStr "Library");
                                 ("organization_id", attr self "organization")]))
                   None)) = Some [x] ->
  fst (LifecycleEnvironment_library_lookup self env 0%nat) =
  match id_of x with
  | Some v => Return v
  | None => match x with
            | PDict _ => Raise (KeyError "id")
            | _ => Raise TypeError
            end
  end.
Proof.
  intros Hp (d & Hb & Hd)%results_of_inv.
  match goal with
  | |- fst (?m ?env ?n) = ?v => change (wp m env n (fun q => fst q = v))
  end.
  unfold LifecycleEnvironment_library_lookup, id_of.
  destruct x as [| b | z | s | l | fields]; wp_steps; try reflexivity.
  all: try match goal with
           | H : negb _ = true |- _ => vm_compute in H; discriminate H
           end.
  all: match goal with H : assoc "id" _ = _ |- _ => rewrite H end; reflexivity.
Qed.

Lemma id_of_single_result_sends_nothing env n response :
  requests (snd (id_of_single_result response env n)) = [].
Proof.
  change (wp (id_of_single_result response) env n
             (fun q => requests (snd q) = [])).
  unfold id_of_single_result. wp_steps; reflexivity.
Qed.

(** Each [fetch_*] search whose path resolves is one GET followed by the
    shared lines. *)
Lemma fetch_run env u base :
  checks_status (CUnique u) = true ->
  unique_base env u = Return base ->
  exists rq,
    verb rq = GET
    /\ url rq = unique_url u base
    /\ unique_search u env 0%nat
       = (fst (id_of_single_result (respond env 0%nat rq) env 1%nat),
          EvHttp rq
          :: snd (id_of_single_result (respond env 0%nat rq) env 1%nat)).
Proof.
  intros Hchecks Hbase.
  destruct u; try discriminate Hchecks;
    cbn [unique_base unique_target] in *;
    unfold_methods;
    match goal with
    | |- exists rq, _ /\ _ /\ ?m ?env 0%nat = _ =>
        pattern (m env 0%nat);
        match goal with |- ?Q _ => change (wp m env 0%nat Q) end
    end;
    wp_prefix.
  all: unfold wp; eexists; split; [| split]; cycle 2; [reflexivity ..].
Qed.

(** The "Library" lookup whose path resolves sends one GET. *)
Lemma library_lookup_sends_one env self base :
  entity_path env "LifecycleEnvironment" self None = Return base ->
  requests (effects (LifecycleEnvironment_library_lookup self) env)
  = [mkRequest GET base
       (Some (PDict [("name", PStr "Library");
                     ("organization_id", attr self "organization")]))
       None].
Proof.
  intros Hbase. unfold LifecycleEnvironment_library_lookup. to_wp.
  wp_steps; reflexivity.
Qed.

Lemma item_id x :
  match id_of x with
  | Some v => Return v
  | None => match x with
            | PDict _ => Raise (KeyError "id")
            | _ => Raise TypeError
            end
  end = item x "id".
Proof.
  destruct x; reflexivity.
Qed.

Lemma item_is_no_api_error x key args :
  item x key <> Raise (APIResponseError args).
Proof.
  destruct x as [| b | z | s | l | d]; try discriminate.
  cbn. destruct (assoc key d); discriminate.
Qed.

(** C2, as amended.  A uniqueness search whose path resolves sends one
    GET.  When the response to it carries a list of results and, for the
    four [fetch_*] methods, is let through by [raise_for_status] (the
    "Library" lookup of [LifecycleEnvironment.build] makes no such check),
    the search raises [APIResponseError] exactly when the list is not of
    length one, and otherwise gives what the single result holds under
    [id]: that value, or [KeyError] when it holds none. *)
Theorem unique_search_result env u base :
  unique_base env u = Return base ->
  exists rq,
    requests (effects (unique_search u) env) = [rq]
    /\ verb rq = GET
    /\ url rq = unique_url u base
    /\ let response := respond env 0%nat rq in
       (checks_status (CUnique u) = true ->
        is_http_error (status_code response) = false) ->
       forall results,
         results_of response = Some results ->
         (List.length results <> 1%nat <->
          exists args,
            outcome (unique_search u) env = Raise (APIResponseError args))
         /\ (forall x, results = [x] ->
             outcome (unique_search u) env = item x "id").
Proof.
  intros Hbase.
  destruct (checks_status (CUnique u)) eqn:Hchecks.
  - destruct (fetch_run env u base Hchecks Hbase) as (rq & Hverb & Hurl & Hrun).
    exists rq. unfold outcome, effects. rewrite Hrun. cbn [fst snd].
    split; [| split; [exact Hverb | split; [exact Hurl |]]].
    + change (requests (EvHttp rq :: ?tl)) with (rq :: requests tl).
      rewrite id_of_single_result_sends_nothing. reflexivity.
    + cbv zeta. intros Herr results Hres. specialize (Herr eq_refl).
      destruct (Nat.eq_dec (List.length results) 1%nat) as [Hone | Hmany].
      * destruct results as [| x [| y rest]]; try discriminate Hone.
        rewrite (id_of_single_result_one _ _ _ _ Herr Hres), item_id.
        cbn [fst].
        split; [split; [intros Hne; elim Hne; reflexivity |]
               | intros x' [= <-]; reflexivity].
        intros [args Hargs]. elim (item_is_no_api_error _ _ _ Hargs).
      * rewrite (id_of_single_result_many _ _ _ _ Herr Hres Hmany).
        cbn [fst].
        split; [split; eauto | intros x ->; elim Hmany; reflexivity].
  - destruct u; try discriminate Hchecks.
    cbn [unique_base unique_target unique_search unique_url snd] in *.
    eexists. split; [exact (library_lookup_sends_one env self base Hbase) |].
    split; [reflexivity | split; [reflexivity |]].
    cbv zeta. cbn [verb url]. intros _ results Hres. unfold outcome.
    destruct (Nat.eq_dec (List.length results) 1%nat) as [Hone | Hmany].
    + destruct results as [| x [| y rest]]; try discriminate Hone.
      rewrite (library_lookup_one _ _ _ _ Hbase Hres), item_id.
      split; [split; [intros Hne; elim Hne; reflexivity |]
             | intros x' [= <-]; reflexivity].
      intros [args Hargs]. elim (item_is_no_api_error _ _ _ Hargs).
    + destruct (library_lookup_many _ _ _ _ Hbase Hres Hmany) as [msg ->].
      split; [split; eauto | intros x ->; elim Hmany; reflexivity].
Qed.

Lemma unique_search_result_witness :
  let response := mkResponse 200
                    (Some (PDict [("results", PList [PDict [("id", PInt 42)]])])) in
  let env := sample_env value_identity (fun _ => response) (Return PNone) false in
  let u := RepoId an_entity (PInt 1) "zoo" in
  unique_base env u = Return "api/Repository/1"
  /\ requests (effects (unique_search u) env)
     = [mkRequest GET "api/Repository/1"
          (Some (PDict [("organization_id", PInt 1);
                        ("search", PStr "name=zoo")])) None]
  /\ outcome (unique_search u) env = Return (PInt 42).
Proof.
  intros response env u.
  assert (Hbase : unique_base env u = Return "api/Repository/1")
    by reflexivity.
  split; [exact Hbase | split; [vm_compute; reflexivity |]].
  destruct (unique_search_result env u _ Hbase) as (rq & _ & _ & _ & Hresult).
  exact (proj2 (Hresult (fun _ => eq_refl) _ eq_refl) _ eq_refl).
Defined.

(** C2 as stated fails twice.  [fetch_repoid] gets a 500 response whose
    JSON lists no result: it raises the client's [HTTPError], not
    [APIResponseError].  And it gets a 200 response with one result that
    has no [id]: it raises [KeyError] and returns no id. *)
Lemma fetch_repoid_on_server_error :
  ~ raises_unless_one_result
      (sample_env value_identity
         (fun _ => mkResponse 500 (Some (PDict [("results", PList [])])))
         (Return PNone) false)
      (RepoId an_entity (PInt 1) "zoo")
  /\ ~ raises_unless_one_result
      (sample_env value_identity
         (fun _ => mkResponse 200
                     (Some (PDict [("results",
                                    PList [PDict [("name", PStr "zoo")]])])))
         (Return PNone) false)
      (RepoId an_entity (PInt 1) "zoo").
Proof.
  split; intros H.
  - destruct (H (mkResponse 500 (Some (PDict [("results", PList [])]))) []
                eq_refl eq_refl) as [[Hraise _] _].
    destruct Hraise as [args Hargs]; [discriminate |].
    vm_compute in Hargs. discriminate Hargs.
  - destruct (H _ [PDict [("name", PStr "zoo")]] eq_refl eq_refl)
      as [_ Hone].
    destruct (Hone _ eq_refl) as (v & Hv & _).
    vm_compute in Hv. discriminate Hv.
Qed.

(** How [build] goes on from the lookup: the id found becomes the
    instance's [prior], and [super().build] is entered with it. *)
Lemma build_stores_the_library_id env self v :
  is_None (attr self "organization") = false ->
  is_None (attr self "prior") = true ->
  outcome (LifecycleEnvironment_library_lookup self) env = Return v ->
  outcome (LifecycleEnvironment_build self) env =
  match super_build env "LifecycleEnvironment" (<["prior" := v]> self) with
  | Return built => Return (<["prior" := v]> self, built)
  | Raise e => Raise e
  end.
Proof.
  intros Horg Hprior Hrun. unfold outcome in *.
  match goal with
  | |- fst (?m ?env ?n) = ?r => change (wp m env n (fun q => fst q = r))
  end.
  unfold LifecycleEnvironment_build.
  apply wp_bind. rewrite Horg. apply wp_ret. cbn [fst snd http_count requests flat_map length Nat.add].
  apply wp_bind. rewrite Hprior. apply wp_bind. unfold wp at 1.
  destruct (LifecycleEnvironment_library_lookup self env 0%nat)
    as [[w | e] evs]; cbn [fst] in Hrun; [| discriminate Hrun].
  injection Hrun as ->. cbn [fst snd]. apply wp_ret. cbn [fst snd].
  wp_steps; reflexivity.
Qed.

(** ** Requests per call *)

Lemma one_request_unless_read_raw env c :
  is_read_raw c = false -> issues_at_most_one_request env c.
Proof.
  unfold issues_at_most_one_request.
  destruct c as [h s | u | l | self | self | self]; try discriminate; intros _.
  - destruct h; unfold_methods; to_wp; wp_steps; cbn; lia.
  - destruct u; unfold_methods; to_wp; wp_steps; cbn; lia.
  - destruct l; unfold_methods; to_wp; wp_steps; cbn; lia.
  - unfold_methods; to_wp; wp_steps; cbn; lia.
  - unfold_methods; to_wp; wp_steps; cbn; lia.
Qed.

(** C4.  Where no status code is the same object as the literal [404],
    every method of the module, [ActivationKey.read_raw] included, issues
    at most one request per call, whatever the answer: the second read of
    [read_raw] hangs on [status_code is 404], which is never the case. *)
Theorem requests_per_call env c :
  literal_404_is_unshared env ->
  issues_at_most_one_request env c.
Proof.
  intros Hunshared.
  destruct (is_read_raw c) eqn:Hc;
    [| exact (one_request_unless_read_raw env c Hc)].
  destruct c as [h s | u | l | self | self | self]; try discriminate Hc.
  unfold issues_at_most_one_request.
  unfold_methods; to_wp; wp_steps; cbn; try lia.
  exfalso.
  match goal with H : (_ && _) = true |- _ => apply andb_prop in H as [H _] end.
  rewrite Hunshared in *. discriminate.
Qed.

Lemma requests_per_call_witness :
  let env := sample_env small_int_identity (fun _ => mkResponse 404 None)
                        (Return PNone) true in
  literal_404_is_unshared env
  /\ issues_at_most_one_request env (CReadRaw an_entity)
  /\ issues_at_most_one_request env (CPlain (Subscriptions an_entity)).
Proof.
  intros env.
  assert (Hunshared : literal_404_is_unshared env).
  { intros a. cbn. unfold small_int_identity.
    destruct (Z.eqb_spec a 404) as [-> | _]; reflexivity. }
  split; [exact Hunshared |].
  split; exact (requests_per_call env _ Hunshared).
Defined.

(** The retry of [read_raw] does run where equal integers are one
    object: a 404 answer while the bug is open then makes it ask again. *)
Lemma read_raw_asks_twice_where_404_is_shared :
  ~ issues_at_most_one_request
      (sample_env value_identity (fun _ => mkResponse 404 None)
                  (Return PNone) true)
      (CReadRaw an_entity).
Proof.
  unfold issues_at_most_one_request. vm_compute. intros H.
  inversion H as [| m Hm]. inversion Hm.
Qed.

(** ** Error statuses *)

Ltac close_error_leaf :=
  let response := fresh "response" in
  let Hrq := fresh "Hrq" in
  let Herr := fresh "Herr" in
  intros response Hrq Herr; cbn in Hrq;
  first [ discriminate Hrq | injection Hrq as <-; congruence ].

(** Every method that follows its request with [raise_for_status]
    raises the client's [HTTPError] on a 4XX or 5XX response to it. *)
Lemma status_checked_calls env c :
  checks_status c = true -> propagates_http_error env c.
Proof.
  unfold propagates_http_error.
  destruct c as [h s | u | l | self | self | self]; try discriminate; intros Hc.
  - destruct h; unfold_methods; to_wp; wp_steps; close_error_leaf.
  - destruct u; try discriminate Hc;
      unfold_methods; to_wp; wp_steps; close_error_leaf.
  - destruct l; unfold_methods; to_wp; wp_steps; close_error_leaf.
  - unfold_methods; to_wp; wp_steps; close_error_leaf.
Qed.

(** What the siblings of [build] do: an asynchronous helper or a
    [fetch_*] search whose request goes out raises the client's
    [HTTPError] on a 4XX or 5XX response to it. *)
Lemma async_helper_raises_on_error env h synchronous base :
  file_opens env h = true ->
  async_base env h = Return base ->
  exists rq,
    requests (effects (async_call h synchronous) env) = [rq]
    /\ (is_http_error (status_code (respond env 0%nat rq)) = true ->
        outcome (async_call h synchronous) env
        = Raise (HTTPError (status_code (respond env 0%nat rq)))).
Proof.
  intros Hopen Hbase.
  destruct (async_call_run env h synchronous base Hopen Hbase)
    as (rq & _ & _ & Hrun).
  exists rq. unfold outcome, effects. rewrite Hrun. cbn [fst snd].
  split.
  - change (requests (EvHttp rq :: ?tl)) with (rq :: requests tl).
    rewrite task_id_or_none_sends_nothing. reflexivity.
  - intros Herr. unfold task_id_or_none, raise_for_status, bind.
    rewrite Herr. reflexivity.
Qed.

Lemma fetch_raises_on_error env u base :
  checks_status (CUnique u) = true ->
  unique_base env u = Return base ->
  exists rq,
    requests (effects (unique_search u) env) = [rq]
    /\ (is_http_error (status_code (respond env 0%nat rq)) = true ->
        outcome (unique_search u) env
        = Raise (HTTPError (status_code (respond env 0%nat rq)))).
Proof.
  intros Hchecks Hbase.
  destruct (fetch_run env u base Hchecks Hbase) as (rq & _ & _ & Hrun).
  exists rq. unfold outcome, effects. rewrite Hrun. cbn [fst snd].
  split.
  - change (requests (EvHttp rq :: ?tl)) with (rq :: requests tl).
    rewrite id_of_single_result_sends_nothing. reflexivity.
  - intros Herr. unfold id_of_single_result, raise_for_status, bind.
    rewrite Herr. reflexivity.
Qed.
(** C5.  [LifecycleEnvironment.build] does not follow its request with
    [raise_for_status], as every other method of the module that sends a
    request does (the three lemmas above).  On a 500 response to the
    "Library" lookup it raises no [HTTPError]: when the body carries one
    result, [build] takes its [id] as [prior] and returns; when the body
    is an error message, what surfaces is the [KeyError] of the missing
    [results]. *)
Theorem build_goes_on_after_server_error :
  let self : Obj := {[ "organization" := PInt 1 ]} in
  let rq := mkRequest GET "api/LifecycleEnvironment/1"
              (Some (PDict [("name", PStr "Library");
                            ("organization_id", PInt 1)])) None in
  let found := mkResponse 500
                 (Some (PDict [("results", PList [PDict [("id", PInt 9)]])])) in
  let failed := mkResponse 500
                  (Some (PDict [("error", PStr "Internal Server Error")])) in
  let answers response :=
    sample_env value_identity (fun _ => response) (Return PNone) false in
  is_http_error (status_code found) = true
  /\ requests (effects (LifecycleEnvironment_build self) (answers found)) = [rq]
  /\ respond (answers found) 0%nat rq = found
  /\ outcome (LifecycleEnvironment_build self) (answers found)
     = Return (<["prior" := PInt 9]> self, PDict [])
  /\ requests (effects (LifecycleEnvironment_build self) (answers failed)) = [rq]
  /\ outcome (LifecycleEnvironment_build self) (answers failed)
     = Raise (KeyError "results").
Proof.
  intros self rq found failed answers.
  split; [reflexivity |].
  split; [vm_compute; reflexivity |].
  split; [reflexivity |].
  split.
  - pose proof (build_stores_the_library_id (answers found) self (PInt 9)
                  eq_refl eq_refl) as Hbuild.
    rewrite Hbuild by (vm_compute; reflexivity). reflexivity.
  - split; vm_compute; reflexivity.
Qed.

(** ** Task polling *)

Section Polling.

Variable status : nat -> option (list (string * pyval)).
Variables poll_rate timeout : Z.
Hypothesis rate_positive : 1 <= poll_rate.

Lemma times_from_S now n :
  times_from poll_rate now (S n)
  = now :: times_from poll_rate (now + poll_rate) n.
Proof.
  unfold times_from. cbn [seq map]. f_equal; [lia |].
  rewrite <- seq_shift, map_map. apply map_ext. intros i. lia.
Qed.

(** The task completes at the [j]-th check from here: the loop makes
    [j + 1] checks and returns the information. *)
Lemma poll_loop_completes j : forall fuel k now info,
  (forall i, (i < j)%nat -> status (k + i)%nat = None) ->
  status (k + j)%nat = Some info ->
  now + Z.of_nat j * poll_rate < timeout ->
  (j <= fuel)%nat ->
  poll_loop fuel status poll_rate timeout k now =
  (times_from poll_rate now (S j), Some (Return (PDict info))).
Proof.
  induction j as [| j IH]; intros fuel k now info Hrun Hdone Hlt Hfuel.
  - rewrite Nat.add_0_r in Hdone.
    assert (Hnow : (timeout <=? now) = false) by (apply Z.leb_gt; lia).
    destruct fuel; cbn [poll_loop]; rewrite Hnow, Hdone;
      unfold times_from; cbn; repeat f_equal; lia.
  - assert (Hnow : (timeout <=? now) = false) by (apply Z.leb_gt; lia).
    destruct fuel as [| fuel]; [lia |].
    cbn [poll_loop]. rewrite Hnow.
    rewrite <- (Nat.add_0_r k) at 1. rewrite (Hrun 0%nat) by lia.
    rewrite (IH fuel (S k) (now + poll_rate) info).
    + rewrite (times_from_S now (S j)). reflexivity.
    + intros i Hi. replace (S k + i)%nat with (k + S i)%nat by lia.
      apply Hrun. lia.
    + replace (S k + j)%nat with (k + S j)%nat by lia. exact Hdone.
    + lia.
    + lia.
Qed.

(** The task does not complete at any check made before the timeout:
    the loop checks as long as time remains, then raises. *)
Lemma poll_loop_times_out fuel : forall k now,
  (forall i, now + Z.of_nat i * poll_rate < timeout ->
             status (k + i)%nat = None) ->
  (Z.to_nat (timeout - now) <= fuel)%nat ->
  exists n,
    poll_loop fuel status poll_rate timeout k now =
    (times_from poll_rate now n, Some (Raise TaskTimeout))
    /\ (forall i, (i < n)%nat -> now + Z.of_nat i * poll_rate < timeout)
    /\ timeout <= now + Z.of_nat n * poll_rate.
Proof.
  induction fuel as [| fuel IH]; intros k now Hrun Hfuel.
  - exists 0%nat. cbn [poll_loop].
    assert (Hnow : (timeout <=? now) = true) by (apply Z.leb_le; lia).
    rewrite Hnow. repeat split; [intros i Hi; lia | lia].
  - destruct (Z.leb_spec timeout now) as [Hnow | Hnow].
    + exists 0%nat. cbn [poll_loop].
      apply Z.leb_le in Hnow as Hb. rewrite Hb.
      repeat split; [intros i Hi; lia | lia].
    + destruct (IH (S k) (now + poll_rate)) as (n & Hloop & Hbelow & Hend).
      * intros i Hi. replace (S k + i)%nat with (k + S i)%nat by lia.
        apply Hrun. lia.
      * lia.
      * exists (S n). cbn [poll_loop].
        apply Z.leb_gt in Hnow as Hb. rewrite Hb.
        rewrite <- (Nat.add_0_r k) at 1. rewrite (Hrun 0%nat) by lia.
        rewrite Hloop, times_from_S.
        repeat split.
        -- intros [| i] Hi; [lia |].
           specialize (Hbelow i ltac:(lia)). lia.
        -- lia.
Qed.

End Polling.

(** C6.  [ForemanTask.poll] hands its own id, [poll_rate] and [timeout]
    to [orm._poll_task].  Taking that loop as specified: the checks come
    [poll_rate] seconds apart, starting at once; if the task is found
    completed at a check made before [timeout] seconds have elapsed, its
    information is returned as a dict; if it is not, [TaskTimeout] is
    raised once the time is up. *)
Theorem poll_until_done_or_timeout env self status poll_rate timeout :
  1 <= poll_rate ->
  (forall r, snd (_poll_task status poll_rate timeout) = Some r ->
             poll_task env (attr self "id") poll_rate timeout = r) ->
  effects (ForemanTask_poll self poll_rate timeout) env
    = [EvPoll (attr self "id") poll_rate timeout]
  /\ (forall k info,
        (forall i, (i < k)%nat -> status i = None) ->
        status k = Some info ->
        Z.of_nat k * poll_rate < timeout ->
        fst (_poll_task status poll_rate timeout) = check_times poll_rate (S k)
        /\ outcome (ForemanTask_poll self poll_rate timeout) env
           = Return (PDict info))
  /\ ((forall i, Z.of_nat i * poll_rate < timeout -> status i = None) ->
      outcome (ForemanTask_poll self poll_rate timeout) env = Raise TaskTimeout
      /\ exists n,
           fst (_poll_task status poll_rate timeout) = check_times poll_rate n
           /\ (forall i, (i < n)%nat -> Z.of_nat i * poll_rate < timeout)
           /\ timeout <= Z.of_nat n * poll_rate).
Proof.
  intros Hrate Horm.
  assert (Hout : outcome (ForemanTask_poll self poll_rate timeout) env
                 = poll_task env (attr self "id") poll_rate timeout).
  { unfold outcome, ForemanTask_poll, orm_poll_task, bind, emit, ask, lift.
    cbn. destruct (poll_task env (attr self "id") poll_rate timeout);
      reflexivity. }
  split; [| split].
  - unfold effects, ForemanTask_poll, orm_poll_task, bind, emit, ask, lift.
    cbn. destruct (poll_task env (attr self "id") poll_rate timeout);
      reflexivity.
  - intros k info Hrun Hdone Hlt.
    assert (Hloop := poll_loop_completes status poll_rate timeout Hrate k
                       (Z.to_nat timeout) 0%nat 0 info).
    cbn [Nat.add] in Hloop. rewrite Z.add_0_l in Hloop.
    specialize (Hloop Hrun Hdone Hlt ltac:(nia)).
    unfold _poll_task. rewrite Hloop in *. cbn [fst].
    split; [reflexivity |].
    rewrite Hout. apply Horm. unfold _poll_task. rewrite Hloop. reflexivity.
  - intros Hrun.
    destruct (poll_loop_times_out status poll_rate timeout Hrate
                (Z.to_nat timeout) 0%nat 0) as (n & Hloop & Hbelow & Hend).
    + intros i Hi. apply Hrun. lia.
    + lia.
    + split.
      * rewrite Hout. apply Horm. unfold _poll_task. rewrite Hloop.
        reflexivity.
      * exists n. unfold _poll_task. rewrite Hloop. cbn [fst].
        split; [reflexivity |].
        split; [intros i Hi; specialize (Hbelow i Hi); lia | lia].
Qed.

Lemma poll_until_done_or_timeout_witness :
  let info := [("state", PStr "stopped")] in
  let env := sample_env value_identity (fun _ => mkResponse 200 None)
                        (Return (PDict info)) false in
  let self := ForemanTask (PStr "task-1") in
  1 <= default_poll_rate
  /\ (forall r,
        snd (_poll_task stops_at_third_check default_poll_rate default_timeout)
          = Some r ->
        poll_task env (attr self "id") default_poll_rate default_timeout = r)
  /\ fst (_poll_task stops_at_third_check default_poll_rate default_timeout)
       = [0; 5; 10]
  /\ outcome (ForemanTask_poll self default_poll_rate default_timeout) env
       = Return (PDict info).
Proof.
  intros info env self.
  assert (Hrate : 1 <= default_poll_rate) by (unfold default_poll_rate; lia).
  assert (Horm : forall r,
            snd (_poll_task stops_at_third_check default_poll_rate
                   default_timeout) = Some r ->
            poll_task env (attr self "id") default_poll_rate default_timeout = r).
  { intros r Hr. vm_compute in Hr. injection Hr as <-. reflexivity. }
  split; [exact Hrate | split; [exact Horm |]].
  destruct (poll_until_done_or_timeout env self stops_at_third_check
              default_poll_rate default_timeout Hrate Horm)
    as (_ & Hdone & _).
  refine (Hdone 2%nat info _ eq_refl _).
  - intros [| [| i]] Hi; [reflexivity | reflexivity | lia].
  - unfold default_poll_rate, default_timeout. lia.
Defined.

(** ** [System.path] *)

(** C8.  For a system whose [uuid] is set, [path] with [which] equal to
    [None] or ['self'] gives the base path, a slash and the uuid; for any
    other [which], or without a uuid, it gives what the inherited [path]
    gives. *)
Theorem System_path_by_uuid env self which :
  (is_None (attr self "uuid") = false ->
   which = None \/ which = Some "self" ->
   outcome (System_path self which) env =
   match entity_path env "System" self (Some "base") with
   | Return base => Return (base ++ "/" ++ shown env (attr self "uuid"))%string
   | Raise e => Raise e
   end)
  /\ (is_None (attr self "uuid") = true
      \/ (which <> None /\ which <> Some "self") ->
      outcome (System_path self which) env
      = entity_path env "System" self which).
Proof.
  unfold outcome, System_path, Entity_path, format_arg, join_path.
  split.
  - intros Huuid Hwhich. rewrite Huuid.
    destruct Hwhich as [-> | ->]; cbn;
      unfold bind, ask, lift, ret; cbn;
      destruct (entity_path env "System" self (Some "base")); reflexivity.
  - intros [Huuid | [Hnone Hself]].
    + rewrite Huuid. cbn. unfold bind, ask, lift. cbn.
      destruct (entity_path env "System" self which); reflexivity.
    + destruct which as [w |]; [| congruence].
      destruct (String.eqb_spec w "self") as [-> | Hw]; [congruence |].
      rewrite andb_false_r. unfold bind, ask, lift. cbn.
      destruct (entity_path env "System" self (Some w)); reflexivity.
Qed.

Lemma System_path_by_uuid_witness :
  let env := sample_env value_identity (fun _ => mkResponse 200 None)
                        (Return PNone) false in
  let self : Obj := {[ "uuid" := PStr "f00d-cafe" ]} in
  is_None (attr self "uuid") = false
  /\ (@None string = None \/ @None string = Some "self")
  /\ outcome (System_path self None) env = Return "api/System/f00d-cafe".
Proof.
  intros env self.
  split; [reflexivity | split; [left; reflexivity |]].
  exact (proj1 (System_path_by_uuid env self None) eq_refl
           (or_introl eq_refl)).
Defined.

(** ** [OperatingSystemParameter.read] *)

Lemma setattr_other st a name v x :
  x <> a -> heap (setattr st a name v) !! x = heap st !! x.
Proof. intros Hx. unfold setattr. cbn. by rewrite lookup_insert_ne. Qed.

Lemma allocate_fresh st : heap st !! fst (allocate st) = None.
Proof.
  unfold allocate. cbn. apply not_elem_of_dom, is_fresh.
Qed.

Lemma allocate_other st x :
  x <> fst (allocate st) -> heap (snd (allocate st)) !! x = heap st !! x.
Proof. intros Hx. unfold allocate in *. cbn in *. by rewrite lookup_insert_ne. Qed.

Lemma fold_setattr_meta a kwargs : forall st,
  Meta_api_path
    (fold_left (fun st kv => setattr st a (fst kv) (snd kv)) kwargs st)
  = Meta_api_path st.
Proof.
  induction kwargs as [| kv kwargs IH]; intros st; cbn; [done |].
  rewrite IH. reflexivity.
Qed.

Section ReadLeavesReceiver.

Variable os_path : pyval -> result string.
Variable super_read :
  Store -> nat -> nat -> option pyval -> result nat * Store.

(** The inherited [read] writes to the entity it is given and to no
    other object. *)
Hypothesis super_read_frame : forall st self entity attrs x,
  x <> entity ->
  heap (snd (super_read st self entity attrs)) !! x = heap st !! x.

Lemma init_other a os_id kwargs st x :
  x <> a ->
  heap (snd (OperatingSystemParameter_init os_path a os_id kwargs st)) !! x
  = heap st !! x.
Proof.
  intros Hx. unfold OperatingSystemParameter_init.
  destruct (os_path os_id) as [p | e]; cbn [snd].
  - set (st1 := mkStore _ _).
    assert (Hst1 : heap st1 !! x = heap st !! x)
      by (subst st1; cbn; apply setattr_other, Hx).
    clearbody st1. revert st1 Hst1.
    induction kwargs as [| kv kwargs IH]; intros st1 Hst1; cbn; [done |].
    apply IH. rewrite setattr_other by done. exact Hst1.
  - apply setattr_other, Hx.
Qed.

Lemma new_other os_id kwargs st x :
  is_Some (heap st !! x) ->
  heap (snd (OperatingSystemParameter_new os_path os_id kwargs st)) !! x
  = heap st !! x.
Proof.
  intros Hx. unfold OperatingSystemParameter_new.
  assert (Hfresh : x <> fst (allocate st)).
  { intros ->. rewrite allocate_fresh in Hx. by destruct Hx. }
  pose proof (allocate_other st x Hfresh) as Halloc.
  destruct (allocate st) as [a st1]. cbn [fst snd] in *.
  destruct (existsb (String.eqb "os_id") (map fst kwargs));
    [exact Halloc |].
  pose proof (init_other a os_id kwargs st1 x Hfresh) as Hinit.
  destruct (OperatingSystemParameter_init os_path a os_id kwargs st1)
    as [[u | e] st2]; cbn [snd] in *; congruence.
Qed.

Lemma new_returns_fresh os_id kwargs st a :
  fst (OperatingSystemParameter_new os_path os_id kwargs st) = Return a ->
  heap st !! a = None.
Proof.
  unfold OperatingSystemParameter_new.
  pose proof (allocate_fresh st) as Hfresh.
  destruct (allocate st) as [b st1]. cbn [fst] in Hfresh.
  destruct (existsb (String.eqb "os_id") (map fst kwargs)); [discriminate |].
  destruct (OperatingSystemParameter_init os_path b os_id kwargs st1)
    as [[u | e] st2]; cbn [fst]; [| discriminate].
  intros [= <-]. exact Hfresh.
Qed.

(** C9.  [OperatingSystemParameter.read] leaves the object it is called
    on as it was: every attribute of the receiver reads after the call
    as it did before.  The entity handed to the inherited [read] is a new
    object, other than the receiver, made for the receiver's [os_id]. *)
Theorem read_leaves_receiver st self entity attrs :
  is_Some (heap st !! self) ->
  heap (snd (OperatingSystemParameter_read os_path super_read
               self entity attrs st)) !! self
  = heap st !! self
  /\ (forall name,
        getattr (snd (OperatingSystemParameter_read os_path super_read
                        self entity attrs st)) self name
        = getattr st self name)
  /\ (forall a st1,
        OperatingSystemParameter_new os_path (getattr st self "os_id") [] st
        = (Return a, st1) ->
        OperatingSystemParameter_read os_path super_read self entity attrs st
        = super_read st1 self a attrs
        /\ a <> self
        /\ getattr st1 a "os_id" = getattr st self "os_id").
Proof.
  intros Hself.
  assert (Hheap :
    heap (snd (OperatingSystemParameter_read os_path super_read
                 self entity attrs st)) !! self = heap st !! self).
  { unfold OperatingSystemParameter_read.
    pose proof (new_other (getattr st self "os_id") [] st self Hself) as Hnew.
    pose proof (new_returns_fresh (getattr st self "os_id") [] st) as Hfresh.
    destruct (OperatingSystemParameter_new os_path
                (getattr st self "os_id") [] st) as [[a | e] st1];
      cbn [fst snd] in *; [| exact Hnew].
    rewrite super_read_frame; [exact Hnew |].
    intros ->. rewrite (Hfresh a eq_refl) in Hself. by destruct Hself. }
  split; [exact Hheap | split].
  - intros name. unfold getattr. rewrite Hheap. reflexivity.
  - intros a st1 Hnew.
    split; [unfold OperatingSystemParameter_read; rewrite Hnew; reflexivity |].
    split.
    + intros ->.
      rewrite (new_returns_fresh (getattr st self "os_id") [] st self) in Hself
        by (rewrite Hnew; reflexivity).
      by destruct Hself.
    + revert Hnew. unfold OperatingSystemParameter_new, allocate,
        OperatingSystemParameter_init. cbn [map existsb].
      destruct (os_path (getattr st self "os_id")); [| discriminate].
      intros [= <- <-]. unfold getattr, setattr, attr. cbn.
      rewrite lookup_insert_eq. cbn. rewrite lookup_insert_eq. reflexivity.
Qed.

(** The class attribute [Meta.api_path], which all instances share, is
    what the construction of the new entity does write. *)
Lemma new_rewrites_shared_path os_id kwargs st a st' :
  OperatingSystemParameter_new os_path os_id kwargs st = (Return a, st') ->
  exists p, os_path os_id = Return p
            /\ Meta_api_path st' = PStr (p ++ "/parameters")%string.
Proof.
  unfold OperatingSystemParameter_new, allocate,
    OperatingSystemParameter_init.
  destruct (existsb (String.eqb "os_id") (map fst kwargs)); [discriminate |].
  destruct (os_path os_id) as [p | e]; [| discriminate].
  intros [= <- <-]. exists p. split; [reflexivity |].
  rewrite fold_setattr_meta. reflexivity.
Qed.

(** A keyword [os_id] makes the call raise, and only then does a
    construction whose path resolves fail. *)
Lemma new_raises_on_second_os_id os_id kwargs st :
  In "os_id" (map fst kwargs) ->
  fst (OperatingSystemParameter_new os_path os_id kwargs st) = Raise TypeError.
Proof.
  intros Hin. unfold OperatingSystemParameter_new, allocate.
  assert (Hex : existsb (String.eqb "os_id") (map fst kwargs) = true).
  { apply existsb_exists. exists "os_id". split; [exact Hin |].
    apply String.eqb_refl. }
  rewrite Hex. reflexivity.
Qed.

End ReadLeavesReceiver.

(** A stand-in for the inherited [read]: it sets the attributes given on
    the entity given and hands the entity back. *)
Lemma read_leaves_receiver_witness :
  let os_path := fun _ : pyval => Return "api/v2/operatingsystems/3" in
  let super_read := fun (st : Store) (self entity : nat) (attrs : option pyval) =>
                      (Return entity, setattr st entity "name" (PStr "kernel")) in
  let st := mkStore {[ 0%nat := {[ "os_id" := PInt 3; "name" := PStr "old" ]} ]}
                    PNone in
  (forall st self entity attrs x,
     x <> entity ->
     heap (snd (super_read st self entity attrs)) !! x = heap st !! x)
  /\ is_Some (heap st !! 0%nat)
  /\ getattr (snd (OperatingSystemParameter_read os_path super_read
                     0%nat None None st)) 0%nat "name"
     = PStr "old".
Proof.
  intros os_path super_read st.
  assert (Hframe : forall st self entity attrs x,
            x <> entity ->
            heap (snd (super_read st self entity attrs)) !! x = heap st !! x)
    by (intros st0 self entity attrs x Hx; apply setattr_other, Hx).
  assert (Hself : is_Some (heap st !! 0%nat)) by (vm_compute; eauto).
  split; [exact Hframe | split; [exact Hself |]].
  exact (proj1 (proj2 (read_leaves_receiver os_path super_read Hframe
                         st 0%nat None None Hself)) "name").
Defined.

(** ** The [Meta] declarations *)

Lemma renamed_In name wire renames :
  renamed name renames = Some wire -> In (name, wire) renames.
Proof.
  induction renames as [| [field w] renames IH]; cbn; [discriminate |].
  destruct (String.eqb_spec name field) as [-> | _].
  - intros [= ->]. left. reflexivity.
  - intros H. right. exact (IH H).
Qed.

Lemma declared_as_found_spec c :
  declared_as_found c = true ->
  (cls_meta c = None <-> cls_name c = "OperatingSystemParameter")
  /\ forall m, cls_meta c = Some m ->
       (cls_name c <> "OverrideValue" -> exists path, api_path m = DStr path)
       /\ (cls_name c = "OverrideValue" ->
           api_path m = DTuple OverrideValue_paths)
       /\ (server_modes m = DStr "sat"
           \/ server_modes m = DTuple ["sat"; "sam"])
       /\ Forall (fun mode => mode = "sat" \/ mode = "sam")
                 (modes_named (server_modes m)).
Proof.
  unfold declared_as_found.
  destruct (cls_meta c) as [m |].
  - intros H. apply andb_prop in H as [H Hmodes].
    apply andb_prop in H as [Hname Hpath].
    apply negb_true_iff, String.eqb_neq in Hname.
    split; [split; [discriminate | intros E; elim (Hname E)] |].
    intros m' [= <-].
    assert (Hm : server_modes m = DStr "sat"
                 \/ server_modes m = DTuple ["sat"; "sam"]).
    { destruct (server_modes m) as [mode | modes].
      - apply String.eqb_eq in Hmodes as ->. left. reflexivity.
      - apply bool_decide_eq_true in Hmodes as ->. right. reflexivity. }
    repeat split.
    + intros Hov. destruct (api_path m) as [path | paths]; [eauto |].
      apply andb_prop in Hpath as [Hpath _].
      apply String.eqb_eq in Hpath. elim (Hov Hpath).
    + intros Hov. destruct (api_path m) as [path | paths].
      * apply negb_true_iff, String.eqb_neq in Hpath. elim (Hpath Hov).
      * apply andb_prop in Hpath as [_ Hpaths].
        apply bool_decide_eq_true in Hpaths as ->. reflexivity.
    + exact Hm.
    + destruct Hm as [-> | ->]; cbn;
        repeat (apply Forall_cons_2; [auto |]); apply Forall_nil_2.
  - intros H. apply String.eqb_eq in H.
    split; [split; auto |]. discriminate.
Qed.

Lemma renames_as_found_spec c m renames field wire :
  renames_as_found c = true ->
  cls_meta c = Some m ->
  api_names m = Some renames ->
  In (field, wire) renames ->
  field <> wire
  /\ exists f, In f (cls_fields c)
               /\ (field = f \/ field = (f ++ "_ids")%string).
Proof.
  unfold renames_as_found. intros H Hmeta Hnames Hin.
  rewrite Hmeta, Hnames in H.
  rewrite forallb_forall in H. specialize (H _ Hin). cbn [fst snd] in H.
  apply andb_prop in H as [Hne Hex].
  apply negb_true_iff, String.eqb_neq in Hne.
  split; [exact Hne |].
  apply existsb_exists in Hex as (f & Hf & Heq).
  exists f. split; [exact Hf |].
  apply orb_prop in Heq as [Heq | Heq]; apply String.eqb_eq in Heq; auto.
Qed.

(** C7, as amended.  Of the 64 entity classes, every one except
    [OperatingSystemParameter] has an inner [Meta] class that assigns
    [api_path] and [server_modes], with every mode named one of [sat],
    [sam]; [api_path] is a single string except in [OverrideValue], where
    it is a tuple of two paths.  [OperatingSystemParameter] has no [Meta]
    of its own: constructing one assigns [Meta.api_path], the path of its
    operating system followed by [/parameters].  A class with a name that
    goes on the wire under another name declares that rename in
    [api_names]; the renames declared, in seven classes, each take a
    field of the class (in [OperatingSystem], its [_ids] form) to another
    name. *)
Theorem meta_declarations :
  List.length entities = 64%nat
  /\ (forall c, In c entities ->
        (cls_meta c = None <-> cls_name c = "OperatingSystemParameter")
        /\ forall m, cls_meta c = Some m ->
             (cls_name c <> "OverrideValue" ->
              exists path, api_path m = DStr path)
             /\ (cls_name c = "OverrideValue" ->
                 api_path m = DTuple OverrideValue_paths)
             /\ (server_modes m = DStr "sat"
                 \/ server_modes m = DTuple ["sat"; "sam"])
             /\ Forall (fun mode => mode = "sat" \/ mode = "sam")
                       (modes_named (server_modes m)))
  /\ (exists c, In c entities /\ cls_name c = "OperatingSystemParameter")
  /\ (exists c, In c entities /\ cls_name c = "OverrideValue")
  /\ (forall os_path os_id kwargs st a st',
        OperatingSystemParameter_new os_path os_id kwargs st = (Return a, st') ->
        exists p, os_path os_id = Return p
                  /\ Meta_api_path st' = PStr (p ++ "/parameters"))
  /\ (forall c name,
        In c entities -> wire_name c name <> name ->
        exists m renames,
          cls_meta c = Some m
          /\ api_names m = Some renames
          /\ In (name, wire_name c name) renames)
  /\ (forall c m renames field wire,
        In c entities -> cls_meta c = Some m ->
        api_names m = Some renames -> In (field, wire) renames ->
        field <> wire
        /\ exists f, In f (cls_fields c)
                     /\ (field = f \/ field = (f ++ "_ids")%string))
  /\ classes_with_api_names
     = ["ContentViewFilter"; "Host"; "Interface"; "Media"; "OperatingSystem";
        "Subnet"; "Subscription"].
Proof.
  assert (Hfound : forallb declared_as_found entities = true)
    by (vm_compute; reflexivity).
  assert (Hrenames : forallb renames_as_found entities = true)
    by (vm_compute; reflexivity).
  rewrite forallb_forall in Hfound, Hrenames.
  split; [reflexivity |].
  split; [intros c Hc; exact (declared_as_found_spec c (Hfound c Hc)) |].
  split.
  { destruct (find_class "OperatingSystemParameter") as [c |] eqn:E;
      [| vm_compute in E; discriminate E].
    apply find_some in E as [Hin Hname]. apply String.eqb_eq in Hname. eauto. }
  split.
  { destruct (find_class "OverrideValue") as [c |] eqn:E;
      [| vm_compute in E; discriminate E].
    apply find_some in E as [Hin Hname]. apply String.eqb_eq in Hname. eauto. }
  split; [exact new_rewrites_shared_path |].
  split.
  { intros c name _ Hwire. unfold wire_name in *.
    destruct (cls_meta c) as [m |]; [| elim Hwire; reflexivity].
    destruct (api_names m) as [renames |] eqn:Hnames;
      [| elim Hwire; reflexivity].
    exists m, renames. split; [reflexivity | split; [exact Hnames |]].
    destruct (renamed name renames) as [wire |] eqn:E;
      [| elim Hwire; reflexivity].
    cbn. exact (renamed_In _ _ _ E). }
  split; [| vm_compute; reflexivity].
  intros c m renames field wire Hc.
  exact (renames_as_found_spec c m renames field wire (Hrenames c Hc)).
Qed.

(** C7 as stated fails on [OverrideValue], whose [api_path] is a tuple
    of two path strings, and on [OperatingSystemParameter], whose body has
    no [Meta] class. *)
Lemma OverrideValue_declares_two_paths :
  (exists c, find_class "OverrideValue" = Some c
             /\ meta_as_specified c = false
             /\ option_map api_path (cls_meta c)
                = Some (DTuple
                    ["/api/v2/smart_variables/:smart_variable_id/override_values";
                     "/api/v2/smart_class_parameters/:smart_class_parameter_id/override_values"]))
  /\ (exists c, find_class "OperatingSystemParameter" = Some c
                /\ meta_as_specified c = false
                /\ cls_meta c = None).
Proof.
  split; eexists; (split; [vm_compute; reflexivity |]); split; reflexivity.
Qed.

(** ** [ConfigTemplate._factory_data] *)

Lemma py_range_length lo hi :
  List.length (py_range lo hi) = Z.to_nat (hi - lo).
Proof. unfold py_range. by rewrite length_map, length_seq. Qed.

Lemma random_choice_range rnd lo hi :
  lo < hi ->
  exists x, random_choice rnd (py_range lo hi) = Return x /\ lo <= x < hi.
Proof.
  intros Hlt. unfold random_choice. rewrite py_range_length.
  set (i := (rnd mod Z.to_nat (hi - lo))%nat).
  assert (Hi : (i < Z.to_nat (hi - lo))%nat)
    by (apply Nat.mod_upper_bound; lia).
  exists (lo + Z.of_nat i). split; [| lia].
  unfold py_range.
  rewrite nth_error_map, nth_error_seq.
  destruct (Nat.ltb_spec i (Z.to_nat (hi - lo))); [reflexivity | lia].
Qed.

(** C10.  When the values hold [snippet] as [False] and no
    [template_kind_id], [_factory_data] adds a [template_kind_id] that is
    an integer from 1 to [NUM_CREATED_BY_DEFAULT], which is 8. *)
Theorem template_kind_in_range (values : Obj) rnd :
  values !! "snippet" = Some (PBool false) ->
  values !! "template_kind_id" = None ->
  NUM_CREATED_BY_DEFAULT = 8
  /\ exists kind,
       ConfigTemplate_factory_data values rnd
       = Return (<["template_kind_id" := PInt kind]> values)
       /\ 1 <= kind <= NUM_CREATED_BY_DEFAULT.
Proof.
  intros Hsnippet Hkind. split; [reflexivity |].
  unfold ConfigTemplate_factory_data. rewrite Hsnippet. cbn [is_False].
  destruct (random_choice_range rnd 1 (NUM_CREATED_BY_DEFAULT + 1))
    as (kind & -> & Hrange); [unfold NUM_CREATED_BY_DEFAULT; lia |].
  exists kind. unfold setdefault. rewrite Hkind.
  split; [reflexivity | lia].
Qed.

Lemma template_kind_in_range_witness :
  let values : Obj := {[ "snippet" := PBool false; "name" := PStr "t" ]} in
  values !! "snippet" = Some (PBool false)
  /\ values !! "template_kind_id" = None
  /\ exists kind,
       ConfigTemplate_factory_data values 11
       = Return (<["template_kind_id" := PInt kind]> values)
       /\ 1 <= kind <= NUM_CREATED_BY_DEFAULT.
Proof.
  intros values.
  assert (Hsnippet : values !! "snippet" = Some (PBool false))
    by (vm_compute; reflexivity).
  assert (Hkind : values !! "template_kind_id" = None)
    by (vm_compute; reflexivity).
  split; [exact Hsnippet | split; [exact Hkind |]].
  exact (proj2 (template_kind_in_range values 11 Hsnippet Hkind)).
Defined.

(** Values in which [template_kind_id] is present are left as they are,
    and so are values whose [snippet] is not [False]. *)
Lemma template_kind_kept (values : Obj) rnd kind :
  values !! "template_kind_id" = Some kind ->
  ConfigTemplate_factory_data values rnd = Return values.
Proof.
  intros Hkind. unfold ConfigTemplate_factory_data.
  destruct (values !! "snippet") as [snippet |]; [| reflexivity].
  destruct (is_False snippet); [| reflexivity].
  destruct (random_choice_range rnd 1 (NUM_CREATED_BY_DEFAULT + 1))
    as (k & -> & _); [unfold NUM_CREATED_BY_DEFAULT; lia |].
  unfold setdefault. rewrite Hkind. reflexivity.
Qed.

(** * More of the module *)

(** ** More on the asynchronous helpers *)

(** X1.  Each asynchronous helper sends one request at most, with the
    verb and to the place the server expects: the entity's own path
    followed by the helper's sub-path. *)
Theorem async_request_target env h synchronous rq :
  In rq (requests (effects (async_call h synchronous) env)) ->
  requests (effects (async_call h synchronous) env) = [rq]
  /\ exists base,
       entity_path env (snd (fst (fst (async_target env h))))
                   (snd (fst (async_target env h))) (Some "self")
       = Return base
       /\ verb rq = fst (fst (fst (async_target env h)))
       /\ url rq = (base ++ "/" ++ snd (async_target env h))%string.
Proof.
  revert rq.
  destruct h; unfold_methods; to_wp; wp_steps.
  all: cbn; intros rq Hin; try (destruct Hin; fail).
  all: destruct Hin as [<- | []]; split; [reflexivity |].
  all: try match goal with
           | H : String.prefix _ _ = false |- _ =>
               vm_compute in H; discriminate H
           end.
  all: eexists; split; [eassumption | split; reflexivity].
Qed.

Lemma async_request_target_witness :
  let env := sample_env value_identity (fun _ => mkResponse 200 None)
                        (Return PNone) false in
  let h := EnableRhrepo an_entity (PStr "x86_64") (PStr "6Server") (PStr "42") in
  let rq := mkRequest PUT "api/Product/1/repository_sets/42/enable"
              (Some (PDict [("basearch", PStr "x86_64");
                            ("releasever", PStr "6Server")])) None in
  In rq (requests (effects (async_call h (PBool true)) env))
  /\ requests (effects (async_call h (PBool true)) env) = [rq].
Proof.
  intros env h rq.
  assert (Hin : In rq (requests (effects (async_call h (PBool true)) env)))
    by (vm_compute; left; reflexivity).
  split; [exact Hin |].
  exact (proj1 (async_request_target env h (PBool true) rq Hin)).
Defined.

(** X2.  An asynchronous helper polls only after a 202 response and only
    when [synchronous] is the boolean [True] itself: any other value,
    also one that counts as true such as 1, means no polling. *)
Theorem async_polls_only_when_asked env h synchronous :
  is_agrees_with_eq env ACCEPTED ->
  existsb is_polling (effects (async_call h synchronous) env) = true ->
  synchronous = PBool true
  /\ exists response,
       first_response (async_call h synchronous) env = Some response
       /\ status_code response = ACCEPTED.
Proof.
  intros His.
  destruct h; to_shared_tail.
  all: try (cbn; discriminate).
  all: apply (wp_task_id_or_none _ _ _ _ _ His); cbn [fst snd app]; intros;
       try (cbn in *; discriminate).
  all: split; [| eexists; split; [reflexivity | assumption]].
  all: destruct synchronous as [| [|] | | | |]; first [reflexivity | discriminate].
Qed.

Lemma async_polls_only_when_asked_witness :
  let env := sample_env value_identity (fun _ => accepted_with_id (PInt 7))
                        (Return (PDict [])) false in
  is_agrees_with_eq env ACCEPTED
  /\ existsb is_polling (effects (async_call (Sync an_entity) (PBool true)) env)
     = true
  /\ existsb is_polling (effects (async_call (Sync an_entity) (PInt 1)) env)
     = false
  /\ exists response,
       first_response (async_call (Sync an_entity) (PBool true)) env
       = Some response
       /\ status_code response = ACCEPTED.
Proof.
  intros env.
  assert (His : is_agrees_with_eq env ACCEPTED) by (intros a; reflexivity).
  assert (Hpoll : existsb is_polling
                    (effects (async_call (Sync an_entity) (PBool true)) env)
                  = true) by (vm_compute; reflexivity).
  split; [exact His | split; [exact Hpoll | split; [vm_compute; reflexivity |]]].
  exact (proj2 (async_polls_only_when_asked env (Sync an_entity) (PBool true)
                  His Hpoll)).
Defined.

(** What a 202 response without a task id makes the helper raise. *)
Lemma task_id_or_none_without_id env n response synchronous :
  is_agrees_with_eq env ACCEPTED ->
  status_code response = ACCEPTED ->
  task_id_of response = None ->
  task_id_or_none response synchronous env n
  = (Raise (match body response with
            | None => ValueError
            | Some (PDict _) => KeyError "id"
            | Some _ => TypeError
            end), []).
Proof.
  intros His Hacc Hnone.
  assert (Herr : is_http_error (status_code response) = false)
    by (rewrite Hacc; reflexivity).
  assert (Hacc' : int_is env (status_code response) ACCEPTED = true)
    by (rewrite His, Hacc; reflexivity).
  match goal with |- ?m ?env ?n = ?v => change (wp m env n (fun p => p = v)) end.
  unfold task_id_or_none, task_id_of in *.
  destruct (body response) as [[| b | z | s | l | d] |] eqn:Hb;
    wp_steps; try reflexivity; congruence.
Qed.

(** X3.  A 202 response that carries no task id makes the helper raise
    without polling: [ValueError] when the body does not decode,
    [KeyError] when it is a dictionary without [id], [TypeError] when it
    is anything else. *)
Theorem accepted_without_task_id env h synchronous response :
  is_agrees_with_eq env ACCEPTED ->
  first_response (async_call h synchronous) env = Some response ->
  status_code response = ACCEPTED ->
  task_id_of response = None ->
  outcome (async_call h synchronous) env
  = Raise (match body response with
           | None => ValueError
           | Some (PDict _) => KeyError "id"
           | Some _ => TypeError
           end)
  /\ existsb is_polling (effects (async_call h synchronous) env) = false.
Proof.
  intros His. revert response.
  destruct h; to_shared_tail.
  all: try (intros response Hrq; discriminate Hrq).
  all: match goal with
       | |- wp (bind (raise_for_status ?r) _) ?env ?n ?Q =>
           change (wp (task_id_or_none r synchronous) env n Q)
       end.
  all: unfold wp; intros response Hrq Hacc Hnone; injection Hrq as <-.
  all: rewrite (task_id_or_none_without_id _ _ _ _ His Hacc Hnone).
  all: split; reflexivity.
Qed.

Lemma accepted_without_task_id_witness :
  let response := mkResponse ACCEPTED (Some (PDict [("state", PStr "running")])) in
  let env := sample_env value_identity (fun _ => response)
                        (Return (PDict [])) false in
  is_agrees_with_eq env ACCEPTED
  /\ first_response (async_call (Publish an_entity) (PBool true)) env
     = Some response
  /\ status_code response = ACCEPTED
  /\ task_id_of response = None
  /\ outcome (async_call (Publish an_entity) (PBool true)) env
     = Raise (KeyError "id").
Proof.
  intros response env.
  assert (His : is_agrees_with_eq env ACCEPTED) by (intros a; reflexivity).
  assert (Hrq : first_response (async_call (Publish an_entity) (PBool true)) env
                = Some response) by (vm_compute; reflexivity).
  split; [exact His | split; [exact Hrq |]].
  split; [reflexivity | split; [reflexivity |]].
  exact (proj1 (accepted_without_task_id env (Publish an_entity) (PBool true)
                  response His Hrq eq_refl eq_refl)).
Defined.

(** X4.  [upload_manifest] opens the file before anything else: if that
    fails, the exception is raised and nothing is sent.  Once the file is
    open, the request carries it under [content], and carries
    [repository_url] as its only data when one is given, no data
    otherwise. *)
Theorem upload_manifest_sends_the_file env self path repository_url synchronous :
  (forall e,
     open_file env path = Raise e ->
     outcome (Organization_upload_manifest self path repository_url synchronous)
             env = Raise e
     /\ effects (Organization_upload_manifest self path repository_url
                   synchronous) env = [])
  /\ (forall manifest rq,
        open_file env path = Return manifest ->
        In rq (requests (effects (Organization_upload_manifest self path
                                    repository_url synchronous) env)) ->
        files rq = Some (PDict [("content", manifest)])
        /\ data rq = if is_None repository_url then None
                     else Some (PDict [("repository_url", repository_url)])).
Proof.
  split.
  - intros e He. unfold_methods. to_wp. wp_steps. split; reflexivity.
  - intros manifest rq Hopen. revert rq. unfold_methods. to_wp. wp_steps.
    all: cbn; intros rq Hin; try (destruct Hin; fail).
    all: destruct Hin as [<- | []]; split; reflexivity.
Qed.

Lemma upload_manifest_sends_the_file_witness :
  let env := sample_env value_identity (fun _ => mkResponse 200 None)
                        (Return PNone) false in
  let rq := mkRequest POST "api/Organization/1/subscriptions/upload" None
              (Some (PDict [("content", PStr "manifest")])) in
  open_file env "manifest.zip" = Return (PStr "manifest")
  /\ In rq (requests (effects (Organization_upload_manifest an_entity
                                 "manifest.zip" PNone (PBool true)) env))
  /\ files rq = Some (PDict [("content", PStr "manifest")]).
Proof.
  intros env rq.
  assert (Hin : In rq (requests (effects (Organization_upload_manifest an_entity
                                 "manifest.zip" PNone (PBool true)) env)))
    by (vm_compute; left; reflexivity).
  split; [reflexivity | split; [exact Hin |]].
  exact (proj1 (proj2 (upload_manifest_sends_the_file env an_entity
                         "manifest.zip" PNone (PBool true))
                  (PStr "manifest") rq eq_refl Hin)).
Defined.

(** ** The plain helpers *)

(** X5.  On a response that is no 4XX/5XX, [add_subsciptions] and
    [sync_plan] return the decoded body as it is, and [subscriptions],
    [list_rhproducts], [Permission.search] and [list_repositorysets]
    return what the body holds under [results]; a body that does not
    decode raises [ValueError], one without [results] raises [KeyError]. *)
Theorem plain_helper_result env l response :
  first_response (plain_call l) env = Some response ->
  is_http_error (status_code response) = false ->
  outcome (plain_call l) env
  = match body response with
    | None => Raise ValueError
    | Some j =>
        match l with
        | AddSubscriptions _ _ _ | SyncPlan _ _ _ => Return j
        | _ => item j "results"
        end
    end.
Proof.
  revert response.
  destruct l; unfold_methods; to_wp; wp_steps.
  all: cbn; intros response Hrq Herr; try discriminate Hrq.
  all: injection Hrq as <-; try congruence.
  all: repeat match goal with
              | H : body _ = _ |- _ => rewrite H; clear H
              end; cbn; try reflexivity.
  all: match goal with H : assoc _ _ = _ |- _ => rewrite H end; reflexivity.
Qed.

Lemma plain_helper_result_witness :
  let response := mkResponse 200
                    (Some (PDict [("results", PList [PStr "a"; PStr "b"])])) in
  let env := sample_env value_identity (fun _ => response) (Return PNone) false in
  first_response (plain_call (Subscriptions an_entity)) env = Some response
  /\ is_http_error (status_code response) = false
  /\ outcome (plain_call (Subscriptions an_entity)) env
     = Return (PList [PStr "a"; PStr "b"]).
Proof.
  intros response env.
  assert (Hrq : first_response (plain_call (Subscriptions an_entity)) env
                = Some response) by (vm_compute; reflexivity).
  split; [exact Hrq | split; [reflexivity |]].
  exact (plain_helper_result env (Subscriptions an_entity) response Hrq eq_refl).
Defined.

(** X6.  [Permission.search] asks the base path of the permissions with
    [per_page] always among the search terms, and with [name] and
    [resource_type] among them exactly when the instance has them set. *)
Theorem Permission_search_terms env self per_page rq :
  In rq (requests (effects (Permission_search self per_page) env)) ->
  verb rq = GET
  /\ entity_path env "Permission" self (Some "base") = Return (url rq)
  /\ exists terms,
       data rq = Some (PDict terms)
       /\ assoc "per_page" terms = Some per_page
       /\ assoc "name" terms
          = (if is_None (attr self "name") then None
             else Some (attr self "name"))
       /\ assoc "resource_type" terms
          = (if is_None (attr self "resource_type") then None
             else Some (attr self "resource_type")).
Proof.
  revert rq. unfold_methods. to_wp. wp_steps.
  all: cbn; intros rq Hin; try (destruct Hin; fail).
  all: destruct Hin as [<- | []]; cbn.
  all: split; [reflexivity | split; [first [assumption | reflexivity] |]].
  all: eexists; split; [reflexivity |].
  all: destruct (is_None (attr self "name"));
       destruct (is_None (attr self "resource_type")); cbn; auto.
Qed.

Lemma Permission_search_terms_witness :
  let env := sample_env value_identity (fun _ => mkResponse 200 None)
                        (Return PNone) false in
  let self : Obj := {[ "resource_type" := PStr "Architecture" ]} in
  let rq := mkRequest GET "api/Permission"
              (Some (PDict [("per_page", PInt 10000);
                            ("resource_type", PStr "Architecture")])) None in
  In rq (requests (effects (Permission_search self (PInt 10000)) env))
  /\ verb rq = GET.
Proof.
  intros env self rq.
  assert (Hin : In rq (requests (effects (Permission_search self (PInt 10000))
                                   env)))
    by (vm_compute; left; reflexivity).
  split; [exact Hin |].
  exact (proj1 (Permission_search_terms env self (PInt 10000) rq Hin)).
Defined.

(** X7.  When [ActivationKey.read_raw] reads a second time it sends the
    same request again, after one sleep of five seconds, and returns the
    second answer; otherwise it returns the first. *)
Theorem read_raw_second_answer_wins env self response :
  first_response (ActivationKey_read_raw self) env = Some response ->
  exists rq,
    response = respond env 0%nat rq
    /\ if int_is env (status_code response) 404 && bz_bug_is_open env 1127335
       then effects (ActivationKey_read_raw self) env
              = [EvHttp rq; EvSleep 5; EvHttp rq]
            /\ outcome (ActivationKey_read_raw self) env
              = Return (respond env 1%nat rq)
       else effects (ActivationKey_read_raw self) env = [EvHttp rq]
            /\ outcome (ActivationKey_read_raw self) env = Return response.
Proof.
  revert response. unfold_methods; to_wp; wp_steps.
  all: cbn; intros response Hrq; try discriminate Hrq.
  all: injection Hrq as <-.
  all: eexists; split; [reflexivity |];
       match goal with H : (_ && _) = _ |- _ => rewrite H end;
       split; reflexivity.
Qed.

Lemma read_raw_second_answer_wins_witness :
  let answers := fun n : nat => if (n =? 0)%nat then mkResponse 404 None
                                else mkResponse 200 (Some (PDict [])) in
  let env := sample_env value_identity answers (Return PNone) true in
  first_response (ActivationKey_read_raw an_entity) env
    = Some (mkResponse 404 None)
  /\ outcome (ActivationKey_read_raw an_entity) env
     = Return (mkResponse 200 (Some (PDict []))).
Proof.
  intros answers env.
  assert (Hrq : first_response (ActivationKey_read_raw an_entity) env
                = Some (mkResponse 404 None)) by (vm_compute; reflexivity).
  split; [exact Hrq |].
  destruct (read_raw_second_answer_wins env an_entity _ Hrq)
    as (rq & _ & Hrun).
  exact (proj2 Hrun).
Defined.

(** ** [Host._factory_data] and [LifecycleEnvironment.build] *)

Lemma attr_insert_eq (self : Obj) name v : attr (<[name := v]> self) name = v.
Proof. unfold attr. by rewrite lookup_insert_eq. Qed.

Lemma attr_insert_ne (self : Obj) name name' v :
  name <> name' -> attr (<[name := v]> self) name' = attr self name'.
Proof. intros Hne. unfold attr. by rewrite lookup_insert_ne. Qed.

Lemma attr_singleton name v : attr ({[ name := v ]} : Obj) name = v.
Proof. unfold attr. by rewrite lookup_singleton_eq. Qed.

(** Symbolic execution that also reads attributes just written. *)
Ltac wp_steps_attr :=
  repeat (wp_prim;
          cbn [fst snd app http_count requests flat_map length Nat.add which_str];
          rewrite ?attr_insert_eq;
          repeat rewrite attr_insert_ne by done).

(** X8.  [Host._factory_data] creates an architecture, a partition table,
    an operating system and a medium only if all four fields are unset: as
    soon as one of them is set it creates nothing. *)
Theorem Host_creates_only_when_all_unset env self :
  is_None (attr self "operatingsystem") && is_None (attr self "architecture")
  && is_None (attr self "ptable") && is_None (attr self "medium") = false ->
  existsb is_create (effects (Host_factory_data self) env) = false.
Proof.
  intros Hset. unfold_methods. to_wp. wp_steps; reflexivity.
Qed.

Lemma Host_creates_only_when_all_unset_witness :
  let env := sample_env value_identity
               (fun _ => mkResponse 200
                  (Some (PDict [("results", PList [PDict [("id", PInt 5)]])])))
               (Return PNone) false in
  let self : Obj := {[ "medium" := PInt 3 ]} in
  is_None (attr self "operatingsystem") && is_None (attr self "architecture")
  && is_None (attr self "ptable") && is_None (attr self "medium") = false
  /\ existsb is_create (effects (Host_factory_data self) env) = false.
Proof.
  intros env self.
  assert (Hset : is_None (attr self "operatingsystem")
                 && is_None (attr self "architecture")
                 && is_None (attr self "ptable")
                 && is_None (attr self "medium") = false)
    by (vm_compute; reflexivity).
  split; [exact Hset |].
  exact (Host_creates_only_when_all_unset env self Hset).
Defined.

(** X9.  With all four fields unset, [Host._factory_data] creates the
    architecture and the partition table first, then the operating system
    for that architecture and that partition table, then the medium for
    that operating system, and enters the inherited [_factory_data] with
    the four ids on the instance. *)
Theorem Host_creates_dependencies_in_order env self
    a a_id pt pt_id os os_id m m_id :
  is_None (attr self "operatingsystem") && is_None (attr self "architecture")
  && is_None (attr self "ptable") && is_None (attr self "medium") = true ->
  is_None (attr self "puppet_proxy") = false ->
  entity_create env "Architecture" ∅ = Return a -> id_of a = Some a_id ->
  entity_create env "PartitionTable" ∅ = Return pt -> id_of pt = Some pt_id ->
  entity_create env "OperatingSystem"
    (<["ptable" := PList [pt_id]]> {[ "architecture" := PList [a_id] ]})
    = Return os ->
  id_of os = Some os_id ->
  entity_create env "Media" {[ "operatingsystem" := PList [os_id] ]}
    = Return m ->
  id_of m = Some m_id ->
  let filled : Obj :=
    <["medium" := m_id]>
      (<["operatingsystem" := os_id]>
         (<["ptable" := pt_id]> (<["architecture" := a_id]> self))) in
  effects (Host_factory_data self) env
  = [EvCall "create" "Architecture"; EvCall "create" "PartitionTable";
     EvCall "create" "OperatingSystem"; EvCall "create" "Media";
     EvCall "_factory_data" "Host"]
  /\ outcome (Host_factory_data self) env
     = match super_factory_data env "Host" filled with
       | Return values => Return (filled, values)
       | Raise e => Raise e
       end.
Proof.
  intros Hunset Hproxy Ha Haid Hpt Hptid Hos Hosid Hm Hmid filled.
  subst filled.
  destruct a as [| ? | ? | ? | ? | da]; try discriminate Haid.
  destruct pt as [| ? | ? | ? | ? | dpt]; try discriminate Hptid.
  destruct os as [| ? | ? | ? | ? | dos]; try discriminate Hosid.
  destruct m as [| ? | ? | ? | ? | dm]; try discriminate Hmid.
  cbn [id_of] in *.
  unfold_methods. to_wp. wp_steps_attr; split; reflexivity.
Qed.

Lemma Host_creates_dependencies_in_order_witness :
  let env := sample_env value_identity (fun _ => mkResponse 200 None)
                        (Return PNone) false in
  let self : Obj := {[ "puppet_proxy" := PInt 8 ]} in
  let created := PDict [("id", PInt 1)] in
  is_None (attr self "operatingsystem") && is_None (attr self "architecture")
  && is_None (attr self "ptable") && is_None (attr self "medium") = true
  /\ is_None (attr self "puppet_proxy") = false
  /\ effects (Host_factory_data self) env
     = [EvCall "create" "Architecture"; EvCall "create" "PartitionTable";
        EvCall "create" "OperatingSystem"; EvCall "create" "Media";
        EvCall "_factory_data" "Host"].
Proof.
  intros env self created.
  assert (Hunset : is_None (attr self "operatingsystem")
                   && is_None (attr self "architecture")
                   && is_None (attr self "ptable")
                   && is_None (attr self "medium") = true)
    by (vm_compute; reflexivity).
  assert (Hproxy : is_None (attr self "puppet_proxy") = false)
    by (vm_compute; reflexivity).
  split; [exact Hunset | split; [exact Hproxy |]].
  exact (proj1 (Host_creates_dependencies_in_order env self
                  created (PInt 1) created (PInt 1) created (PInt 1)
                  created (PInt 1)
                  Hunset Hproxy eq_refl eq_refl eq_refl eq_refl
                  eq_refl eq_refl eq_refl eq_refl)).
Defined.

(** X10.  [Host._factory_data] asks the server for smart proxies only
    when [puppet_proxy] is unset.  It then takes the first proxy listed,
    however many there are, and raises [IndexError] when none is. *)
Theorem Host_takes_the_first_proxy env self :
  (is_None (attr self "puppet_proxy") = false ->
   requests (effects (Host_factory_data self) env) = [])
  /\ (forall response,
        first_response (Host_factory_data self) env = Some response ->
        is_http_error (status_code response) = false ->
        (results_of response = Some [] ->
         outcome (Host_factory_data self) env = Raise IndexError)
        /\ (forall first others proxy_id,
              results_of response = Some (first :: others) ->
              id_of first = Some proxy_id ->
              exists filled values,
                attr filled "puppet_proxy" = proxy_id
                /\ super_factory_data env "Host" filled = values
                /\ outcome (Host_factory_data self) env
                   = match values with
                     | Return v => Return (filled, v)
                     | Raise e => Raise e
                     end)).
Proof.
  split.
  - intros Hproxy. unfold_methods. to_wp. wp_steps_attr; reflexivity.
  - unfold_methods. to_wp. wp_steps_attr.
    all: cbn; intros response Hrq Herr; try discriminate Hrq.
    all: injection Hrq as <-; try congruence.
    all: split;
      [ intros (dr & Hb & Hd)%results_of_inv
      | intros first others proxy_id (dr & Hb & Hd)%results_of_inv Hid ].
    all: repeat match goal with
                | H : ?x = _, H' : ?x = _ |- _ =>
                    rewrite H in H';
                    first [discriminate H' | injection H' as ?]; subst
                end.
    all: try reflexivity.
    all: try (cbn [id_of] in Hid;
              repeat match goal with
                     | H : ?x = _, H' : ?x = _ |- _ =>
                         rewrite H in H';
                         first [discriminate H' | injection H' as ?]; subst
                     end).
    all: try discriminate.
    all: eexists; eexists; split; [apply attr_insert_eq |];
         split; [eassumption | reflexivity].
Qed.

Lemma Host_takes_the_first_proxy_witness :
  let response := mkResponse 200
    (Some (PDict [("results", PList [PDict [("id", PInt 5)];
                                     PDict [("id", PInt 6)]])])) in
  let env := sample_env value_identity (fun _ => response) (Return PNone) false in
  let self : Obj := {[ "medium" := PInt 3 ]} in
  first_response (Host_factory_data self) env = Some response
  /\ is_http_error (status_code response) = false
  /\ results_of response = Some [PDict [("id", PInt 5)]; PDict [("id", PInt 6)]]
  /\ id_of (PDict [("id", PInt 5)]) = Some (PInt 5)
  /\ exists filled values,
       attr filled "puppet_proxy" = PInt 5
       /\ super_factory_data env "Host" filled = values
       /\ outcome (Host_factory_data self) env
          = match values with
            | Return v => Return (filled, v)
            | Raise e => Raise e
            end.
Proof.
  intros response env self.
  assert (Hrq : first_response (Host_factory_data self) env = Some response)
    by (vm_compute; reflexivity).
  split; [exact Hrq | split; [reflexivity | split; [reflexivity |]]].
  split; [reflexivity |].
  exact (proj2 (proj2 (Host_takes_the_first_proxy env self) response Hrq eq_refl)
           _ _ (PInt 5) eq_refl eq_refl).
Defined.

(** X11.  [LifecycleEnvironment.build] on an instance that has an
    organization and a prior environment sends nothing and creates
    nothing: it only enters the inherited [build], with the instance as it
    is. *)
Theorem build_with_nothing_to_find env self :
  is_None (attr self "organization") = false ->
  is_None (attr self "prior") = false ->
  effects (LifecycleEnvironment_build self) env
    = [EvCall "build" "LifecycleEnvironment"]
  /\ outcome (LifecycleEnvironment_build self) env
     = match super_build env "LifecycleEnvironment" self with
       | Return built => Return (self, built)
       | Raise e => Raise e
       end.
Proof.
  intros Horg Hprior. unfold_methods. to_wp. wp_steps; split; reflexivity.
Qed.

Lemma build_with_nothing_to_find_witness :
  let env := sample_env value_identity (fun _ => mkResponse 500 None)
                        (Return PNone) false in
  let self : Obj := {[ "organization" := PInt 1; "prior" := PInt 2 ]} in
  is_None (attr self "organization") = false
  /\ is_None (attr self "prior") = false
  /\ effects (LifecycleEnvironment_build self) env
     = [EvCall "build" "LifecycleEnvironment"].
Proof.
  intros env self.
  assert (Horg : is_None (attr self "organization") = false)
    by (vm_compute; reflexivity).
  assert (Hprior : is_None (attr self "prior") = false)
    by (vm_compute; reflexivity).
  split; [exact Horg | split; [exact Hprior |]].
  exact (proj1 (build_with_nothing_to_find env self Horg Hprior)).
Defined.

(** X12.  [LifecycleEnvironment.build] on an instance without an
    organization creates one first and looks the "Library" environment up
    in that new organization: the lookup request carries the id of the
    organization just created. *)
Theorem build_looks_up_in_the_new_organization env self org org_id p :
  is_None (attr self "organization") = true ->
  is_None (attr self "prior") = true ->
  entity_create env "Organization" ∅ = Return org ->
  id_of org = Some org_id ->
  entity_path env "LifecycleEnvironment" (<["organization" := org_id]> self) None
    = Return p ->
  exists rest,
    effects (LifecycleEnvironment_build self) env
    = EvCall "create" "Organization"
      :: EvHttp (mkRequest GET p
                   (Some (PDict [("name", PStr "Library");
                                 ("organization_id", org_id)]))
                   None)
      :: rest.
Proof.
  intros Horg Hprior Hcreate Hid Hpath.
  destruct org as [| ? | ? | ? | ? | dorg]; try discriminate Hid.
  cbn [id_of] in Hid.
  unfold_methods. to_wp. wp_steps_attr; eexists; reflexivity.
Qed.

Lemma build_looks_up_in_the_new_organization_witness :
  let env := sample_env value_identity
               (fun _ => mkResponse 200
                  (Some (PDict [("results", PList [PDict [("id", PInt 9)]])])))
               (Return PNone) false in
  let self : Obj := {[ "name" := PStr "dev" ]} in
  is_None (attr self "organization") = true
  /\ is_None (attr self "prior") = true
  /\ exists rest,
       effects (LifecycleEnvironment_build self) env
       = EvCall "create" "Organization"
         :: EvHttp (mkRequest GET "api/LifecycleEnvironment/1"
                      (Some (PDict [("name", PStr "Library");
                                    ("organization_id", PInt 1)]))
                      None)
         :: rest.
Proof.
  intros env self.
  assert (Horg : is_None (attr self "organization") = true)
    by (vm_compute; reflexivity).
  assert (Hprior : is_None (attr self "prior") = true)
    by (vm_compute; reflexivity).
  split; [exact Horg | split; [exact Hprior |]].
  exact (build_looks_up_in_the_new_organization env self
           (PDict [("id", PInt 1)]) (PInt 1) "api/LifecycleEnvironment/1"
           Horg Hprior eq_refl eq_refl eq_refl).
Defined.

(** ** The [read] overrides *)

Lemma mapM_ids oses : forall ids,
  Forall2 (fun os i => id_of os = Some i) oses ids ->
  mapM (fun os => item os "id") oses = Return ids.
Proof.
  induction oses as [| os oses IH]; intros ids Hids; inversion Hids; subst;
    [reflexivity |].
  cbn [mapM]. unfold item at 1.
  destruct os as [| b | z | s | l | d]; try discriminate.
  cbn [id_of] in *.
  match goal with H : assoc "id" d = Some _ |- _ => rewrite H end.
  cbn [rbind]. rewrite (IH _ ltac:(eassumption)). reflexivity.
Qed.

Lemma mapM_no_id oses :
  Exists (fun os => id_of os = None) oses ->
  exists e, mapM (fun os => item os "id") oses = Raise e
            /\ (e = KeyError "id" \/ e = TypeError).
Proof.
  induction 1 as [os oses Hos | os oses Hex IH].
  - cbn [mapM]. unfold item at 1.
    destruct os as [| b | z | s | l | d]; cbn [rbind]; eauto.
    cbn [id_of] in Hos. rewrite Hos. cbn [rbind]. eauto.
  - destruct IH as (e & He & Hkind). cbn [mapM].
    destruct (item os "id") as [i | e'] eqn:Hi; cbn [rbind].
    + rewrite He. cbn [rbind]. eauto.
    + exists e'. split; [reflexivity |].
      unfold item in Hi. destruct os as [| b | z | s | l | d];
        try (injection Hi as <-; auto; fail).
      destruct (assoc "id" d); [discriminate | injection Hi as <-; auto].
Qed.

(** X13.  [Architecture.read] and [Media.read] hand the inherited [read]
    the attributes with the list under [operatingsystems] replaced by the
    list of its [id]s, in order, under [operatingsystem_ids]; every other
    attribute is passed on as it is. *)
Theorem read_replaces_operatingsystems (A E : Type) read_json
    (super_read : E -> Obj -> result A) entity (attrs : Obj) oses ids :
  attrs !! "operatingsystems" = Some (PList oses) ->
  Forall2 (fun os i => id_of os = Some i) oses ids ->
  exists attrs' : Obj,
    Architecture_read A E read_json super_read entity (Some attrs)
      = super_read entity attrs'
    /\ Media_read A E read_json super_read entity (Some attrs)
      = super_read entity attrs'
    /\ attrs' !! "operatingsystem_ids" = Some (PList ids)
    /\ attrs' !! "operatingsystems" = None
    /\ List.length ids = List.length oses
    /\ forall key, key <> "operatingsystem_ids" -> key <> "operatingsystems" ->
         attrs' !! key = attrs !! key.
Proof.
  intros Hos Hids.
  exists (<["operatingsystem_ids" := PList ids]> (delete "operatingsystems" attrs)).
  unfold Architecture_read, Media_read. cbn [rbind]. rewrite Hos.
  cbn [py_iter rbind]. rewrite (mapM_ids _ _ Hids). cbn [rbind].
  split; [reflexivity | split; [reflexivity |]].
  split; [apply lookup_insert_eq |].
  split; [rewrite lookup_insert_ne by done; apply lookup_delete_eq |].
  split; [symmetry; eapply Forall2_length; eassumption |].
  intros key Hk1 Hk2.
  rewrite lookup_insert_ne by done. apply lookup_delete_ne. done.
Qed.

Lemma read_replaces_operatingsystems_witness :
  let attrs : Obj :=
    {[ "name" := PStr "i386";
       "operatingsystems" :=
         PList [PDict [("id", PInt 1); ("name", PStr "rhel65")];
                PDict [("id", PInt 2); ("name", PStr "rhel7")]] ]} in
  let oses := [PDict [("id", PInt 1); ("name", PStr "rhel65")];
               PDict [("id", PInt 2); ("name", PStr "rhel7")]] in
  attrs !! "operatingsystems" = Some (PList oses)
  /\ Forall2 (fun os i => id_of os = Some i) oses [PInt 1; PInt 2]
  /\ exists attrs' : Obj,
       Architecture_read Obj unit (Raise ValueError) (fun _ a => Return a)
         tt (Some attrs) = Return attrs'
       /\ attrs' !! "operatingsystem_ids" = Some (PList [PInt 1; PInt 2])
       /\ attrs' !! "name" = Some (PStr "i386").
Proof.
  intros attrs oses.
  assert (Hos : attrs !! "operatingsystems" = Some (PList oses))
    by (vm_compute; reflexivity).
  assert (Hids : Forall2 (fun os i => id_of os = Some i) oses [PInt 1; PInt 2])
    by (repeat constructor).
  split; [exact Hos | split; [exact Hids |]].
  destruct (read_replaces_operatingsystems Obj unit (Raise ValueError)
              (fun _ a => Return a) tt attrs oses _ Hos Hids)
    as (attrs' & Harch & _ & Hnew & _ & _ & Hframe).
  exists attrs'. split; [exact Harch | split; [exact Hnew |]].
  rewrite (Hframe "name") by done. vm_compute. reflexivity.
Defined.

(** X14.  Without the key [operatingsystems] both methods raise
    [KeyError]; with an element that has no [id] they raise [KeyError] or
    [TypeError]; an exception of [read_json] is passed on.  In each case
    the inherited [read] is not reached. *)
Theorem read_without_operatingsystems (A E : Type) read_json
    (super_read : E -> Obj -> result A) entity :
  (forall attrs : Obj,
     attrs !! "operatingsystems" = None ->
     Architecture_read A E read_json super_read entity (Some attrs)
       = Raise (KeyError "operatingsystems")
     /\ Media_read A E read_json super_read entity (Some attrs)
       = Raise (KeyError "operatingsystems"))
  /\ (forall (attrs : Obj) oses,
        attrs !! "operatingsystems" = Some (PList oses) ->
        Exists (fun os => id_of os = None) oses ->
        exists e,
          (e = KeyError "id" \/ e = TypeError)
          /\ Architecture_read A E read_json super_read entity (Some attrs)
             = Raise e
          /\ Media_read A E read_json super_read entity (Some attrs)
             = Raise e)
  /\ (forall e,
        read_json = Raise e ->
        Architecture_read A E read_json super_read entity None = Raise e
        /\ Media_read A E read_json super_read entity None = Raise e).
Proof.
  split; [| split].
  - intros attrs Hnone. unfold Architecture_read, Media_read. cbn [rbind].
    rewrite Hnone. split; reflexivity.
  - intros attrs oses Hos Hex.
    destruct (mapM_no_id oses Hex) as (e & He & Hkind).
    exists e. split; [exact Hkind |].
    unfold Architecture_read, Media_read. cbn [rbind]. rewrite Hos.
    cbn [py_iter rbind]. rewrite He. split; reflexivity.
  - intros e ->. split; reflexivity.
Qed.

Lemma read_without_operatingsystems_witness :
  let attrs : Obj := {[ "name" := PStr "i386" ]} in
  attrs !! "operatingsystems" = None
  /\ Architecture_read Obj unit (Raise ValueError) (fun _ a => Return a)
       tt (Some attrs) = Raise (KeyError "operatingsystems").
Proof.
  intros attrs.
  assert (Hnone : attrs !! "operatingsystems" = None) by (vm_compute; reflexivity).
  split; [exact Hnone |].
  exact (proj1 (proj1 (read_without_operatingsystems Obj unit (Raise ValueError)
                         (fun _ a => Return a) tt) attrs Hnone)).
Defined.

(** X15.  [Repository.read] replaces the attribute [product], a
    dictionary, by its [id] under [product_id] and passes every other
    attribute on; without [product] it raises [KeyError], and with a
    product that has no [id] it raises without reaching the inherited
    [read]. *)
Theorem read_replaces_product (A E : Type) read_json
    (super_read : E -> Obj -> result A) entity (attrs : Obj) :
  (forall product i,
     attrs !! "product" = Some product -> id_of product = Some i ->
     exists attrs' : Obj,
       Repository_read A E read_json super_read entity (Some attrs)
         = super_read entity attrs'
       /\ attrs' !! "product_id" = Some i
       /\ attrs' !! "product" = None
       /\ forall key, key <> "product_id" -> key <> "product" ->
            attrs' !! key = attrs !! key)
  /\ (attrs !! "product" = None ->
      Repository_read A E read_json super_read entity (Some attrs)
        = Raise (KeyError "product"))
  /\ (forall product,
        attrs !! "product" = Some product -> id_of product = None ->
        exists e,
          Repository_read A E read_json super_read entity (Some attrs)
            = Raise e).
Proof.
  unfold Repository_read. cbn [rbind]. split; [| split].
  - intros product i Hp Hi. rewrite Hp.
    exists (<["product_id" := i]> (delete "product" attrs)).
    assert (Hitem : item product "id" = Return i).
    { destruct product; try discriminate. cbn in *. by rewrite Hi. }
    rewrite Hitem. cbn [rbind].
    split; [reflexivity |].
    split; [apply lookup_insert_eq |].
    split; [rewrite lookup_insert_ne by done; apply lookup_delete_eq |].
    intros key Hk1 Hk2.
    rewrite lookup_insert_ne by done. apply lookup_delete_ne. done.
  - intros ->. reflexivity.
  - intros product Hp Hi. rewrite Hp.
    destruct product as [| b | z | s | l | d]; cbn; eauto.
    cbn in Hi. rewrite Hi. cbn. eauto.
Qed.

Lemma read_replaces_product_witness :
  let attrs : Obj :=
    {[ "name" := PStr "zoo";
       "product" := PDict [("id", PInt 7); ("name", PStr "p")] ]} in
  attrs !! "product" = Some (PDict [("id", PInt 7); ("name", PStr "p")])
  /\ id_of (PDict [("id", PInt 7); ("name", PStr "p")]) = Some (PInt 7)
  /\ exists attrs' : Obj,
       Repository_read Obj unit (Raise ValueError) (fun _ a => Return a)
         tt (Some attrs) = Return attrs'
       /\ attrs' !! "product_id" = Some (PInt 7).
Proof.
  intros attrs.
  assert (Hp : attrs !! "product"
               = Some (PDict [("id", PInt 7); ("name", PStr "p")]))
    by (vm_compute; reflexivity).
  split; [exact Hp | split; [reflexivity |]].
  destruct (proj1 (read_replaces_product Obj unit (Raise ValueError)
                     (fun _ a => Return a) tt attrs) _ (PInt 7) Hp eq_refl)
    as (attrs' & Hread & Hid & _).
  exists attrs'. split; [exact Hread | exact Hid].
Defined.

(** ** The [_factory_data] overrides *)

Section FillUnset.

Variable get_value : string -> pyval.

Lemma fill_unset_cons f fields (values : Obj) :
  fill_unset get_value (f :: fields) values
  = fill_unset get_value fields
      (if unset values f then <[f := get_value f]> values else values).
Proof. reflexivity. Qed.

Lemma fill_unset_other fields : forall (values : Obj) key,
  ~ In key fields ->
  fill_unset get_value fields values !! key = values !! key.
Proof.
  induction fields as [| f fields IH]; intros values key Hkey; [reflexivity |].
  rewrite fill_unset_cons.
  rewrite IH by (intros Hin; apply Hkey; right; exact Hin).
  destruct (unset values f); [| reflexivity].
  apply lookup_insert_ne. intros ->. apply Hkey. left. reflexivity.
Qed.

Lemma fill_unset_set fields : forall (values : Obj) key v,
  values !! key = Some v -> is_None v = false ->
  fill_unset get_value fields values !! key = Some v.
Proof.
  induction fields as [| f fields IH]; intros values key v Hv Hset;
    [exact Hv |].
  rewrite fill_unset_cons.
  apply IH; [| exact Hset].
  destruct (unset values f) eqn:Hf; [| exact Hv].
  rewrite lookup_insert_ne; [exact Hv |].
  intros ->. unfold unset, attr in Hf. rewrite Hv in Hf. cbn in Hf. congruence.
Qed.

Lemma fill_unset_present fields : forall (values : Obj) key,
  is_Some (values !! key) ->
  is_Some (fill_unset get_value fields values !! key).
Proof.
  induction fields as [| f fields IH]; intros values key Hv; [exact Hv |].
  rewrite fill_unset_cons.
  apply IH. destruct (unset values f); [| exact Hv].
  destruct (decide (f = key)) as [-> | Hne].
  - rewrite lookup_insert_eq. eauto.
  - rewrite lookup_insert_ne by done. exact Hv.
Qed.

Lemma fill_unset_filled fields : forall (values : Obj) key,
  In key fields ->
  attr (fill_unset get_value fields values) key
  = if unset values key then get_value key else attr values key.
Proof.
  induction fields as [| f fields IH]; intros values key Hin; [destruct Hin |].
  rewrite fill_unset_cons.
  destruct (decide (f = key)) as [-> | Hne].
  - destruct (in_dec String.string_dec key fields) as [Hlater | Hlast].
    + rewrite (IH _ key Hlater).
      destruct (unset values key) eqn:Hu; [| rewrite Hu; reflexivity].
      unfold unset, attr. rewrite lookup_insert_eq. cbn.
      destruct (is_None (get_value key)); reflexivity.
    + unfold attr at 1. rewrite (fill_unset_other _ _ _ Hlast).
      destruct (unset values key); [| reflexivity].
      by rewrite lookup_insert_eq.
  - destruct Hin as [-> | Hin]; [done |].
    rewrite (IH _ key Hin).
    destruct (unset values f); [| reflexivity].
    unfold unset, attr. by rewrite lookup_insert_ne.
Qed.

End FillUnset.

(** X16.  [ComputeResource._factory_data] never replaces a value that is
    set, never removes a key, and leaves every key other than [name],
    [password], [user] and [uuid] as it is. *)
Theorem ComputeResource_keeps_what_is_set get_value (values values' : Obj) :
  ComputeResource_factory_data get_value values = Return values' ->
  (forall key v, values !! key = Some v -> is_None v = false ->
                 values' !! key = Some v)
  /\ (forall key, ~ In key ["name"; "password"; "user"; "uuid"] ->
                  values' !! key = values !! key)
  /\ (forall key, is_Some (values !! key) -> is_Some (values' !! key)).
Proof.
  unfold ComputeResource_factory_data.
  destruct (values !! "provider") as [provider |]; [| discriminate].
  assert (Hone : forall (vs : Obj),
    vs = (if unset values "name"
          then <["name" := get_value "name"]> values else values) ->
    vs = fill_unset get_value ["name"] values) by (intros vs ->; reflexivity).
  intros Hrun.
  assert (Hfill : exists fields,
            values' = fill_unset get_value fields values
            /\ incl fields ["name"; "password"; "user"; "uuid"]).
  { repeat match type of Hrun with
           | (if ?b then _ else _) = _ => destruct b
           end; injection Hrun as <-.
    - exists ["name"; "password"; "user"]. split; [reflexivity |].
      intros x Hx. cbn in *. tauto.
    - exists ["name"]. split; [reflexivity |]. intros x Hx. cbn in *. tauto.
    - exists ["name"]. split; [reflexivity |]. intros x Hx. cbn in *. tauto.
    - exists []. split; [reflexivity |]. intros x [].
    - exists ["name"; "password"; "user"; "uuid"]. split; [reflexivity |].
      intros x Hx. exact Hx.
    - exists []. split; [reflexivity |]. intros x []. }
  destruct Hfill as (fields & -> & Hincl).
  split; [| split].
  - intros key v Hv Hset. apply fill_unset_set; assumption.
  - intros key Hkey. apply fill_unset_other. intros Hin. apply Hkey, Hincl, Hin.
  - intros key Hv. apply fill_unset_present, Hv.
Qed.

Lemma ComputeResource_keeps_what_is_set_witness :
  let get_value := fun field : string => PStr ("generated " ++ field) in
  let values : Obj :=
    {[ "provider" := PStr "EC2"; "name" := PStr "mine"; "url" := PStr "u" ]} in
  (exists values',
     ComputeResource_factory_data get_value values = Return values'
     /\ values' !! "name" = Some (PStr "mine")
     /\ values' !! "password" = Some (PStr "generated password")).
Proof.
  intros get_value values.
  assert (Hrun : ComputeResource_factory_data get_value values
                 = Return (fill_unset get_value ["name"; "password"; "user"] values))
    by reflexivity.
  exists (fill_unset get_value ["name"; "password"; "user"] values).
  split; [exact Hrun |].
  split.
  - apply (proj1 (ComputeResource_keeps_what_is_set get_value values _ Hrun)
             "name" (PStr "mine")); [vm_compute; reflexivity | reflexivity].
  - vm_compute. reflexivity.
Defined.

(** X17.  [ComputeResource._factory_data] needs the key [provider] and
    raises [KeyError] without it.  For EC2, Ovirt and Openstack it
    generates [name], [password] and [user] where they are unset; for
    Vmware also [uuid]; for GCE and Libvirt only [name]; for Rackspace and
    any other provider the values come back as they are. *)
Theorem ComputeResource_fills_by_provider get_value (values : Obj) :
  (values !! "provider" = None ->
   ComputeResource_factory_data get_value values = Raise (KeyError "provider"))
  /\ (forall provider,
        values !! "provider" = Some (PStr provider) ->
        exists values',
          ComputeResource_factory_data get_value values = Return values'
          /\ (forall fields field,
                (In provider ["EC2"; "Ovirt"; "Openstack"]
                 /\ fields = ["name"; "password"; "user"])
                \/ (In provider ["GCE"; "Libvirt"] /\ fields = ["name"])
                \/ (provider = "Vmware"
                    /\ fields = ["name"; "password"; "user"; "uuid"]) ->
                (In field fields ->
                 attr values' field
                 = if unset values field then get_value field
                   else attr values field)
                /\ (~ In field fields -> values' !! field = values !! field))
          /\ (~ In provider ["EC2"; "Ovirt"; "Openstack"; "GCE"; "Libvirt";
                             "Vmware"] ->
              values' = values)).
Proof.
  unfold ComputeResource_factory_data. split.
  - intros ->. reflexivity.
  - intros provider ->. cbn [eq_str].
    assert (Hone : (if unset values "name"
                    then <["name" := get_value "name"]> values else values)
                   = fill_unset get_value ["name"] values) by reflexivity.
    rewrite Hone. clear Hone.
    assert (Hcases : forall fields field,
      (In field fields ->
       attr (fill_unset get_value fields values) field
       = if unset values field then get_value field else attr values field)
      /\ (~ In field fields ->
          fill_unset get_value fields values !! field = values !! field))
      by (intros fields field;
          split; [apply fill_unset_filled | apply fill_unset_other]).
    destruct (String.eqb_spec provider "EC2") as [-> | nEC2];
      [| destruct (String.eqb_spec provider "Ovirt") as [-> | nOvirt];
         [| destruct (String.eqb_spec provider "Openstack") as [-> | nOpenstack];
            [| destruct (String.eqb_spec provider "GCE") as [-> | nGCE];
               [| destruct (String.eqb_spec provider "Libvirt") as [-> | nLibvirt];
                  [| destruct (String.eqb_spec provider "Rackspace") as [-> | nRack];
                     [| destruct (String.eqb_spec provider "Vmware")
                          as [-> | nVmware]]]]]]];
      cbn [orb]; eexists; (split; [reflexivity |]); split.
    all: try (intros Hother; try reflexivity;
              exfalso; apply Hother; cbn; tauto).
    all: intros fields field Hcase.
    all: destruct Hcase as [[Hp ->] | [[Hp ->] | [Hp ->]]]; cbn in Hp;
      try (repeat match goal with H : _ \/ _ |- _ => destruct H end;
           first [congruence | done]).
    all: apply Hcases.
Qed.

Lemma ComputeResource_fills_by_provider_witness :
  let get_value := fun field : string => PStr ("generated " ++ field) in
  let values : Obj := {[ "provider" := PStr "Vmware"; "user" := PStr "root" ]} in
  values !! "provider" = Some (PStr "Vmware")
  /\ exists values',
       ComputeResource_factory_data get_value values = Return values'
       /\ attr values' "uuid" = PStr "generated uuid"
       /\ attr values' "user" = PStr "root".
Proof.
  intros get_value values.
  assert (Hp : values !! "provider" = Some (PStr "Vmware"))
    by (vm_compute; reflexivity).
  split; [exact Hp |].
  destruct (proj2 (ComputeResource_fills_by_provider get_value values) _ Hp)
    as (values' & Hrun & Hfill & _).
  exists values'. split; [exact Hrun |].
  pose proof (fun field =>
    proj1 (Hfill ["name"; "password"; "user"; "uuid"] field
             (or_intror (or_intror (conj eq_refl eq_refl))))) as Hfield.
  split.
  - rewrite (Hfield "uuid") by (cbn; tauto). vm_compute. reflexivity.
  - rewrite (Hfield "user") by (cbn; tauto). vm_compute. reflexivity.
Defined.

(** X18.  [AuthSourceLDAP._factory_data] looks the flag up under
    [ontheflyregister].  Values without [onthefly_register] come back as
    they are; values with [onthefly_register] but without
    [ontheflyregister] make it raise [KeyError]; and the five account
    fields are generated only when [ontheflyregister] is present and
    [True]. *)
Theorem AuthSourceLDAP_flag_is_read_under_another_key get_value (values : Obj) :
  (values !! "onthefly_register" = None ->
   AuthSourceLDAP_factory_data get_value values = Return values)
  /\ (is_Some (values !! "onthefly_register") ->
      values !! "ontheflyregister" = None ->
      AuthSourceLDAP_factory_data get_value values
      = Raise (KeyError "ontheflyregister"))
  /\ (forall values',
        AuthSourceLDAP_factory_data get_value values = Return values' ->
        values' = values
        \/ (values !! "ontheflyregister" = Some (PBool true)
            /\ forall field,
                 In field ["account_password"; "attr_firstname";
                           "attr_lastname"; "attr_login"; "attr_mail"] ->
                 values' !! field = Some (get_value field))).
Proof.
  unfold AuthSourceLDAP_factory_data. split; [| split].
  - intros ->. reflexivity.
  - intros [v ->] ->. reflexivity.
  - intros values' Hrun.
    destruct (values !! "onthefly_register"); [| injection Hrun as <-; auto].
    destruct (values !! "ontheflyregister") as [flag |]; [| discriminate].
    destruct flag as [| [|] | | | |]; cbn [is_True] in Hrun;
      injection Hrun as <-; auto.
    right. split; [reflexivity |].
    intros field Hfield. cbn in Hfield.
    destruct Hfield as [<- | [<- | [<- | [<- | [<- | []]]]]];
      repeat first [ apply lookup_insert_eq
                   | rewrite lookup_insert_ne by done ].
Qed.

Lemma AuthSourceLDAP_flag_is_read_under_another_key_witness :
  let get_value := fun field : string => PStr ("generated " ++ field) in
  let values : Obj :=
    {[ "onthefly_register" := PBool true; "name" := PStr "ldap" ]} in
  is_Some (values !! "onthefly_register")
  /\ values !! "ontheflyregister" = None
  /\ AuthSourceLDAP_factory_data get_value values
     = Raise (KeyError "ontheflyregister").
Proof.
  intros get_value values.
  assert (Hset : is_Some (values !! "onthefly_register"))
    by (vm_compute; eauto).
  assert (Hnone : values !! "ontheflyregister" = None)
    by (vm_compute; reflexivity).
  split; [exact Hset | split; [exact Hnone |]].
  exact (proj1 (proj2 (AuthSourceLDAP_flag_is_read_under_another_key
                         get_value values)) Hset Hnone).
Defined.

(** X19.  [LifecycleEnvironment._factory_data] moves the value of
    [prior_id] to [prior], replacing a [prior] there may be, and keeps
    every other key; without [prior_id] it raises [KeyError]. *)
Theorem LifecycleEnvironment_prior_id_becomes_prior (lc_attrs : Obj) :
  (lc_attrs !! "prior_id" = None ->
   LifecycleEnvironment_factory_data lc_attrs = Raise (KeyError "prior_id"))
  /\ (forall prior,
        lc_attrs !! "prior_id" = Some prior ->
        exists lc_attrs' : Obj,
          LifecycleEnvironment_factory_data lc_attrs = Return lc_attrs'
          /\ lc_attrs' !! "prior" = Some prior
          /\ lc_attrs' !! "prior_id" = None
          /\ forall key, key <> "prior" -> key <> "prior_id" ->
               lc_attrs' !! key = lc_attrs !! key).
Proof.
  unfold LifecycleEnvironment_factory_data. split.
  - intros ->. reflexivity.
  - intros prior ->. eexists. split; [reflexivity |].
    split; [apply lookup_insert_eq |].
    split; [rewrite lookup_insert_ne by done; apply lookup_delete_eq |].
    intros key Hk1 Hk2.
    rewrite lookup_insert_ne by done. apply lookup_delete_ne. done.
Qed.

Lemma LifecycleEnvironment_prior_id_becomes_prior_witness :
  let lc_attrs : Obj := {[ "name" := PStr "dev"; "prior_id" := PInt 1 ]} in
  lc_attrs !! "prior_id" = Some (PInt 1)
  /\ exists lc_attrs' : Obj,
       LifecycleEnvironment_factory_data lc_attrs = Return lc_attrs'
       /\ lc_attrs' !! "prior" = Some (PInt 1)
       /\ lc_attrs' !! "prior_id" = None.
Proof.
  intros lc_attrs.
  assert (Hp : lc_attrs !! "prior_id" = Some (PInt 1))
    by (vm_compute; reflexivity).
  split; [exact Hp |].
  destruct (proj2 (LifecycleEnvironment_prior_id_becomes_prior lc_attrs) _ Hp)
    as (lc_attrs' & Hrun & Hprior & Hgone & _).
  exists lc_attrs'. auto.
Defined.

(** X20.  [ConfigTemplate._factory_data] never raises; it changes no key
    other than [template_kind_id], and a [template_kind_id] that is there
    is kept: whenever the values change, [snippet] is [False] and the kind
    added is an integer from 1 to 8. *)
Theorem ConfigTemplate_factory_data_frame (values : Obj) rnd :
  exists values' : Obj,
    ConfigTemplate_factory_data values rnd = Return values'
    /\ (forall key, key <> "template_kind_id" ->
                    values' !! key = values !! key)
    /\ (forall kind, values !! "template_kind_id" = Some kind ->
                     values' = values)
    /\ (values' <> values ->
        values !! "snippet" = Some (PBool false)
        /\ exists kind, values' !! "template_kind_id" = Some (PInt kind)
                        /\ 1 <= kind <= 8).
Proof.
  unfold ConfigTemplate_factory_data.
  destruct (values !! "snippet") as [snippet |] eqn:Hs;
    [| exists values; repeat split; congruence].
  destruct (is_False snippet) eqn:Hf;
    [| exists values; repeat split; congruence].
  destruct (random_choice_range rnd 1 (NUM_CREATED_BY_DEFAULT + 1))
    as (kind & -> & Hrange); [unfold NUM_CREATED_BY_DEFAULT; lia |].
  unfold NUM_CREATED_BY_DEFAULT in Hrange.
  unfold setdefault.
  destruct (values !! "template_kind_id") as [old |] eqn:Hold.
  - exists values. repeat split; congruence.
  - exists (<["template_kind_id" := PInt kind]> values).
    split; [reflexivity |].
    split; [intros key Hkey; by rewrite lookup_insert_ne |].
    split; [discriminate |].
    intros _. split.
    + destruct snippet as [| [|] | | | |]; try discriminate Hf. reflexivity.
    + exists kind. split; [apply lookup_insert_eq | lia].
Qed.

(** X21.  [Domain._factory_data] and [Media._factory_data] keep a [name]
    (a [media_path]) that is set and generate one only when it is unset;
    the generated value is stored on the instance, so that a second call
    does not generate another. *)
Theorem generated_once (A : Type) (super_factory_data_of : Obj -> result A)
    generated again (self : Obj) :
  let domain := fst (Domain_factory_data A super_factory_data_of generated self) in
  let media := fst (Media_factory_data A super_factory_data_of generated self) in
  (is_None (attr self "name") = false -> domain = self)
  /\ (is_None (attr self "name") = true ->
      attr domain "name" = PStr generated)
  /\ fst (Domain_factory_data A super_factory_data_of again domain) = domain
  /\ snd (Domain_factory_data A super_factory_data_of generated self)
     = super_factory_data_of domain
  /\ (is_None (attr self "media_path") = false -> media = self)
  /\ (is_None (attr self "media_path") = true ->
      attr media "media_path" = PStr generated)
  /\ fst (Media_factory_data A super_factory_data_of again media) = media
  /\ snd (Media_factory_data A super_factory_data_of generated self)
     = super_factory_data_of media.
Proof.
  unfold Domain_factory_data, Media_factory_data. cbn [fst snd].
  repeat split.
  - intros ->. reflexivity.
  - intros ->. unfold attr. by rewrite lookup_insert_eq.
  - destruct (is_None (attr self "name")) eqn:Hn.
    + unfold attr at 1. rewrite lookup_insert_eq. reflexivity.
    + rewrite Hn. reflexivity.
  - intros ->. reflexivity.
  - intros ->. unfold attr. by rewrite lookup_insert_eq.
  - destruct (is_None (attr self "media_path")) eqn:Hn.
    + unfold attr at 1. rewrite lookup_insert_eq. reflexivity.
    + rewrite Hn. reflexivity.
Qed.

Lemma generated_once_witness :
  let self : Obj := {[ "fullname" := PStr "example" ]} in
  is_None (attr self "name") = true
  /\ attr (fst (Domain_factory_data unit (fun _ => Return tt) "abc123" self))
          "name" = PStr "abc123".
Proof.
  intros self. split; [reflexivity |].
  exact (proj1 (proj2 (generated_once unit (fun _ => Return tt)
                         "abc123" "zzz" self)) eq_refl).
Defined.

(** ** [OperatingSystemParameter.__init__] and the shared [Meta] *)

Lemma fold_setattr_heap_is_Some a kwargs : forall st,
  is_Some (heap st !! a) ->
  is_Some (heap (fold_left (fun st kv => setattr st a (fst kv) (snd kv))
                           kwargs st) !! a).
Proof.
  induction kwargs as [| kv kwargs IH]; intros st Hst; cbn; [exact Hst |].
  apply IH. unfold setattr. cbn. rewrite lookup_insert_eq. by eexists.
Qed.

Lemma fold_setattr_keeps a name kwargs : forall st,
  existsb (String.eqb name) (map fst kwargs) = false ->
  getattr (fold_left (fun st kv => setattr st a (fst kv) (snd kv)) kwargs st)
          a name
  = getattr st a name.
Proof.
  induction kwargs as [| [k v] kwargs IH]; intros st Hname; cbn; [done |].
  cbn in Hname. apply orb_false_elim in Hname as [Hk Hrest].
  apply String.eqb_neq in Hk.
  rewrite IH by exact Hrest.
  unfold getattr, setattr. cbn. rewrite lookup_insert_eq.
  unfold attr. rewrite lookup_insert_ne by congruence.
  destruct (heap st !! a); reflexivity.
Qed.

Lemma new_sets_os_id os_path os_id kwargs st a st' :
  OperatingSystemParameter_new os_path os_id kwargs st = (Return a, st') ->
  is_Some (heap st' !! a) /\ getattr st' a "os_id" = os_id.
Proof.
  unfold OperatingSystemParameter_new, allocate,
    OperatingSystemParameter_init.
  destruct (existsb (String.eqb "os_id") (map fst kwargs)) eqn:Hkw;
    [discriminate |].
  destruct (os_path os_id) as [p | e]; [| discriminate].
  intros [= <- <-]. split.
  - apply fold_setattr_heap_is_Some. cbn. rewrite lookup_insert_eq. by eexists.
  - rewrite fold_setattr_keeps by exact Hkw.
    unfold getattr. cbn. rewrite !lookup_insert_eq. cbn.
    unfold attr. rewrite lookup_insert_eq. reflexivity.
Qed.

(** X22.  [Meta.api_path] is one attribute shared by every
    [OperatingSystemParameter]: after a second instance is constructed
    it holds the path of the second operating system, while the first
    instance is a different object that still has its own [os_id].  (A
    construction that is given [os_id] as a keyword too raises
    [TypeError] and constructs nothing.) *)
Theorem Meta_path_follows_the_last_construction
    os_path first_id second_id kwargs1 kwargs2 st a st1 b st2 :
  OperatingSystemParameter_new os_path first_id kwargs1 st = (Return a, st1) ->
  OperatingSystemParameter_new os_path second_id kwargs2 st1 = (Return b, st2) ->
  a <> b
  /\ getattr st2 a "os_id" = first_id
  /\ ~ In "os_id" (map fst kwargs1)
  /\ ~ In "os_id" (map fst kwargs2)
  /\ exists p, os_path second_id = Return p
               /\ Meta_api_path st2 = PStr (p ++ "/parameters").
Proof.
  intros Hfirst Hsecond.
  destruct (new_sets_os_id _ _ _ _ _ _ Hfirst) as [Hlive Hos].
  assert (Hfresh : heap st1 !! b = None).
  { apply (new_returns_fresh os_path second_id kwargs2). rewrite Hsecond.
    reflexivity. }
  pose proof (new_other os_path second_id kwargs2 st1 a Hlive) as Hkeep.
  rewrite Hsecond in Hkeep. cbn [snd] in Hkeep.
  split; [| split; [| split; [| split]]].
  - intros ->. rewrite Hfresh in Hlive. by destruct Hlive.
  - unfold getattr in *. rewrite Hkeep. exact Hos.
  - intros Hin.
    pose proof (new_raises_on_second_os_id os_path first_id kwargs1 st Hin)
      as Hraise.
    rewrite Hfirst in Hraise. discriminate Hraise.
  - intros Hin.
    pose proof (new_raises_on_second_os_id os_path second_id kwargs2 st1 Hin)
      as Hraise.
    rewrite Hsecond in Hraise. discriminate Hraise.
  - exact (new_rewrites_shared_path os_path _ _ _ _ _ Hsecond).
Qed.

Lemma Meta_path_follows_the_last_construction_witness :
  let os_path := fun os_id =>
    match os_id with
    | PInt n => Return (if n =? 1 then "api/operatingsystems/1"
                        else "api/operatingsystems/2")
    | _ => Raise TypeError
    end in
  let st := mkStore ∅ PNone in
  let r1 := OperatingSystemParameter_new os_path (PInt 1)
              [("name", PStr "n")] st in
  let r2 := OperatingSystemParameter_new os_path (PInt 2) [] (snd r1) in
  r1 = (Return 0%nat, snd r1)
  /\ r2 = (Return 1%nat, snd r2)
  /\ getattr (snd r2) 0%nat "os_id" = PInt 1
  /\ Meta_api_path (snd r2) = PStr "api/operatingsystems/2/parameters"
  /\ fst (OperatingSystemParameter_new os_path (PInt 2)
            [("os_id", PInt 3)] (snd r1)) = Raise TypeError.
Proof.
  intros os_path st r1 r2.
  assert (H1 : OperatingSystemParameter_new os_path (PInt 1)
                 [("name", PStr "n")] st = (Return 0%nat, snd r1))
    by (vm_compute; reflexivity).
  assert (H2 : OperatingSystemParameter_new os_path (PInt 2) [] (snd r1)
               = (Return 1%nat, snd r2))
    by (vm_compute; reflexivity).
  split; [exact H1 | split; [exact H2 |]].
  destruct (Meta_path_follows_the_last_construction
              os_path (PInt 1) (PInt 2) _ _ st _ _ _ _ H1 H2)
    as (_ & Hos & _ & _ & p & Hp & Hmeta).
  split; [exact Hos | split; [| reflexivity]].
  rewrite Hmeta. injection Hp as <-. reflexivity.
Defined.

(** ** The declarations taken together *)

(** X23.  Every relationship field of the module is one of the fields of
    its class and names a class that the module defines. *)
Theorem relationship_targets_exist cls fields field target :
  In (cls, fields) relationships ->
  In (field, target) fields ->
  (exists c, find_class cls = Some c /\ In field (cls_fields c))
  /\ (exists c, find_class target = Some c /\ cls_name c = target).
Proof.
  intros Hcls Hfield.
  assert (Hall : forallb relationships_resolve relationships = true)
    by (vm_compute; reflexivity).
  rewrite forallb_forall in Hall. specialize (Hall _ Hcls).
  unfold relationships_resolve in Hall. cbn [fst snd] in Hall.
  destruct (find_class cls) as [c |] eqn:Hc; [| discriminate Hall].
  rewrite forallb_forall in Hall. specialize (Hall _ Hfield).
  cbn [fst snd] in Hall. apply andb_prop in Hall as [Hin Htarget].
  split.
  - exists c. split; [reflexivity |].
    apply existsb_exists in Hin as [f [Hf Heq]].
    apply String.eqb_eq in Heq. subst f. exact Hf.
  - destruct (find_class target) as [t |] eqn:Ht; [| discriminate Htarget].
    exists t. split; [reflexivity |].
    unfold find_class in Ht. apply find_some in Ht as [_ Heq].
    apply String.eqb_eq in Heq. exact Heq.
Qed.

Lemma relationship_targets_exist_witness :
  In ("Architecture", [("operatingsystem", "OperatingSystem")]) relationships
  /\ In ("operatingsystem", "OperatingSystem")
        [("operatingsystem", "OperatingSystem")]
  /\ (exists c, find_class "OperatingSystem" = Some c
                /\ cls_name c = "OperatingSystem").
Proof.
  assert (H1 : In ("Architecture", [("operatingsystem", "OperatingSystem")])
                  relationships)
    by (cbn; right; left; reflexivity).
  assert (H2 : In ("operatingsystem", "OperatingSystem")
                  [("operatingsystem", "OperatingSystem")])
    by (left; reflexivity).
  split; [exact H1 | split; [exact H2 |]].
  exact (proj2 (relationship_targets_exist _ _ _ _ H1 H2)).
Defined.

(** X24.  No path string is declared by two classes: a declared path
    tells which class it belongs to. *)
Theorem declared_path_names_one_class c1 c2 p :
  In c1 entities -> In c2 entities ->
  In p (paths_of c1) -> In p (paths_of c2) ->
  cls_name c1 = cls_name c2.
Proof.
  intros H1 H2 Hp1 Hp2.
  assert (Hall :
    forallb (fun c1 =>
      forallb (fun c2 =>
        String.eqb (cls_name c1) (cls_name c2)
        || negb (existsb (fun p => existsb (String.eqb p) (paths_of c2))
                         (paths_of c1)))
        entities) entities = true)
    by (vm_compute; reflexivity).
  rewrite forallb_forall in Hall. specialize (Hall _ H1).
  rewrite forallb_forall in Hall. specialize (Hall _ H2).
  apply orb_prop in Hall as [Heq | Hno].
  - apply String.eqb_eq, Heq.
  - exfalso. apply negb_true_iff in Hno.
    assert (Hyes : existsb (fun p => existsb (String.eqb p) (paths_of c2))
                           (paths_of c1) = true).
    { apply existsb_exists. exists p. split; [exact Hp1 |].
      apply existsb_exists. exists p. split; [exact Hp2 |].
      apply String.eqb_refl. }
    congruence.
Qed.

Lemma declared_path_names_one_class_witness :
  let c1 := nth 0 entities (mkEntityClass "" [] None) in
  let c2 := nth 1 entities (mkEntityClass "" [] None) in
  In c1 entities
  /\ In c1 entities
  /\ In "katello/api/v2/activation_keys" (paths_of c1)
  /\ cls_name c1 = "ActivationKey"
  /\ (In "katello/api/v2/activation_keys" (paths_of c2) ->
      cls_name c2 = "ActivationKey").
Proof.
  intros c1 c2.
  assert (H1 : In c1 entities) by (left; reflexivity).
  assert (H2 : In c2 entities) by (right; left; reflexivity).
  assert (Hp : In "katello/api/v2/activation_keys" (paths_of c1))
    by (left; reflexivity).
  split; [exact H1 | split; [exact H1 | split; [exact Hp |]]].
  split; [exact (declared_path_names_one_class c1 c1 _ H1 H1 Hp Hp) |].
  intros Hp2.
  exact (eq_sym (declared_path_names_one_class c1 c2 _ H1 H2 Hp Hp2)).
Defined.
